(** * FP-Cyclegan, [models/networks.py]: a shallow embedding

    The file embeds the configuration logic of [models/networks.py]: the
    selectors that dispatch on a name ([get_norm_layer], [init_weights],
    [define_G], [cal_gradient_penalty], [GANLoss]), the constructors that
    assemble the networks as trees of [torch.nn] modules, the shape each
    assembled stack gives a tensor, and the loss dispatch.

    Conventions.
    - A Python exception is a value of [Exception]; a call that can raise
      returns a [result].
    - A Python [int] is a [Z], a Python [float] a binary64 [float]
      (this is what [PrimFloat] is), a [str] a [string].
    - A constructed [nn.Module] is a [Module]: a leaf [Layer] of the tensor
      library with its construction arguments, or a container with its class
      name and its registered children, in registration order.
    - The tensor library itself (what a convolution computes, what
      [mean] returns, automatic differentiation) is not part of the
      repository: its operations are the fields of the class [Torch].
    - The constructors and initializers of the library are taken on
      arguments they accept: positive channel counts, sizes that are not
      negative, a standard deviation or gain that is a non-negative number,
      devices the machine has.  What the library raises on other arguments
      is not modelled, and the statements carry these conditions. *)

From Stdlib Require Import ZArith List String Bool Lia Floats.
Import ListNotations.

Set Warnings "-register-all".
Open Scope string_scope.
Open Scope list_scope.
Open Scope Z_scope.

(** ** Exceptions and results *)

Inductive Exception : Type :=
| NotImplementedError (msg : string)
| TypeError (msg : string)
| AttributeError (msg : string)
| AssertionError
| IndexError (msg : string)
| ZeroDivisionError
| UnboundLocalError (msg : string)
| RuntimeError (msg : string)
| OverflowError (msg : string).

Inductive result (A : Type) : Type :=
| Ok (a : A)
| Raise (e : Exception).

Arguments Ok {A} a.
Arguments Raise {A} e.

Definition bind {A B : Type} (r : result A) (k : A -> result B) : result B :=
  match r with
  | Ok a => k a
  | Raise e => Raise e
  end.

Declare Scope py_scope.
Delimit Scope py_scope with py.
Notation "x <- c ;; k" := (bind c (fun x => k))
  (at level 61, c at next level, right associativity) : py_scope.
Notation "' pat <- c ;; k" := (bind c (fun pat => k))
  (at level 61, pat pattern, c at next level, right associativity) : py_scope.
Open Scope py_scope.

(** Python's ['...%s...' % s] with one placeholder. *)
Definition fmt1 (before s after : string) : string :=
  String.append before (String.append s after).

(** [s in names] for a list of string literals. *)
Definition str_in (s : string) (names : list string) : bool :=
  existsb (String.eqb s) names.

(** ** Modules *)

(** The leaf modules the file instantiates, each with the arguments it is
    constructed with.  [Identity] is both the class of that name defined in
    the file and [nn.Identity]; [LayerNorm] is the class defined in the file;
    [Involution2d], [DropPath] and [Resize] come from the packages
    [involution], [timm] and [torchvision]; the others from [torch.nn]. *)
Inductive Layer : Type :=
| Identity
| LayerNorm (normalized_shape : Z) (eps : float) (data_format : string)
| BatchNorm2d (num_features : Z) (affine track_running_stats : bool)
| InstanceNorm2d (num_features : Z) (affine track_running_stats : bool)
| ReflectionPad2d (padding : Z)
| ReplicationPad2d (padding : Z)
| Conv2d (in_channels out_channels kernel_size stride padding groups : Z)
         (bias : bool)
| ConvTranspose2d (in_channels out_channels kernel_size stride padding
                   output_padding : Z) (bias : bool)
| Linear (in_features out_features : Z)
| ReLU (inplace : bool)
| LeakyReLU (negative_slope : float) (inplace : bool)
| Tanh
| GELU
| Dropout (p : float)
| DropPath (drop_prob : float)
| Resize (height width : Z)
| Involution2d (in_channels out_channels : Z).

(** An [nn.Module] instance: a leaf, or a container ([nn.Sequential],
    [nn.ModuleList], or one of the file's own classes) with the child
    modules it registered, in the order it registered them. *)
Inductive Module : Type :=
| Leaf (l : Layer)
| Node (classname : string) (children : list Module).

Definition Sequential (ms : list Module) : Module := Node "Sequential" ms.
Definition ModuleList (ms : list Module) : Module := Node "ModuleList" ms.

(** [m.__class__.__name__] *)
Definition layer_classname (l : Layer) : string :=
  match l with
  | Identity => "Identity"
  | LayerNorm _ _ _ => "LayerNorm"
  | BatchNorm2d _ _ _ => "BatchNorm2d"
  | InstanceNorm2d _ _ _ => "InstanceNorm2d"
  | ReflectionPad2d _ => "ReflectionPad2d"
  | ReplicationPad2d _ => "ReplicationPad2d"
  | Conv2d _ _ _ _ _ _ _ => "Conv2d"
  | ConvTranspose2d _ _ _ _ _ _ _ => "ConvTranspose2d"
  | Linear _ _ => "Linear"
  | ReLU _ => "ReLU"
  | LeakyReLU _ _ => "LeakyReLU"
  | Tanh => "Tanh"
  | GELU => "GELU"
  | Dropout _ => "Dropout"
  | DropPath _ => "DropPath"
  | Resize _ _ => "Resize"
  | Involution2d _ _ => "Involution2d"
  end.

Definition classname_of (m : Module) : string :=
  match m with
  | Leaf l => layer_classname l
  | Node c _ => c
  end.

(** ** [LayerNorm.__init__] and [get_norm_layer] *)

(** [LayerNorm.__init__(self, normalized_shape, eps=1e-6,
    data_format="channels_last")].  [normalized_shape] has no default: a
    call that does not pass it ([None] here) is refused by Python before
    the body runs.  The parameters are allocated before [data_format] is
    looked at; [normalized_shape] is taken not negative, so the allocation
    goes through. *)
Definition LayerNorm_init (normalized_shape : option Z) (eps : float)
    (data_format : string) : result Layer :=
  match normalized_shape with
  | None =>
      Raise (TypeError
        "__init__() missing 1 required positional argument: 'normalized_shape'")
  | Some n =>
      if negb (str_in data_format ["channels_last"; "channels_first"])
      then Raise (NotImplementedError "")
      else Ok (LayerNorm n eps data_format)
  end.

Definition eps_default : float := 0x1.0c6f7a0b5ed8dp-20%float.   (* 1e-6 *)

(** The classes a normalization factory can stand for. *)
Inductive NormClass : Type := cls_BatchNorm2d | cls_InstanceNorm2d.

(** What the file binds to the name [norm_layer]: a [functools.partial] over
    a class, a class itself (the default argument [nn.BatchNorm2d] of the
    constructors), a module instance (what [LayerNorm()] would be), or the
    local function [def norm_layer(x): return Identity()]. *)
Inductive NormLayer : Type :=
| partial (func : NormClass) (affine track_running_stats : bool)
| class_ (c : NormClass)
| instance (m : Layer)
| fun_Identity.

(** [norm_layer(n)].  The classes' own defaults are [affine=True,
    track_running_stats=True] for [BatchNorm2d] and [False, False] for
    [InstanceNorm2d].  Calling a module instance on an [int] runs its
    [forward] on the [int], which the tensor library refuses. *)
Definition call_norm_layer (nl : NormLayer) (n : Z) : result Layer :=
  match nl with
  | partial cls_BatchNorm2d a t => Ok (BatchNorm2d n a t)
  | partial cls_InstanceNorm2d a t => Ok (InstanceNorm2d n a t)
  | class_ cls_BatchNorm2d => Ok (BatchNorm2d n true true)
  | class_ cls_InstanceNorm2d => Ok (InstanceNorm2d n false false)
  | instance _ =>
      Raise (TypeError "layer_norm(): argument 'input' must be Tensor, not int")
  | fun_Identity => Ok Identity
  end.

Definition get_norm_layer (norm_type : string) : result NormLayer :=
  if String.eqb norm_type "batch" then
    Ok (partial cls_BatchNorm2d true true)
  else if String.eqb norm_type "instance" then
    Ok (partial cls_InstanceNorm2d false false)
  else if String.eqb norm_type "layer" then
    m <- LayerNorm_init None eps_default "channels_last" ;;
    Ok (instance m)
  else if String.eqb norm_type "none" then
    Ok fun_Identity
  else
    Raise (NotImplementedError
             (fmt1 "normalization layer [" norm_type "] is not found")).

(** [use_bias] as every constructor computes it:
    [norm_layer.func == nn.InstanceNorm2d] for a partial,
    [norm_layer == nn.InstanceNorm2d] otherwise. *)
Definition use_bias_of (norm_layer : NormLayer) : bool :=
  match norm_layer with
  | partial cls_InstanceNorm2d _ _ => true
  | partial cls_BatchNorm2d _ _ => false
  | class_ cls_InstanceNorm2d => true
  | class_ cls_BatchNorm2d => false
  | instance _ => false
  | fun_Identity => false
  end.

(** ** Effects of initialization

    [init_weights] prints one line and overwrites parameters in place.  Both
    are recorded as events, in program order; what is recorded before an
    exception stays recorded, as the writes stay done. *)

(** The initializers of [torch.nn.init] the file calls, with their
    arguments after the tensor. *)
Inductive InitCall : Type :=
| normal_ (mean std : float)
| xavier_normal_ (gain : float)
| kaiming_normal_ (a : float) (mode : string)
| orthogonal_ (gain : float)
| constant_ (val : float).

Inductive Event : Type :=
| Printed (line : string)
| InitData (m : Module) (attr : string) (call : InitCall).

Definition Eff (A : Type) : Type := (list Event * result A)%type.

Definition ret {A : Type} (a : A) : Eff A := ([], Ok a).
Definition throw {A : Type} (e : Exception) : Eff A := ([], Raise e).
Definition tell (ev : Event) : Eff unit := ([ev], Ok tt).
Definition lift {A : Type} (r : result A) : Eff A := ([], r).

Definition ebind {A B : Type} (c : Eff A) (k : A -> Eff B) : Eff B :=
  match c with
  | (log, Ok a) => let (log', r) := k a in (log ++ log', r)
  | (log, Raise e) => (log, Raise e)
  end.

Notation "x <~ c ;; k" := (ebind c (fun x => k))
  (at level 61, c at next level, right associativity) : py_scope.
Notation "c >> k" := (ebind c (fun _ => k))
  (at level 61, right associativity) : py_scope.

(** ** [init_weights] and [init_net] *)

(** An attribute of a module that holds a parameter: not there, there and
    [None], or there and a tensor. *)
Inductive Attr : Type := Missing | IsNone | IsTensor.

Definition opt_param (present : bool) : Attr :=
  if present then IsTensor else IsNone.

(** [m.weight]: convolutions and [Linear] always own one; the normalization
    layers of [torch.nn] own one when [affine], and hold [None] otherwise;
    [LayerNorm] declares one in its [__init__]. *)
Definition weight_of (m : Module) : Attr :=
  match m with
  | Leaf (Conv2d _ _ _ _ _ _ _) => IsTensor
  | Leaf (ConvTranspose2d _ _ _ _ _ _ _) => IsTensor
  | Leaf (Linear _ _) => IsTensor
  | Leaf (BatchNorm2d _ affine _) => opt_param affine
  | Leaf (InstanceNorm2d _ affine _) => opt_param affine
  | Leaf (LayerNorm _ _ _) => IsTensor
  | _ => Missing
  end.

(** [m.bias]: [None] for a convolution built with [bias=False]; the file
    builds every [Linear] with the default [bias=True]. *)
Definition bias_of (m : Module) : Attr :=
  match m with
  | Leaf (Conv2d _ _ _ _ _ _ bias) => opt_param bias
  | Leaf (ConvTranspose2d _ _ _ _ _ _ bias) => opt_param bias
  | Leaf (Linear _ _) => IsTensor
  | Leaf (BatchNorm2d _ affine _) => opt_param affine
  | Leaf (InstanceNorm2d _ affine _) => opt_param affine
  | Leaf (LayerNorm _ _ _) => IsTensor
  | _ => Missing
  end.

Definition hasattr (a : Attr) : bool :=
  match a with Missing => false | _ => true end.

Definition is_not_None (a : Attr) : bool :=
  match a with IsTensor => true | _ => false end.

(** [classname.find(sub) != -1] *)
Definition found (sub classname : string) : bool :=
  match String.index 0 sub classname with
  | Some _ => true
  | None => false
  end.

(** [init.<call>(m.<attr>.data, ...)]: reading [.data] off [None], or off
    an attribute that is not there, raises.  The call itself is taken on
    arguments [torch.nn.init] accepts: [normal_] and [xavier_normal_]
    refuse a standard deviation that is negative or not a number. *)
Definition init_data (m : Module) (attr : string) (a : Attr)
    (call : InitCall) : Eff unit :=
  match a with
  | IsTensor => tell (InitData m attr call)
  | IsNone =>
      throw (AttributeError "'NoneType' object has no attribute 'data'")
  | Missing =>
      throw (AttributeError
               (String.append
                  (fmt1 "'" (classname_of m) "' object has no attribute ")
                  (fmt1 "'" attr "'")))
  end.

Definition init_func (init_type : string) (init_gain : float) (m : Module)
    : Eff unit :=
  let classname := classname_of m in
  if hasattr (weight_of m)
     && (found "Conv" classname || found "Linear" classname) then
    (if String.eqb init_type "normal" then
       init_data m "weight" (weight_of m) (normal_ 0 init_gain)
     else if String.eqb init_type "xavier" then
       init_data m "weight" (weight_of m) (xavier_normal_ init_gain)
     else if String.eqb init_type "kaiming" then
       init_data m "weight" (weight_of m) (kaiming_normal_ 0 "fan_in")
     else if String.eqb init_type "orthogonal" then
       init_data m "weight" (weight_of m) (orthogonal_ init_gain)
     else
       throw (NotImplementedError
                (fmt1 "initialization method [" init_type
                      "] is not implemented"))) >>
    (if hasattr (bias_of m) && is_not_None (bias_of m) then
       init_data m "bias" (bias_of m) (constant_ 0)
     else ret tt)
  else if found "BatchNorm2d" classname then
    init_data m "weight" (weight_of m) (normal_ 1 init_gain) >>
    init_data m "bias" (bias_of m) (constant_ 0)
  else ret tt.

(** [nn.Module.apply(fn)]: the children first, in order, then the module
    itself. *)
Fixpoint apply (fn : Module -> Eff unit) (m : Module) : Eff unit :=
  match m with
  | Leaf _ => fn m
  | Node _ children =>
      (fix each (ms : list Module) : Eff unit :=
         match ms with
         | [] => ret tt
         | c :: ms' => apply fn c >> each ms'
         end) children >>
      fn m
  end.

Definition init_weights (net : Module) (init_type : string)
    (init_gain : float) : Eff unit :=
  tell (Printed (String.append "initialize network with " init_type)) >>
  apply (init_func init_type init_gain) net.

(** [init_net].  [cuda] is what [torch.cuda.is_available()] answers.
    [nn.DataParallel] registers the wrapped network as its only child.
    [net.to(gpu_ids[0])] and [nn.DataParallel(net, gpu_ids)] are taken on
    devices the machine has: they raise on others. *)
Definition init_net (cuda : bool) (net : Module) (init_type : string)
    (init_gain : float) (gpu_ids : list Z) : Eff Module :=
  net <~ (if (0 <? Z.of_nat (List.length gpu_ids)) then
            if cuda then ret (Node "DataParallel" [net])
            else throw AssertionError
          else ret net) ;;
  init_weights net init_type init_gain >>
  ret net.

(** ** Helpers for the constructors *)

(** [for x in xs: acc = body(x, acc)], stopping at the first exception. *)
Fixpoint for_ {A : Type} (xs : list Z) (acc : A)
    (body : Z -> A -> result A) : result A :=
  match xs with
  | [] => Ok acc
  | x :: xs' => acc' <- body x acc ;; for_ xs' acc' body
  end.

(** [range(n)] *)
Definition range (n : Z) : list Z :=
  map Z.of_nat (seq 0 (Z.to_nat n)).

(** [l[i]]: a negative [i] counts from the end. *)
Definition index {A : Type} (l : list A) (i : Z) : result A :=
  let n := Z.of_nat (List.length l) in
  let j := if i <? 0 then i + n else i in
  match (if 0 <=? j then nth_error l (Z.to_nat j) else None) with
  | Some a => Ok a
  | None => Raise (IndexError "list index out of range")
  end.

(** The elements of a list literal, evaluated left to right. *)
Fixpoint sequence {A : Type} (rs : list (result A)) : result (list A) :=
  match rs with
  | [] => Ok []
  | r :: rs' => a <- r ;; l <- sequence rs' ;; Ok (a :: l)
  end.

(** [nn.Sequential(l1, ..., ln)] over leaf layers. *)
Definition Sequential_of (ls : list (result Layer)) : result Module :=
  ms <- sequence ls ;; Ok (Sequential (map Leaf ms)).

(** [float(z)] for a Python [int] [0 <= z < 2^63]. *)
Definition float_of_Z (z : Z) : float := PrimFloat.of_uint63 (Uint63.of_Z z).

Definition half : float := 0x1p-1%float.                     (* 0.5 *)
Definition two_tenths : float := 0x1.999999999999ap-3%float. (* 0.2 *)

(** ** [ResnetBlock] and [ResnetGenerator] *)

(** The padding step of [build_conv_block]: the pad layer to append, if any,
    and the value of [p]. *)
Definition padding_step (padding_type : string)
    : result (list Module * Z) :=
  if String.eqb padding_type "reflect" then
    Ok ([Leaf (ReflectionPad2d 1)], 0)
  else if String.eqb padding_type "replicate" then
    Ok ([Leaf (ReplicationPad2d 1)], 0)
  else if String.eqb padding_type "zero" then
    Ok ([], 1)
  else
    Raise (NotImplementedError
             (fmt1 "padding [" padding_type "] is not implemented")).

(** [ResnetBlock.build_conv_block]: the list [conv_block] it accumulates. *)
Definition build_conv_block (dim : Z) (padding_type : string)
    (norm_layer : NormLayer) (use_dropout use_bias : bool)
    : result (list Module) :=
  let conv_block := [] in
  '(pad, p) <- padding_step padding_type ;;
  let conv_block := conv_block ++ pad in
  n1 <- call_norm_layer norm_layer dim ;;
  let conv_block := conv_block ++
    [Leaf (Conv2d dim dim 3 1 p 1 use_bias); Leaf n1; Leaf (ReLU true)] in
  let conv_block :=
    if use_dropout then conv_block ++ [Leaf (Dropout half)]
    else conv_block in
  '(pad, p) <- padding_step padding_type ;;
  let conv_block := conv_block ++ pad in
  n2 <- call_norm_layer norm_layer dim ;;
  let conv_block := conv_block ++
    [Leaf (Conv2d dim dim 3 1 p 1 use_bias); Leaf n2] in
  Ok conv_block.

(** [ResnetBlock(dim, padding_type, norm_layer, use_dropout, use_bias)]:
    its only registered child is [self.conv_block]. *)
Definition ResnetBlock (dim : Z) (padding_type : string)
    (norm_layer : NormLayer) (use_dropout use_bias : bool) : result Module :=
  conv_block <- build_conv_block dim padding_type norm_layer use_dropout
                                 use_bias ;;
  Ok (Node "ResnetBlock" [Sequential conv_block]).

(** [ResnetGenerator.__init__].  [int(ngf * mult / 2)] truncates an exact
    quotient ([mult] is 4 or 2). *)
Definition ResnetGenerator (input_nc output_nc ngf : Z)
    (norm_layer : NormLayer) (use_dropout : bool) (n_blocks : Z)
    (padding_type : string) : result Module :=
  if negb (0 <=? n_blocks) then Raise AssertionError else
  let use_bias := use_bias_of norm_layer in
  n0 <- call_norm_layer norm_layer ngf ;;
  let model :=
    [Leaf (ReflectionPad2d 3);
     Leaf (Conv2d input_nc ngf 7 1 0 1 use_bias);
     Leaf n0;
     Leaf (ReLU true)] in
  let n_downsampling := 2 in
  model <- for_ (range n_downsampling) model (fun i model =>
    let mult := 2 ^ i in
    n <- call_norm_layer norm_layer (ngf * mult * 2) ;;
    Ok (model ++
        [Leaf (Conv2d (ngf * mult) (ngf * mult * 2) 3 2 1 1 use_bias);
         Leaf n;
         Leaf (ReLU true)])) ;;
  let mult := 2 ^ n_downsampling in
  model <- for_ (range n_blocks) model (fun i model =>
    b <- ResnetBlock (ngf * mult) padding_type norm_layer use_dropout
                     use_bias ;;
    Ok (model ++ [b])) ;;
  model <- for_ (range n_downsampling) model (fun i model =>
    let mult := 2 ^ (n_downsampling - i) in
    n <- call_norm_layer norm_layer (Z.quot (ngf * mult) 2) ;;
    Ok (model ++
        [Leaf (ConvTranspose2d (ngf * mult) (Z.quot (ngf * mult) 2)
                               3 2 1 1 use_bias);
         Leaf n;
         Leaf (ReLU true)])) ;;
  let model := model ++ [Leaf (ReflectionPad2d 3)] in
  let model := model ++ [Leaf (Conv2d ngf output_nc 7 1 0 1 true)] in
  let model := model ++ [Leaf Tanh] in
  Ok (Node "ResnetGenerator" [Sequential model]).

(** ** [UnetSkipConnectionBlock] and [UnetGenerator] *)

(** The list [down + [submodule] + up] handed to [nn.Sequential]: a
    [submodule] that is [None] is not a module. *)
Definition with_submodule (down : list Module) (submodule : option Module)
    (up : list Module) : result (list Module) :=
  match submodule with
  | Some sub => Ok (down ++ [sub] ++ up)
  | None => Raise (TypeError "NoneType is not a Module subclass")
  end.

Definition UnetSkipConnectionBlock (outer_nc inner_nc : Z)
    (input_nc : option Z) (submodule : option Module)
    (outermost innermost : bool) (norm_layer : NormLayer)
    (use_dropout : bool) : result Module :=
  let use_bias := use_bias_of norm_layer in
  let input_nc := match input_nc with None => outer_nc | Some c => c end in
  let downconv := Leaf (Conv2d input_nc inner_nc 4 2 1 1 use_bias) in
  let downrelu := Leaf (LeakyReLU two_tenths true) in
  downnorm <- call_norm_layer norm_layer inner_nc ;;
  let uprelu := Leaf (ReLU true) in
  upnorm <- call_norm_layer norm_layer outer_nc ;;
  model <-
    (if outermost then
       let upconv := Leaf (ConvTranspose2d (inner_nc * 2) outer_nc
                                           4 2 1 0 true) in
       let down := [downconv] in
       let up := [uprelu; upconv; Leaf Tanh] in
       with_submodule down submodule up
     else if innermost then
       let upconv := Leaf (ConvTranspose2d inner_nc outer_nc
                                           4 2 1 0 use_bias) in
       let down := [downrelu; downconv] in
       let up := [uprelu; upconv; Leaf upnorm] in
       Ok (down ++ up)
     else
       let upconv := Leaf (ConvTranspose2d (inner_nc * 2) outer_nc
                                           4 2 1 0 use_bias) in
       let down := [downrelu; downconv; Leaf downnorm] in
       let up := [uprelu; upconv; Leaf upnorm] in
       if use_dropout then
         with_submodule down submodule (up ++ [Leaf (Dropout half)])
       else
         with_submodule down submodule up) ;;
  Ok (Node "UnetSkipConnectionBlock" [Sequential model]).

Definition UnetGenerator (input_nc output_nc num_downs ngf : Z)
    (norm_layer : NormLayer) (use_dropout : bool) : result Module :=
  unet_block <- UnetSkipConnectionBlock (ngf * 8) (ngf * 8) None None
                  false true norm_layer false ;;
  unet_block <- for_ (range (num_downs - 5)) unet_block (fun i unet_block =>
    UnetSkipConnectionBlock (ngf * 8) (ngf * 8) None (Some unet_block)
      false false norm_layer use_dropout) ;;
  unet_block <- UnetSkipConnectionBlock (ngf * 4) (ngf * 8) None
                  (Some unet_block) false false norm_layer false ;;
  unet_block <- UnetSkipConnectionBlock (ngf * 2) (ngf * 4) None
                  (Some unet_block) false false norm_layer false ;;
  unet_block <- UnetSkipConnectionBlock ngf (ngf * 2) None
                  (Some unet_block) false false norm_layer false ;;
  model <- UnetSkipConnectionBlock output_nc ngf (Some input_nc)
             (Some unet_block) true false norm_layer false ;;
  Ok (Node "UnetGenerator" [model]).

(** ** ConvNeXt blocks and generators *)

Definition layer_scale_default : float := 0x1.0c6f7a0b5ed8dp-20%float. (* 1e-6 *)
Definition depths_default : list Z := [3; 3; 9; 3].
Definition dims_default : list Z := [96; 192; 384; 768].

(** [DropPath(drop_path) if drop_path > 0. else nn.Identity()] *)
Definition drop_path_module (drop_path : float) : Module :=
  if (0 <? drop_path)%float then Leaf (DropPath drop_path)
  else Leaf Identity.

(** [Block(dim, drop_path, layer_scale_init_value)], for a positive [dim]
    (the depthwise convolution has [groups=dim]).  Children in the order
    [__init__] assigns them; [gamma] is a parameter, not a child. *)
Definition Block (dim : Z) (drop_path layer_scale_init_value : float)
    : result Module :=
  let dwconv := Leaf (Conv2d dim dim 3 1 1 dim true) in
  norm <- LayerNorm_init (Some dim) eps_default "channels_last" ;;
  let pwconv1 := Leaf (Linear dim (4 * dim)) in
  let act := Leaf GELU in
  let pwconv2 := Leaf (Linear (4 * dim) dim) in
  Ok (Node "Block"
        [dwconv; Leaf norm; pwconv1; act; pwconv2;
         drop_path_module drop_path]).

(** [InvBlock]: as [Block], with [Involution2d(in_channels=dim,
    out_channels=dim)] for the spatial mixing. *)
Definition InvBlock (dim : Z) (drop_path layer_scale_init_value : float)
    : result Module :=
  let dwconv := Leaf (Involution2d dim dim) in
  norm <- LayerNorm_init (Some dim) eps_default "channels_last" ;;
  let pwconv1 := Leaf (Linear dim (4 * dim)) in
  let act := Leaf GELU in
  let pwconv2 := Leaf (Linear (4 * dim) dim) in
  Ok (Node "InvBlock"
        [dwconv; Leaf norm; pwconv1; act; pwconv2;
         drop_path_module drop_path]).

(** [torch.linspace(start, end, steps)] read back with [.item()]: [start]
    alone for one step, [start + i * (end - start) / (steps - 1)] otherwise.
    The library computes it in single precision; the two agree when
    [start = end], which is how the file calls it through [define_G]. *)
Definition linspace (start end_ : float) (steps : Z) : list float :=
  if steps =? 1 then [start]
  else
    map (fun i =>
           (start
            + float_of_Z i * ((end_ - start) / float_of_Z (steps - 1)))%float)
        (range steps).

Definition sum (l : list Z) : Z := fold_left Z.add l 0.

(** The loop that fills the [nn.ModuleList] of stages, for either block
    class. *)
Definition stages (block : Z -> float -> float -> result Module)
    (drop_path_rate : float) (depths dims : list Z)
    (layer_scale_init_value : float) : result Module :=
  let dp_rates := linspace 0 drop_path_rate (sum depths) in
  let cur := 0 in
  '(stage_list, cur) <- for_ (range 4) ([], cur) (fun i '(stage_list, cur) =>
    depth_i <- index depths i ;;
    blocks <- for_ (range depth_i) [] (fun j blocks =>
      dim_i <- index dims i ;;
      dp <- index dp_rates (cur + j) ;;
      b <- block dim_i dp layer_scale_init_value ;;
      Ok (blocks ++ [b])) ;;
    depth_i <- index depths i ;;
    Ok (stage_list ++ [Sequential blocks], cur + depth_i)) ;;
  Ok (ModuleList stage_list).

Definition LN_first (n : Z) : result Layer :=
  LayerNorm_init (Some n) eps_default "channels_first".

Definition ConvnextGenerator (input_nc output_nc ngf : Z)
    (drop_path_rate : float) (depths dims : list Z)
    (layer_scale_init_value : float) : result Module :=
  let features := ngf in
  Convnextblock <- stages Block drop_path_rate depths dims
                          layer_scale_init_value ;;
  encoder1 <- Sequential_of
    [Ok (Conv2d input_nc features 4 4 0 1 true); LN_first features] ;;
  encoder2 <- Sequential_of
    [Ok (Conv2d features (features * 2) 2 2 0 1 true);
     LN_first (features * 2)] ;;
  encoder3 <- Sequential_of
    [Ok (Conv2d (features * 2) (features * 4) 2 2 0 1 true);
     LN_first (features * 4)] ;;
  encoder4 <- Sequential_of
    [Ok (Conv2d (features * 4) (features * 8) 2 2 0 1 true);
     LN_first (features * 8)] ;;
  decoder4 <- Sequential_of
    [Ok (ConvTranspose2d (features * 8) (features * 4) 2 2 0 0 true);
     LN_first (features * 4)] ;;
  decoder3 <- Sequential_of
    [Ok (ConvTranspose2d (features * 4) (features * 2) 2 2 0 0 true);
     LN_first (features * 2)] ;;
  decoder2 <- Sequential_of
    [Ok (ConvTranspose2d (features * 2) features 2 2 0 0 true);
     LN_first features] ;;
  decoder1 <- Sequential_of
    [Ok (ConvTranspose2d features output_nc 4 4 0 0 true);
     LN_first output_nc] ;;
  upconv4 <- Sequential_of
    [Ok (ConvTranspose2d (features * 8) (features * 4) 3 1 1 0 false);
     LN_first (features * 4)] ;;
  upconv3 <- Sequential_of
    [Ok (ConvTranspose2d (features * 4) (features * 2) 3 1 1 0 false);
     LN_first (features * 2)] ;;
  upconv2 <- Sequential_of
    [Ok (ConvTranspose2d (features * 2) features 3 1 1 0 false);
     LN_first features] ;;
  upconv1 <- Sequential_of
    [Ok (ConvTranspose2d (features * 8) (features * 4) 3 1 1 0 false);
     LN_first (features * 4)] ;;
  let act := Leaf Tanh in
  Ok (Node "ConvnextGenerator"
        [Convnextblock; encoder1; encoder2; encoder3; encoder4;
         decoder4; decoder3; decoder2; decoder1;
         upconv4; upconv3; upconv2; upconv1; act]).

Definition ConvnextBIGenerator (input_nc output_nc ngf : Z)
    (drop_path_rate : float) (depths dims : list Z)
    (layer_scale_init_value : float) : result Module :=
  let features := ngf in
  Convnextblock <- stages Block drop_path_rate depths dims
                          layer_scale_init_value ;;
  encoder1 <- Sequential_of
    [Ok (Conv2d input_nc features 4 4 0 1 true); LN_first features] ;;
  encoder2 <- Sequential_of
    [Ok (Conv2d features (features * 2) 2 2 0 1 true);
     LN_first (features * 2)] ;;
  encoder3 <- Sequential_of
    [Ok (Conv2d (features * 2) (features * 4) 2 2 0 1 true);
     LN_first (features * 4)] ;;
  encoder4 <- Sequential_of
    [Ok (Conv2d (features * 4) (features * 8) 2 2 0 1 true);
     LN_first (features * 8)] ;;
  decoder4 <- Sequential_of
    [Ok (Resize 14 14);
     Ok (Conv2d (features * 8) (features * 4) 1 1 0 1 true);
     LN_first (features * 4)] ;;
  decoder3 <- Sequential_of
    [Ok (Resize 28 28);
     Ok (Conv2d (features * 4) (features * 2) 1 1 0 1 true);
     LN_first (features * 2)] ;;
  decoder2 <- Sequential_of
    [Ok (ConvTranspose2d (features * 2) features 2 2 0 0 true);
     LN_first features] ;;
  decoder1 <- Sequential_of
    [Ok (ConvTranspose2d features output_nc 4 4 0 0 true);
     LN_first output_nc] ;;
  decoder0 <- Sequential_of
    [Ok (Resize 224 224);
     Ok (ConvTranspose2d output_nc output_nc 1 1 0 0 true);
     LN_first output_nc] ;;
  upconv4 <- Sequential_of
    [Ok (Conv2d (features * 8) (features * 4) 3 1 1 1 false);
     LN_first (features * 4)] ;;
  upconv3 <- Sequential_of
    [Ok (Conv2d (features * 4) (features * 2) 3 1 1 1 false);
     LN_first (features * 2)] ;;
  upconv2 <- Sequential_of
    [Ok (Conv2d (features * 2) features 3 1 1 1 false);
     LN_first features] ;;
  upconv1 <- Sequential_of
    [Ok (Conv2d (features * 8) (features * 4) 3 1 1 1 false);
     LN_first (features * 4)] ;;
  let act := Leaf Tanh in
  Ok (Node "ConvnextBIGenerator"
        [Convnextblock; encoder1; encoder2; encoder3; encoder4;
         decoder4; decoder3; decoder2; decoder1; decoder0;
         upconv4; upconv3; upconv2; upconv1; act]).

Definition InvnextGenerator (input_nc output_nc ngf : Z)
    (drop_path_rate : float) (depths dims : list Z)
    (layer_scale_init_value : float) : result Module :=
  let features := ngf in
  InvnextBlock <- stages InvBlock drop_path_rate depths dims
                         layer_scale_init_value ;;
  encoder1 <- Sequential_of
    [Ok (Conv2d input_nc features 4 4 0 1 true); LN_first features] ;;
  encoder2 <- Sequential_of
    [Ok (Conv2d features (features * 2) 2 2 0 1 true);
     LN_first (features * 2)] ;;
  encoder3 <- Sequential_of
    [Ok (Conv2d (features * 2) (features * 4) 2 2 0 1 true);
     LN_first (features * 4)] ;;
  encoder4 <- Sequential_of
    [Ok (Conv2d (features * 4) (features * 8) 2 2 0 1 true);
     LN_first (features * 8)] ;;
  decoder4 <- Sequential_of
    [Ok (ConvTranspose2d (features * 8) (features * 4) 2 2 0 0 true);
     LN_first (features * 4)] ;;
  decoder3 <- Sequential_of
    [Ok (ConvTranspose2d (features * 4) (features * 2) 2 2 0 0 true);
     LN_first (features * 2)] ;;
  decoder2 <- Sequential_of
    [Ok (ConvTranspose2d (features * 2) features 2 2 0 0 true);
     LN_first features] ;;
  decoder1 <- Sequential_of
    [Ok (ConvTranspose2d features output_nc 4 4 0 0 true);
     LN_first output_nc] ;;
  upconv4 <- Sequential_of
    [Ok (ConvTranspose2d (features * 8) (features * 4) 3 1 1 0 false);
     LN_first (features * 4)] ;;
  upconv3 <- Sequential_of
    [Ok (ConvTranspose2d (features * 4) (features * 2) 3 1 1 0 false);
     LN_first (features * 2)] ;;
  upconv2 <- Sequential_of
    [Ok (ConvTranspose2d (features * 2) features 3 1 1 0 false);
     LN_first features] ;;
  upconv1 <- Sequential_of
    [Ok (ConvTranspose2d (features * 8) (features * 4) 3 1 1 0 false);
     LN_first (features * 4)] ;;
  let act := Leaf Tanh in
  Ok (Node "InvnextGenerator"
        [InvnextBlock; encoder1; encoder2; encoder3; encoder4;
         decoder4; decoder3; decoder2; decoder1;
         upconv4; upconv3; upconv2; upconv1; act]).

(** ** [define_G] *)

(** The [if]/[elif] chain of [define_G] that binds [net].  The first two
    ResNet kinds leave [norm_layer] and the three ConvNeXt kinds leave every
    keyword at the constructor's default. *)
Definition define_G_net (input_nc output_nc ngf : Z) (netG : string)
    (norm_layer : NormLayer) (use_dropout : bool) : result Module :=
  if String.eqb netG "resnet_9blocks" then
    ResnetGenerator input_nc output_nc ngf (class_ cls_BatchNorm2d)
                    use_dropout 9 "reflect"
  else if String.eqb netG "resnet_6blocks" then
    ResnetGenerator input_nc output_nc ngf (class_ cls_BatchNorm2d)
                    use_dropout 6 "reflect"
  else if String.eqb netG "resnet_1blocks" then
    ResnetGenerator input_nc output_nc ngf norm_layer
                    use_dropout 1 "reflect"
  else if String.eqb netG "convnext" then
    ConvnextGenerator input_nc output_nc ngf 0 depths_default
                      dims_default layer_scale_default
  else if String.eqb netG "invnext" then
    InvnextGenerator input_nc output_nc ngf 0 depths_default
                     dims_default layer_scale_default
  else if String.eqb netG "Convnext_Interpolation" then
    ConvnextBIGenerator input_nc output_nc ngf 0 depths_default
                        dims_default layer_scale_default
  else if String.eqb netG "unet_128" then
    UnetGenerator input_nc output_nc 7 ngf norm_layer use_dropout
  else if String.eqb netG "unet_256" then
    UnetGenerator input_nc output_nc 8 ngf norm_layer use_dropout
  else
    Raise (NotImplementedError
             (fmt1 "Generator model name [" netG "] is not recognized")).

(** [define_G(input_nc, output_nc, ngf, netG, norm, use_dropout, init_type,
    init_gain, gpu_ids)]. *)
Definition define_G (cuda : bool) (input_nc output_nc ngf : Z)
    (netG norm : string) (use_dropout : bool) (init_type : string)
    (init_gain : float) (gpu_ids : list Z) : Eff Module :=
  norm_layer <~ lift (get_norm_layer norm) ;;
  net <~ lift (define_G_net input_nc output_nc ngf netG norm_layer
                            use_dropout) ;;
  init_net cuda net init_type init_gain gpu_ids.

(** ** [Discriminator_Classify] *)

(** [Discriminator_Classify(input_nc, ndf)]: children [conv] and
    [classify]. *)
Definition Discriminator_Classify (input_nc ndf : Z) : Module :=
  let conv := Sequential
    [Leaf (Conv2d input_nc ndf 4 2 1 1 true);
     Leaf (BatchNorm2d ndf true true);
     Leaf (LeakyReLU two_tenths true);
     Leaf (Conv2d ndf (ndf * 2) 4 2 1 1 true);
     Leaf (BatchNorm2d (ndf * 2) true true);
     Leaf (LeakyReLU two_tenths true);
     Leaf (Conv2d (ndf * 2) (ndf * 4) 4 2 1 1 true);
     Leaf (BatchNorm2d (ndf * 4) true true);
     Leaf (LeakyReLU two_tenths true);
     Leaf (Conv2d (ndf * 4) (ndf * 8) 4 2 1 1 true);
     Leaf (BatchNorm2d (ndf * 8) true true);
     Leaf (LeakyReLU two_tenths true);
     Leaf (Conv2d (ndf * 8) (ndf * 16) 4 2 1 1 true);
     Leaf (BatchNorm2d (ndf * 16) true true);
     Leaf (LeakyReLU two_tenths true);
     Leaf (Conv2d (ndf * 16) (ndf * 32) 3 2 1 1 true);
     Leaf (BatchNorm2d (ndf * 32) true true);
     Leaf (LeakyReLU two_tenths true)] in
  let classify := Sequential [Leaf (Linear (ndf * 32 * 16) 2)] in
  Node "Discriminator_Classify" [conv; classify].

Definition ndf_default : Z := 96.

(** ** Shapes through a forward pass

    The shape a module gives a batched input, by the size rules the tensor
    library documents.  [None]: the forward pass does not return (the
    library refuses the input), or the module is one whose forward pass
    nothing below runs ([ConvTranspose2d], [LayerNorm], [Resize],
    [Involution2d], and the containers other than [Sequential],
    [ResnetBlock] and [Discriminator_Classify]).  [training] is the mode
    flag of the module; a freshly constructed module has it set. *)

Definition Shape : Type := list Z.

Definition numel (s : Shape) : Z := fold_right Z.mul 1 s.

(** Output length of a window of size [k], stride [st], padding [p] sliding
    over [n] positions: [floor((n + 2p - k) / st) + 1]. *)
Definition conv_out (n k st p : Z) : Z := (n + 2 * p - k) / st + 1.

(** Broadcasting of two sizes, aligned at their last dimension; the lists
    are the shapes reversed. *)
Fixpoint broadcast_rev (a b : list Z) : option (list Z) :=
  match a, b with
  | [], _ => Some b
  | _, [] => Some a
  | x :: a', y :: b' =>
      match broadcast_rev a' b' with
      | None => None
      | Some r =>
          if x =? y then Some (x :: r)
          else if x =? 1 then Some (y :: r)
          else if y =? 1 then Some (x :: r)
          else None
      end
  end.

(** The shape of [x + y]. *)
Definition broadcast_shapes (a b : Shape) : option Shape :=
  option_map (@rev Z) (broadcast_rev (rev a) (rev b)).

(** [Linear]: the last dimension must be [in_features]. *)
Definition linear_shape (fin fout : Z) (s : Shape) : option Shape :=
  match rev s with
  | last :: init_rev =>
      if last =? fin then Some (rev (fout :: init_rev)) else None
  | [] => None
  end.

Definition layer_shape (training : bool) (l : Layer) (s : Shape)
    : option Shape :=
  match l, s with
  | Conv2d cin cout k st p _ _, [n; c; h; w] =>
      if (c =? cin) && (0 <? st) && (0 <=? p)
         && (k <=? h + 2 * p) && (k <=? w + 2 * p)
      then Some [n; cout; conv_out h k st p; conv_out w k st p]
      else None
  | ReflectionPad2d p, [n; c; h; w] =>
      if (0 <=? p) && (p <? h) && (p <? w)
      then Some [n; c; h + 2 * p; w + 2 * p]
      else None
  | ReplicationPad2d p, [n; c; h; w] =>
      if (0 <=? p) && (0 <? h) && (0 <? w)
      then Some [n; c; h + 2 * p; w + 2 * p]
      else None
  | BatchNorm2d nf affine track, [n; c; h; w] =>
      if (implb (affine || track) (c =? nf))
         && (implb training (1 <? n * h * w))
      then Some s else None
  | InstanceNorm2d nf affine track, [n; c; h; w] =>
      if (implb affine (c =? nf))
         && (implb (training || negb track) (1 <? h * w))
      then Some s else None
  | Linear fin fout, _ => linear_shape fin fout s
  | Identity, _ => Some s
  | ReLU _, _ => Some s
  | LeakyReLU _ _, _ => Some s
  | Tanh, _ => Some s
  | GELU, _ => Some s
  | Dropout _, _ => Some s
  | DropPath _, _ => Some s
  | _, _ => None
  end.

(** [x.view(4, -1)]: four rows, the second size inferred; an empty tensor
    leaves it ambiguous. *)
Definition view_4 (s : Shape) : option Shape :=
  let n := numel s in
  if (n =? 0) || negb (n mod 4 =? 0) then None else Some [4; n / 4].

Definition obind {A B : Type} (o : option A) (k : A -> option B) : option B :=
  match o with
  | Some a => k a
  | None => None
  end.

(** The shape of [m(x)] for [x] of shape [s]:
    - [nn.Sequential] runs its children in order;
    - [ResnetBlock.forward] returns [x + self.conv_block(x)];
    - [Discriminator_Classify.forward] runs [conv], reshapes with
      [view(4, -1)], runs [classify]. *)
Fixpoint forward_shape (training : bool) (m : Module) (s : Shape)
    : option Shape :=
  match m with
  | Leaf l => layer_shape training l s
  | Node cls children =>
      let run := fix run (ms : list Module) (s : Shape) : option Shape :=
        match ms with
        | [] => Some s
        | c :: ms' => obind (forward_shape training c s) (run ms')
        end in
      if String.eqb cls "Sequential" then run children s
      else if String.eqb cls "ResnetBlock" then
        match children with
        | [conv_block] =>
            obind (forward_shape training conv_block s) (broadcast_shapes s)
        | _ => None
        end
      else if String.eqb cls "Discriminator_Classify" then
        match children with
        | [conv; classify] =>
            obind (forward_shape training conv s) (fun conv_out =>
            obind (view_4 conv_out) (fun conv_out =>
            forward_shape training classify conv_out))
        | _ => None
        end
      else None
  end.

(** ** The tensor library

    What the file calls in [torch] on tensors.  An operation that can raise
    returns an [option]; [lib] turns its [None] into a [RuntimeError], so an
    exception of another class is never the library's. *)

(** The loss modules [GANLoss.__init__] can store in [self.loss]. *)
Inductive LossModule : Type := MSELoss | CrossEntropyLoss | BCEWithLogitsLoss.

Class Torch : Type := {
  Tensor : Type;
  (** the state of the library's random generator *)
  Generator : Type;
  (** [torch.tensor(x)] for a Python [float], and for a list of [int] *)
  torch_tensor : float -> Tensor;
  torch_tensor_ints : list Z -> Tensor;
  (** [t.shape], [t.size()] *)
  shape : Tensor -> Shape;
  (** [t.nelement()] *)
  nelement : Tensor -> Z;
  (** [t.expand_as(other)], [t.expand(sizes)], [t.contiguous()],
      [t.view(sizes)] *)
  expand_as : Tensor -> Tensor -> option Tensor;
  expand : Tensor -> list Z -> option Tensor;
  contiguous : Tensor -> Tensor;
  view : Tensor -> list Z -> option Tensor;
  (** [loss(prediction, target)] for a loss module *)
  loss_forward : LossModule -> Tensor -> Tensor -> option Tensor;
  (** [t.mean()], [-t] *)
  mean : Tensor -> option Tensor;
  neg : Tensor -> Tensor;
  (** [a * b], [a + b], [c - t], [t + c], [t - c], [t ** n], [t * c] *)
  mul : Tensor -> Tensor -> option Tensor;
  add : Tensor -> Tensor -> option Tensor;
  rsub : Z -> Tensor -> option Tensor;
  add_scalar : Tensor -> float -> option Tensor;
  sub_scalar : Tensor -> float -> option Tensor;
  pow : Tensor -> Z -> option Tensor;
  mul_scalar : Tensor -> float -> option Tensor;
  (** [t.norm(p, dim=d)] *)
  norm : Tensor -> Z -> Z -> option Tensor;
  (** [torch.rand(sizes, device=device)] *)
  torch_rand : list Z -> string -> Generator -> option (Tensor * Generator);
  (** [torch.ones(sizes)], [t.to(device)] *)
  torch_ones : list Z -> option Tensor;
  to : Tensor -> string -> option Tensor;
  (** [t.requires_grad_(True)]: the tensor, now tracked *)
  requires_grad_ : Tensor -> option Tensor;
  (** [torch.autograd.grad(outputs, inputs, grad_outputs, create_graph=True,
      retain_graph=True, only_inputs=True)[0]] *)
  autograd_grad : Tensor -> Tensor -> Tensor -> option Tensor
}.

Definition lib {A : Type} (o : option A) : result A :=
  match o with
  | Some a => Ok a
  | None => Raise (RuntimeError "raised by the tensor library")
  end.

(** ** Python's [random] module *)

(** The state of the generator behind [random]: the raw variates it will
    deliver, and how many it has delivered. *)
Record Random : Type := {
  variates : nat -> Z;
  delivered : nat
}.

(** [random.randint(a, b)]: an integer [N] with [a <= N <= b], both ends
    included. *)
Definition randint (a b : Z) (g : Random) : Z * Random :=
  (a + (variates g (delivered g)) mod (b - a + 1),
   {| variates := variates g; delivered := S (delivered g) |}).

Definition one_tenth : float := 0x1.999999999999ap-4%float.   (* 0.1 *)

(** ** [GANLoss] *)

Section GANLoss.

Context {T : Torch}.

(** The buffers and attributes of a [GANLoss] instance. *)
Record GANLoss : Type := {
  real_label : Tensor;
  fake_label : Tensor;
  A_label : Tensor;
  B_label : Tensor;
  gan_mode : string;
  loss : option LossModule
}.

(** The first two statements of [GANLoss.__init__]:
    [target_real_label = random.randint(7, 12) * 0.1] and
    [target_fake_label = random.randint(0, 3) * 0.1]. *)
Definition draw_labels (g : Random) : (float * float) * Random :=
  let '(r, g) := randint 7 12 g in
  let target_real_label := (float_of_Z r * one_tenth)%float in
  let '(f, g) := randint 0 3 g in
  let target_fake_label := (float_of_Z f * one_tenth)%float in
  ((target_real_label, target_fake_label), g).

(** [GANLoss.__init__(gan_mode)]: the labels are drawn and the buffers
    registered before the mode is looked at.  [torch.tensor] of a tensor
    copies it. *)
Definition GANLoss_init (mode : string) (g : Random)
    : result GANLoss * Random :=
  let '((target_real_label, target_fake_label), g) := draw_labels g in
  let target_A_label := torch_tensor_ints [1; 1; 1; 1] in
  let target_B_label := torch_tensor_ints [0; 0; 0; 0] in
  let self (l : option LossModule) :=
    {| real_label := torch_tensor target_real_label;
       fake_label := torch_tensor target_fake_label;
       A_label := target_A_label;
       B_label := target_B_label;
       gan_mode := mode;
       loss := l |} in
  (if String.eqb mode "lsgan" then Ok (self (Some MSELoss))
   else if String.eqb mode "binary" then Ok (self (Some CrossEntropyLoss))
   else if String.eqb mode "vanilla" then Ok (self (Some BCEWithLogitsLoss))
   else if str_in mode ["wgangp"] then Ok (self None)
   else Raise (NotImplementedError
                 (fmt1 "gan mode " mode " not implemented")),
   g).

Definition get_target_tensor (self : GANLoss) (prediction : Tensor)
    (target_is_real : bool) : result Tensor :=
  let target_tensor :=
    if target_is_real then real_label self else fake_label self in
  lib (expand_as target_tensor prediction).

Definition get_target_tensorAB (self : GANLoss) (prediction : Tensor)
    (target_is_real : bool) : result Tensor :=
  let target_tensor :=
    if target_is_real then A_label self else B_label self in
  Ok target_tensor.

(** [self.loss(prediction, target_tensor)] *)
Definition call_loss (self : GANLoss) (prediction target_tensor : Tensor)
    : result Tensor :=
  match loss self with
  | Some l => lib (loss_forward l prediction target_tensor)
  | None => Raise (TypeError "'NoneType' object is not callable")
  end.

(** [GANLoss.__call__].  The local [loss] is bound in three branches; with
    no branch taken, [return loss] reads an unbound local. *)
Definition GANLoss_call (self : GANLoss) (prediction : Tensor)
    (target_is_real : bool) : result Tensor :=
  loss <-
    (if str_in (gan_mode self) ["lsgan"; "vanilla"] then
       target_tensor <- get_target_tensor self prediction target_is_real ;;
       loss <- call_loss self prediction target_tensor ;;
       Ok (Some loss)
     else if String.eqb (gan_mode self) "binary" then
       target_tensor <- get_target_tensorAB self prediction target_is_real ;;
       loss <- call_loss self prediction target_tensor ;;
       Ok (Some loss)
     else if String.eqb (gan_mode self) "wgangp" then
       if target_is_real then
         m <- lib (mean prediction) ;; Ok (Some (neg m))
       else
         m <- lib (mean prediction) ;; Ok (Some m)
     else Ok None) ;;
  match loss with
  | Some loss => Ok loss
  | None =>
      Raise (UnboundLocalError
               "local variable 'loss' referenced before assignment")
  end.

(** ** [cal_gradient_penalty] *)

(** The first component of what [cal_gradient_penalty] returns: a tensor,
    or the Python [float] [0.0]. *)
Inductive Penalty : Type :=
| PyFloat (x : float)
| PyTensor (t : Tensor).

(** [a // b] on Python [int]s *)
Definition floordiv (a b : Z) : result Z :=
  if b =? 0 then Raise ZeroDivisionError else Ok (a / b).

Definition eps16 : float := 0x1.cd2b297d889bcp-54%float.   (* 1e-16 *)

(** The choice of [interpolatesv]. *)
Definition interpolates (real_data fake_data : Tensor) (device type : string)
    (gen : Generator) : result Tensor * Generator :=
  if String.eqb type "real" then (Ok real_data, gen)
  else if String.eqb type "fake" then (Ok fake_data, gen)
  else if String.eqb type "mixed" then
    match index (shape real_data) 0 with
    | Raise e => (Raise e, gen)
    | Ok n0 =>
        match torch_rand [n0; 1] device gen with
        | None => (lib None, gen)
        | Some (alpha, gen) =>
            (rows <- index (shape real_data) 0 ;;
             divisor <- index (shape real_data) 0 ;;
             per_row <- floordiv (nelement real_data) divisor ;;
             alpha <- lib (expand alpha [rows; per_row]) ;;
             alpha <- lib (view (contiguous alpha) (shape real_data)) ;;
             a <- lib (mul alpha real_data) ;;
             one_minus <- lib (rsub 1 alpha) ;;
             b <- lib (mul one_minus fake_data) ;;
             lib (add a b),
             gen)
        end
    end
  else (Raise (NotImplementedError (String.append type " not implemented")),
        gen).

(** [cal_gradient_penalty(netD, real_data, fake_data, device, type,
    constant, lambda_gp)]; [netD] is the discriminator's forward pass. *)
Definition cal_gradient_penalty (netD : Tensor -> option Tensor)
    (real_data fake_data : Tensor) (device type : string)
    (constant lambda_gp : float) (gen : Generator)
    : result (Penalty * option Tensor) * Generator :=
  if (0 <? lambda_gp)%float then
    let '(interpolatesv, gen) :=
      interpolates real_data fake_data device type gen in
    (interpolatesv <- interpolatesv ;;
     interpolatesv <- lib (requires_grad_ interpolatesv) ;;
     disc_interpolates <- lib (netD interpolatesv) ;;
     ones <- lib (torch_ones (shape disc_interpolates)) ;;
     grad_outputs <- lib (to ones device) ;;
     gradients <- lib (autograd_grad disc_interpolates interpolatesv
                                     grad_outputs) ;;
     n0 <- index (shape real_data) 0 ;;
     gradients <- lib (view gradients [n0; -1]) ;;
     t <- lib (add_scalar gradients eps16) ;;
     t <- lib (norm t 2 1) ;;
     t <- lib (sub_scalar t constant) ;;
     t <- lib (pow t 2) ;;
     t <- lib (mean t) ;;
     gradient_penalty <- lib (mul_scalar t lambda_gp) ;;
     Ok (PyTensor gradient_penalty, Some gradients),
     gen)
  else
    (Ok (PyFloat 0, None), gen).

End GANLoss.

(** ** [ResnetBlock.forward] on tensors *)

Section Forward.

Context {T : Torch}.

(** [ResnetBlock.forward(x)]: [out = x + self.conv_block(x)], with
    [self.conv_block] the callable the block holds. *)
Definition ResnetBlock_forward (conv_block : Tensor -> result Tensor)
    (x : Tensor) : result Tensor :=
  branch <- conv_block x ;;
  lib (add x branch).

End Forward.

(** ** A small tensor library to run the definitions on

    Tensors are flat lists of binary64 numbers and have one dimension; the
    generator state is a counter.  It serves to evaluate the definitions on
    concrete inputs; nothing is proved about it. *)

Definition fsum (t : list float) : float :=
  fold_left PrimFloat.add t 0%float.

Definition zip_with (f : float -> float -> float) (a b : list float)
    : option (list float) :=
  if Nat.eqb (List.length a) (List.length b)
  then Some (map (fun p => f (fst p) (snd p)) (combine a b))
  else None.

Definition flat_mean (t : list float) : option (list float) :=
  match t with
  | [] => None
  | _ => Some [(fsum t / float_of_Z (Z.of_nat (List.length t)))%float]
  end.

Definition FlatTorch : Torch := {|
  Tensor := list float;
  Generator := nat;
  torch_tensor := fun x => [x];
  torch_tensor_ints := map float_of_Z;
  shape := fun t => [Z.of_nat (List.length t)];
  nelement := fun t => Z.of_nat (List.length t);
  expand_as := fun t other =>
    match t with
    | [x] => Some (map (fun _ => x) other)
    | _ => if Nat.eqb (List.length t) (List.length other) then Some t else None
    end;
  expand := fun t sizes => Some t;
  contiguous := fun t => t;
  view := fun t sizes => Some t;
  loss_forward := fun l prediction target =>
    obind (zip_with (fun a b => ((a - b) * (a - b))%float) prediction target)
          flat_mean;
  mean := flat_mean;
  neg := map PrimFloat.opp;
  mul := zip_with PrimFloat.mul;
  add := zip_with PrimFloat.add;
  rsub := fun c t => Some (map (fun x => (float_of_Z c - x)%float) t);
  add_scalar := fun t c => Some (map (fun x => (x + c)%float) t);
  sub_scalar := fun t c => Some (map (fun x => (x - c)%float) t);
  pow := fun t n => Some (map (fun x => (x * x)%float) t);
  mul_scalar := fun t c => Some (map (fun x => (x * c)%float) t);
  norm := fun t p d => Some (map PrimFloat.abs t);
  torch_rand := fun sizes device gen =>
    Some (map (fun _ => half) (range (numel sizes)), S gen);
  torch_ones := fun sizes => Some (map (fun _ => 1%float) (range (numel sizes)));
  to := fun t device => Some t;
  requires_grad_ := fun t => Some t;
  autograd_grad := fun outputs inputs grad_outputs => Some inputs
|}.

(** A generator state of [random] that delivers the same raw variate every
    time. *)
Definition constant_random (z : Z) : Random :=
  {| variates := fun _ => z; delivered := 0 |}.

(** * The rest of [models/networks.py] *)

(** ** [NLayerDiscriminator], [PixelDiscriminator] and [define_D] *)

(** [range(a, b)] *)
Definition range_from (a b : Z) : list Z :=
  map (fun k => a + Z.of_nat k) (seq 0 (Z.to_nat (b - a))).

(** [NLayerDiscriminator(input_nc, ndf, n_layers, norm_layer)].  With a
    negative [n_layers], [2 ** n_layers] is a [float] and so is the channel
    count handed to [nn.Conv2d], which refuses it. *)
Definition NLayerDiscriminator (input_nc ndf n_layers : Z)
    (norm_layer : NormLayer) : result Module :=
  let use_bias := use_bias_of norm_layer in
  let kw := 4 in
  let padw := 1 in
  let sequence :=
    [Leaf (Conv2d input_nc ndf kw 2 padw 1 true);
     Leaf (LeakyReLU two_tenths true)] in
  let nf_mult := 1 in
  let nf_mult_prev := 1 in
  '(sequence, nf_mult, nf_mult_prev) <-
    for_ (range_from 1 n_layers) (sequence, nf_mult, nf_mult_prev)
      (fun n '(sequence, nf_mult, nf_mult_prev) =>
         let nf_mult_prev := nf_mult in
         let nf_mult := Z.min (2 ^ n) 8 in
         norm <- call_norm_layer norm_layer (ndf * nf_mult) ;;
         Ok (sequence ++
             [Leaf (Conv2d (ndf * nf_mult_prev) (ndf * nf_mult) kw 2 padw 1
                           use_bias);
              Leaf norm;
              Leaf (LeakyReLU two_tenths true)],
             nf_mult, nf_mult_prev)) ;;
  let nf_mult_prev := nf_mult in
  if n_layers <? 0 then
    Raise (TypeError "empty() received an invalid combination of arguments")
  else
  let nf_mult := Z.min (2 ^ n_layers) 8 in
  norm <- call_norm_layer norm_layer (ndf * nf_mult) ;;
  let sequence := sequence ++
    [Leaf (Conv2d (ndf * nf_mult_prev) (ndf * nf_mult) kw 1 padw 1 use_bias);
     Leaf norm;
     Leaf (LeakyReLU two_tenths true)] in
  let sequence := sequence ++
    [Leaf (Conv2d (ndf * nf_mult) 1 kw 1 padw 1 true)] in
  Ok (Node "NLayerDiscriminator" [Sequential sequence]).

(** [PixelDiscriminator(input_nc, ndf, norm_layer)] *)
Definition PixelDiscriminator (input_nc ndf : Z) (norm_layer : NormLayer)
    : result Module :=
  let use_bias := use_bias_of norm_layer in
  norm <- call_norm_layer norm_layer (ndf * 2) ;;
  let net :=
    [Leaf (Conv2d input_nc ndf 1 1 0 1 true);
     Leaf (LeakyReLU two_tenths true);
     Leaf (Conv2d ndf (ndf * 2) 1 1 0 1 use_bias);
     Leaf norm;
     Leaf (LeakyReLU two_tenths true);
     Leaf (Conv2d (ndf * 2) 1 1 1 0 1 use_bias)] in
  Ok (Node "PixelDiscriminator" [Sequential net]).

(** The [if]/[elif] chain of [define_D] that binds [net], for positive
    channel counts.  The ["binary"] kind passes [input_nc] alone: [ndf]
    stays at the constructor's default. *)
Definition define_D_net (input_nc ndf : Z) (netD : string) (n_layers_D : Z)
    (norm_layer : NormLayer) : result Module :=
  if String.eqb netD "basic" then
    NLayerDiscriminator input_nc ndf 3 norm_layer
  else if String.eqb netD "n_layers" then
    NLayerDiscriminator input_nc ndf n_layers_D norm_layer
  else if String.eqb netD "pixel" then
    PixelDiscriminator input_nc ndf norm_layer
  else if String.eqb netD "binary" then
    Ok (Discriminator_Classify input_nc ndf_default)
  else
    Raise (NotImplementedError
             (fmt1 "Discriminator model name [" netD "] is not recognized")).

(** [define_D(input_nc, ndf, netD, n_layers_D, norm, init_type, init_gain,
    gpu_ids)] *)
Definition define_D (cuda : bool) (input_nc ndf : Z) (netD : string)
    (n_layers_D : Z) (norm init_type : string) (init_gain : float)
    (gpu_ids : list Z) : Eff Module :=
  norm_layer <~ lift (get_norm_layer norm) ;;
  net <~ lift (define_D_net input_nc ndf netD n_layers_D norm_layer) ;;
  init_net cuda net init_type init_gain gpu_ids.

(** ** [get_scheduler] *)

(** The fields of [opt] that [get_scheduler] reads. *)
Record Options : Type := {
  lr_policy : string;
  epoch_count : Z;
  n_epochs : Z;
  n_epochs_decay : Z;
  lr_decay_iters : Z
}.

(** [float(z)] for a Python [int]: the binary64 number nearest to [z],
    ties to even, whatever the size of [z]; an [int] whose nearest number
    would be infinite raises [OverflowError]. *)
Definition float_of_int (z : Z) : result float :=
  let f := SF2Prim (binary_normalize prec emax z 0 false) in
  if is_infinity f then
    Raise (OverflowError "int too large to convert to float")
  else Ok f.

(** The local function [lambda_rule(epoch)] of the ["linear"] policy:
    [1.0 - max(0, epoch + opt.epoch_count - opt.n_epochs)
           / float(opt.n_epochs_decay + 1)].
    The operands are evaluated left to right: [max], an [int], then
    [float(...)].  The division of an [int] by a [float] then converts
    the [int], and only then refuses a zero divisor. *)
Definition lambda_rule (opt : Options) (epoch : Z) : result float :=
  let numerator := Z.max 0 (epoch + epoch_count opt - n_epochs opt) in
  denominator <- float_of_int (n_epochs_decay opt + 1) ;;
  numerator <- float_of_int numerator ;;
  if (denominator =? 0)%float then Raise ZeroDivisionError
  else Ok (1 - numerator / denominator)%float.

(** The schedulers of [torch.optim.lr_scheduler] the file builds, with the
    arguments it gives them after the optimizer. *)
Inductive Scheduler : Type :=
| LambdaLR (lr_lambda : Z -> result float)
| StepLR (step_size : Z) (gamma : float)
| ReduceLROnPlateau (mode : string) (factor threshold : float) (patience : Z)
| CosineAnnealingLR (T_max : Z) (eta_min : float).

(** What [get_scheduler] hands back: a scheduler, or an exception instance
    (class name and constructor arguments) that it returns as a value. *)
Inductive Returned : Type :=
| a_scheduler (s : Scheduler)
| an_exception (cls : string) (args : list string).

Definition one_hundredth : float := 0x1.47ae147ae147bp-7%float.   (* 0.01 *)

(** [get_scheduler(optimizer, opt)], for an [optimizer] the schedulers
    accept.  The constructor of a scheduler takes a first step, and for
    [LambdaLR] that step calls the rule at epoch 0: what the rule raises
    there, the constructor raises.  The first step of the other three
    reads the learning rates of the optimizer and nothing of [opt].  The
    last branch does not raise: it returns the exception it builds, and
    builds it from the format string and the policy name as two
    arguments. *)
Definition get_scheduler (opt : Options) : result Returned :=
  if String.eqb (lr_policy opt) "linear" then
    _ <- lambda_rule opt 0 ;;
    Ok (a_scheduler (LambdaLR (lambda_rule opt)))
  else if String.eqb (lr_policy opt) "step" then
    Ok (a_scheduler (StepLR (lr_decay_iters opt) one_tenth))
  else if String.eqb (lr_policy opt) "plateau" then
    Ok (a_scheduler (ReduceLROnPlateau "min" two_tenths one_hundredth 5))
  else if String.eqb (lr_policy opt) "cosine" then
    Ok (a_scheduler (CosineAnnealingLR (n_epochs opt) 0))
  else
    Ok (an_exception "NotImplementedError"
          ["learning rate policy [%s] is not implemented"; lr_policy opt]).

(** ** Shapes through the other forward passes

    [forward_shape] knows the layers and classes of a residual block and of
    the classifying discriminator.  [forward_shape_all] adds the transposed
    convolution, [LayerNorm] (from its [forward] in the file), [Resize],
    [DropPath] in training mode, and the forward passes of the generators
    and of the other discriminators.  [InvBlock] and [InvnextGenerator] run [Involution2d],
    of which the file says nothing: they have no shape here. *)

(** Output length of a transposed convolution:
    [(n - 1) * st - 2p + (k - 1) + op + 1]. *)
Definition conv_transpose_out (n k st p op : Z) : Z :=
  (n - 1) * st - 2 * p + (k - 1) + op + 1.

Definition shape_eqb (a b : Shape) : bool :=
  if list_eq_dec Z.eq_dec a b then true else false.

(** [torch.cat((a, b), dim=1)]: the sizes agree except along dimension 1. *)
Definition cat1 (a b : Shape) : option Shape :=
  match a, b with
  | n1 :: c1 :: rest1, n2 :: c2 :: rest2 =>
      if (n1 =? n2) && shape_eqb rest1 rest2
      then Some (n1 :: (c1 + c2) :: rest1)
      else None
  | _, _ => None
  end.

(** [x.permute(0, 2, 3, 1)] and [x.permute(0, 3, 1, 2)] *)
Definition permute_0231 (s : Shape) : option Shape :=
  match s with
  | [n; c; h; w] => Some [n; h; w; c]
  | _ => None
  end.

Definition permute_0312 (s : Shape) : option Shape :=
  match s with
  | [n; h; w; c] => Some [n; c; h; w]
  | _ => None
  end.

(** [LayerNorm.forward]: with ["channels_last"], [F.layer_norm] over a last
    dimension that must be [normalized_shape]; with ["channels_first"], the
    mean over dimension 1, then [weight[:, None, None] * x + bias[:, None,
    None]], which broadcasts [(normalized_shape, 1, 1)] against [x]; with
    any other format the method returns nothing. *)
Definition LayerNorm_forward_shape (normalized_shape : Z)
    (data_format : string) (s : Shape) : option Shape :=
  if String.eqb data_format "channels_last" then
    match rev s with
    | last :: _ => if last =? normalized_shape then Some s else None
    | [] => None
    end
  else if String.eqb data_format "channels_first" then
    if 2 <=? Z.of_nat (List.length s) then
      obind (broadcast_shapes [normalized_shape; 1; 1] s)
            (broadcast_shapes [normalized_shape; 1; 1])
    else None
  else None.

(** [Tensor.bernoulli_(p)] takes a probability. *)
Definition is_probability (p : float) : bool :=
  ((0 <=? p) && (p <=? 1))%float.

(** [DropPath(drop_prob).forward(x)] of [timm]: [x] itself when
    [drop_prob == 0.] or outside training; otherwise [x] times a mask of
    shape [(x.shape[0], 1, ..., 1)] drawn with
    [bernoulli_(1 - drop_prob)]. *)
Definition DropPath_shape (training : bool) (drop_prob : float) (s : Shape)
    : option Shape :=
  if (drop_prob =? 0)%float || negb training then Some s
  else
    match s with
    | [] => None
    | _ :: _ => if is_probability (1 - drop_prob) then Some s else None
    end.

Definition layer_shape_all (training : bool) (l : Layer) (s : Shape)
    : option Shape :=
  match l, s with
  | ConvTranspose2d cin cout k st p op _, [n; c; h; w] =>
      if (c =? cin) && (0 <? st) && (0 <=? p) && (0 <=? op) && (op <? st)
         && (0 <? h) && (0 <? w)
         && (0 <? conv_transpose_out h k st p op)
         && (0 <? conv_transpose_out w k st p op)
      then Some [n; cout; conv_transpose_out h k st p op;
                 conv_transpose_out w k st p op]
      else None
  | LayerNorm normalized_shape _ data_format, _ =>
      LayerNorm_forward_shape normalized_shape data_format s
  | Resize height width, [n; c; h; w] =>
      if (0 <? h) && (0 <? w) then Some [n; c; height; width] else None
  | DropPath drop_prob, _ => DropPath_shape training drop_prob s
  | _, _ => layer_shape training l s
  end.

(** The shape of [m(x)] for [x] of shape [s], by the [forward] of the class
    of [m]:
    - [nn.Sequential] runs its children in order;
    - [ResnetBlock]: [x + self.conv_block(x)];
    - [ResnetGenerator], [NLayerDiscriminator], [PixelDiscriminator]: the
      one [nn.Sequential] they hold;
    - [Discriminator_Classify]: [conv], [view(4, -1)], [classify];
    - [Block]: [dwconv], [permute(0, 2, 3, 1)], [norm], [pwconv1], [act],
      [pwconv2], the rescaling by [gamma] (one entry per channel of
      [pwconv2], so the shape stays), [permute(0, 3, 1, 2)], then
      [input + self.drop_path(x)];
    - [ConvnextGenerator] and [ConvnextBIGenerator]: four encoder stages,
      each followed by its stage of blocks, then three rounds of decoder,
      concatenation with the encoder output of the same level and
      [upconv], then [decoder1] and [act]; neither runs [upconv1], and the
      second does not run [decoder0]. *)
Fixpoint forward_shape_all (training : bool) (m : Module) (s : Shape)
    : option Shape :=
  match m with
  | Leaf l => layer_shape_all training l s
  | Node cls children =>
      let run := fix run (ms : list Module) (s : Shape) : option Shape :=
        match ms with
        | [] => Some s
        | c :: ms' => obind (forward_shape_all training c s) (run ms')
        end in
      let convnext (blocks encoder1 encoder2 encoder3 encoder4
                    decoder4 decoder3 decoder2 decoder1
                    upconv4 upconv3 upconv2 act : Module) :=
        match blocks with
        | Node _ [stage0; stage1; stage2; stage3] =>
            obind (forward_shape_all training encoder1 s) (fun en1 =>
            obind (forward_shape_all training stage0 en1) (fun enx1 =>
            obind (forward_shape_all training encoder2 enx1) (fun en2 =>
            obind (forward_shape_all training stage1 en2) (fun enx2 =>
            obind (forward_shape_all training encoder3 enx2) (fun en3 =>
            obind (forward_shape_all training stage2 en3) (fun enx3 =>
            obind (forward_shape_all training encoder4 enx3) (fun en4 =>
            obind (forward_shape_all training stage3 en4) (fun bottle_x =>
            obind (forward_shape_all training decoder4 bottle_x) (fun de4 =>
            obind (cat1 de4 enx3) (fun dex4 =>
            obind (forward_shape_all training upconv4 dex4) (fun dex4 =>
            obind (forward_shape_all training decoder3 dex4) (fun de3 =>
            obind (cat1 de3 enx2) (fun dex3 =>
            obind (forward_shape_all training upconv3 dex3) (fun dex3 =>
            obind (forward_shape_all training decoder2 dex3) (fun de2 =>
            obind (cat1 de2 enx1) (fun dex2 =>
            obind (forward_shape_all training upconv2 dex2) (fun dex2 =>
            obind (forward_shape_all training decoder1 dex2) (fun de1 =>
            forward_shape_all training act de1))))))))))))))))))
        | _ => None
        end in
      if String.eqb cls "Sequential" then run children s
      else if String.eqb cls "ResnetBlock" then
        match children with
        | [conv_block] =>
            obind (forward_shape_all training conv_block s)
                  (broadcast_shapes s)
        | _ => None
        end
      else if str_in cls ["ResnetGenerator"; "NLayerDiscriminator";
                          "PixelDiscriminator"] then
        match children with
        | [model] => forward_shape_all training model s
        | _ => None
        end
      else if String.eqb cls "Discriminator_Classify" then
        match children with
        | [conv; classify] =>
            obind (forward_shape_all training conv s) (fun conv_out =>
            obind (view_4 conv_out) (fun conv_out =>
            forward_shape_all training classify conv_out))
        | _ => None
        end
      else if String.eqb cls "Block" then
        match children with
        | [dwconv; norm; pwconv1; act; pwconv2; drop_path] =>
            obind (forward_shape_all training dwconv s) (fun x =>
            obind (permute_0231 x) (fun x =>
            obind (forward_shape_all training norm x) (fun x =>
            obind (forward_shape_all training pwconv1 x) (fun x =>
            obind (forward_shape_all training act x) (fun x =>
            obind (forward_shape_all training pwconv2 x) (fun x =>
            obind (permute_0312 x) (fun x =>
            obind (forward_shape_all training drop_path x) (fun x =>
            broadcast_shapes s x))))))))
        | _ => None
        end
      else if String.eqb cls "ConvnextGenerator" then
        match children with
        | [blocks; encoder1; encoder2; encoder3; encoder4;
           decoder4; decoder3; decoder2; decoder1;
           upconv4; upconv3; upconv2; upconv1; act] =>
            convnext blocks encoder1 encoder2 encoder3 encoder4
                     decoder4 decoder3 decoder2 decoder1
                     upconv4 upconv3 upconv2 act
        | _ => None
        end
      else if String.eqb cls "ConvnextBIGenerator" then
        match children with
        | [blocks; encoder1; encoder2; encoder3; encoder4;
           decoder4; decoder3; decoder2; decoder1; decoder0;
           upconv4; upconv3; upconv2; upconv1; act] =>
            convnext blocks encoder1 encoder2 encoder3 encoder4
                     decoder4 decoder3 decoder2 decoder1
                     upconv4 upconv3 upconv2 act
        | _ => None
        end
      else None
  end.

(** ** Shapes through [UnetGenerator]

    [UnetSkipConnectionBlock.forward] returns [self.model(x)] when
    [self.outermost] holds and [torch.cat([x, self.model(x)], 1)]
    otherwise.  [outermost] is an attribute, not a child, so the tree does
    not hold it: it is an argument here.  [UnetGenerator.__init__] sets it
    on the block it keeps as [self.model] and on none of the blocks nested
    in it, and [UnetGenerator.forward] is [self.model(input)]. *)
Fixpoint UnetSkipConnectionBlock_forward_shape (training outermost : bool)
    (m : Module) (x : Shape) : option Shape :=
  match m with
  | Leaf l => layer_shape_all training l x
  | Node cls children =>
      if String.eqb cls "UnetSkipConnectionBlock" then
        match children with
        | [Node seq model] =>
            let run := fix run (ms : list Module) (s : Shape)
                         : option Shape :=
              match ms with
              | [] => Some s
              | c :: ms' =>
                  obind (UnetSkipConnectionBlock_forward_shape
                           training false c s) (run ms')
              end in
            if String.eqb seq "Sequential" then
              obind (run model x) (fun y =>
              if outermost then Some y else cat1 x y)
            else None
        | _ => None
        end
      else None
  end.

Definition UnetGenerator_forward_shape (training : bool) (m : Module)
    (input : Shape) : option Shape :=
  match m with
  | Node cls [model] =>
      if String.eqb cls "UnetGenerator" then
        UnetSkipConnectionBlock_forward_shape training true model input
      else None
  | _ => None
  end.

(** * Vocabulary of the statements *)

(** ** Shapes and blocks *)

(** [nn.Sequential.forward] as a function of its own. *)
Fixpoint run_shapes (training : bool) (ms : list Module) (s : Shape)
    : option Shape :=
  match ms with
  | [] => Some s
  | c :: ms' => obind (forward_shape training c s) (run_shapes training ms')
  end.

(** The layers that hand a shape on unchanged when they accept it. *)
Definition keeps_shape (l : Layer) : bool :=
  match l with
  | Identity | BatchNorm2d _ _ _ | InstanceNorm2d _ _ _ | ReLU _
  | LeakyReLU _ _ | Tanh | GELU | Dropout _ | DropPath _ => true
  | _ => false
  end.

(** An explicit pad layer. *)
Definition is_pad (m : Module) : bool :=
  match m with
  | Leaf (ReflectionPad2d _) | Leaf (ReplicationPad2d _) => true
  | _ => false
  end.

(** The [padding] argument of a module that is a [Conv2d]. *)
Definition conv_padding (m : Module) : option Z :=
  match m with
  | Leaf (Conv2d _ _ _ _ p _ _) => Some p
  | _ => None
  end.

(** A [norm_layer] that is a factory: anything but a module instance. *)
Definition is_factory (norm_layer : NormLayer) : bool :=
  match norm_layer with
  | instance _ => false
  | _ => true
  end.

(** ** Initialization *)

(** The modules of a network in the order [apply] visits them. *)
Fixpoint apply_order (m : Module) : list Module :=
  match m with
  | Leaf _ => [m]
  | Node _ children => flat_map apply_order children ++ [m]
  end.

(** [fn] on each module of a list, in order. *)
Fixpoint each (fn : Module -> Eff unit) (ms : list Module) : Eff unit :=
  match ms with
  | [] => ret tt
  | c :: ms' => fn c >> each fn ms'
  end.

(** The modules [init_func] takes for a convolution or a linear layer. *)
Definition is_target (m : Module) : bool :=
  hasattr (weight_of m)
  && (found "Conv" (classname_of m) || found "Linear" (classname_of m)).

(** A module [init_func] takes for a batch normalization has its two
    parameters. *)
Definition batchnorm_ready (m : Module) : bool :=
  implb (negb (is_target m) && found "BatchNorm2d" (classname_of m))
        (is_not_None (weight_of m) && is_not_None (bias_of m)).

(** The init-type names [init_func] compares [init_type] with. *)
Definition init_types : list string :=
  ["normal"; "xavier"; "kaiming"; "orthogonal"].

(** The default [init_gain]. *)
Definition gain_default : float := 0x1.47ae147ae147bp-6%float.   (* 0.02 *)

(** ** Generators *)

(** The kind names [define_G] compares [netG] with. *)
Definition generator_kinds : list string :=
  ["resnet_9blocks"; "resnet_6blocks"; "resnet_1blocks"; "convnext";
   "invnext"; "Convnext_Interpolation"; "unet_128"; "unet_256"].

(** The policies [get_norm_layer] returns a factory for. *)
Definition norm_policies : list string := ["batch"; "instance"; "none"].

(** The class of the generator each kind name stands for. *)
Definition generator_class (netG : string) : string :=
  if str_in netG ["resnet_9blocks"; "resnet_6blocks"; "resnet_1blocks"]
  then "ResnetGenerator"
  else if String.eqb netG "convnext" then "ConvnextGenerator"
  else if String.eqb netG "invnext" then "InvnextGenerator"
  else if String.eqb netG "Convnext_Interpolation" then "ConvnextBIGenerator"
  else "UnetGenerator".

(** A constructor returned a network of class [cls] that [init_weights] can
    walk. *)
Definition built (cls : string) (r : result Module) : bool :=
  match r with
  | Ok net =>
      forallb batchnorm_ready (apply_order net)
      && String.eqb (classname_of net) cls
  | Raise _ => false
  end.

(** ** Losses and penalty *)

(** The modes [GANLoss.__init__] accepts. *)
Definition loss_modes : list string :=
  ["lsgan"; "vanilla"; "binary"; "wgangp"].

(** The call read a local that no branch had bound. *)
Definition raises_UnboundLocalError {A : Type} (r : result A) : bool :=
  match r with
  | Raise (UnboundLocalError _) => true
  | _ => false
  end.

(** The type names [cal_gradient_penalty] compares [type] with. *)
Definition interpolation_types : list string := ["real"; "fake"; "mixed"].

(** The default [lambda_gp]. *)
Definition ten : float := 10%float.

(** ** Schedulers and discriminators *)

(** The policy names [get_scheduler] compares [opt.lr_policy] with. *)
Definition scheduler_policies : list string :=
  ["linear"; "step"; "plateau"; "cosine"].

(** The kind names [define_D] compares [netD] with. *)
Definition discriminator_kinds : list string :=
  ["basic"; "n_layers"; "pixel"; "binary"].

(** The class of the discriminator each kind name stands for. *)
Definition discriminator_class (netD : string) : string :=
  if str_in netD ["basic"; "n_layers"] then "NLayerDiscriminator"
  else if String.eqb netD "pixel" then "PixelDiscriminator"
  else "Discriminator_Classify".

(** The generator kinds that do not hand [norm_layer] to their
    constructor. *)
Definition kinds_without_norm : list string :=
  ["resnet_9blocks"; "resnet_6blocks"; "convnext"; "invnext";
   "Convnext_Interpolation"].

(** The module [init_func] takes for a batch normalization. *)
Definition is_batchnorm (m : Module) : bool :=
  negb (is_target m) && found "BatchNorm2d" (classname_of m).

(** ** Shapes, all classes *)

(** [nn.Sequential.forward] under [forward_shape_all]. *)
Fixpoint run_shapes_all (training : bool) (ms : list Module) (s : Shape)
    : option Shape :=
  match ms with
  | [] => Some s
  | c :: ms' =>
      obind (forward_shape_all training c s) (run_shapes_all training ms')
  end.

(** The layer a factory makes for [c] channels. *)
Definition norm_of (norm_layer : NormLayer) (c : Z) : Layer :=
  match call_norm_layer norm_layer c with
  | Ok l => l
  | Raise _ => Identity
  end.

(** The [Block(dim)] of a stage built without stochastic depth
    ([drop_path] 0) and with layer scale. *)
Definition plain_Block (dim : Z) : Module :=
  Node "Block"
    [Leaf (Conv2d dim dim 3 1 1 dim true);
     Leaf (LayerNorm dim eps_default "channels_last");
     Leaf (Linear dim (4 * dim));
     Leaf GELU;
     Leaf (Linear (4 * dim) dim);
     Leaf Identity].

(** [LayerNorm(c, eps=1e-6, data_format="channels_first")] as a module. *)
Definition LN1 (c : Z) : Module :=
  Leaf (LayerNorm c eps_default "channels_first").

(** ** Invariants of the loops that build networks *)

(** What the list of layers does so far: it divides the sides by [m],
    rounding down, and leaves [c] channels. *)
Definition halves (training : bool) (input_nc : Z) (sequence : list Module)
    (m c : Z) : Prop :=
  forall n h w, 1 <= n -> 2 * m <= h -> 2 * m <= w ->
    run_shapes_all training sequence [n; input_nc; h; w]
    = Some [n; c; h / m; w / m].

(** [self.model(x)] inside a block of a [UnetGenerator]. *)
Fixpoint unet_run (training : bool) (ms : list Module) (s : Shape)
    : option Shape :=
  match ms with
  | [] => Some s
  | c :: ms' =>
      obind (UnetSkipConnectionBlock_forward_shape training false c s)
            (unet_run training ms')
  end.

(** A block nested in a [UnetGenerator] takes [c] channels with sides that
    are multiples of [m], and returns them with its own output stacked on:
    [2c] channels. *)
Definition skips (training : bool) (block : Module) (c m : Z) : Prop :=
  forall n x y, 1 <= n -> 1 <= x -> 1 <= y ->
    UnetSkipConnectionBlock_forward_shape training false block
      [n; c; m * x; m * y]
    = Some [n; c + c; m * x; m * y].

(** It takes nothing else. *)
Definition skips_only (training : bool) (block : Module) (c m : Z) : Prop :=
  forall n c' h w s,
    UnetSkipConnectionBlock_forward_shape training false block [n; c'; h; w]
    = Some s ->
    c' = c /\ 0 < h /\ 0 < w /\ (m | h) /\ (m | w) /\ s = [n; c + c; h; w].

(** * Properties *)

(** ** Names *)

Lemma str_in_cons (s a : string) (l : list string) :
  str_in s (a :: l) = String.eqb s a || str_in s l.
Proof. reflexivity. Qed.

Lemma str_in_nil (s : string) : str_in s [] = false.
Proof. reflexivity. Qed.

(** [H : str_in s [a; b; ...] = true] becomes one goal per name, with [s]
    replaced by it. *)
Ltac name_cases H :=
  repeat (rewrite str_in_cons in H;
          apply orb_true_iff in H;
          destruct H as [H | H];
          [apply String.eqb_eq in H; subst | ]);
  try (rewrite str_in_nil in H; discriminate H).

(** [H : str_in s [a; b; ...] = false] becomes one [String.eqb s _ = false]
    per name. *)
Ltac name_none H :=
  repeat (rewrite str_in_cons in H;
          apply orb_false_iff in H;
          let H1 := fresh "Hne" in
          destruct H as [H1 H]).

(** ** [get_norm_layer] *)

(** C1.  [get_norm_layer] on each of the four policy names and on every
    other name: ["batch"], ["instance"] and ["none"] give a callable that
    maps a channel count [n] to [BatchNorm2d(n)] (affine, tracking running
    statistics), to [InstanceNorm2d(n)] (neither), and to [Identity()];
    ["layer"] raises a [TypeError], since [LayerNorm()] is called there
    without its [normalized_shape]; every other name raises the
    [NotImplementedError] that quotes it. *)
Theorem get_norm_layer_cases :
  (exists nl, get_norm_layer "batch" = Ok nl /\
     forall n, call_norm_layer nl n = Ok (BatchNorm2d n true true)) /\
  (exists nl, get_norm_layer "instance" = Ok nl /\
     forall n, call_norm_layer nl n = Ok (InstanceNorm2d n false false)) /\
  (exists nl, get_norm_layer "none" = Ok nl /\
     forall n, call_norm_layer nl n = Ok Identity) /\
  get_norm_layer "layer" =
    Raise (TypeError
      "__init__() missing 1 required positional argument: 'normalized_shape'") /\
  (forall s, str_in s ["batch"; "instance"; "layer"; "none"] = false ->
     get_norm_layer s =
       Raise (NotImplementedError
                (fmt1 "normalization layer [" s "] is not found"))).
Proof.
  repeat split.
  - eexists; split; [reflexivity | intro n; reflexivity].
  - eexists; split; [reflexivity | intro n; reflexivity].
  - eexists; split; [reflexivity | intro n; reflexivity].
  - intros s H. name_none H. unfold get_norm_layer.
    rewrite Hne, Hne0, Hne1, Hne2. reflexivity.
Qed.

(** ** Shapes *)

Lemma forward_shape_Sequential (training : bool) (ms : list Module)
    (s : Shape) :
  forward_shape training (Sequential ms) s = run_shapes training ms s.
Proof.
  unfold Sequential. simpl. revert s.
  induction ms as [| c ms IH]; intro s; [reflexivity |].
  simpl. destruct (forward_shape training c s) as [s1 |]; simpl;
    [apply IH | reflexivity].
Qed.

Lemma run_shapes_app (training : bool) (a b : list Module) (s : Shape) :
  run_shapes training (a ++ b) s =
  obind (run_shapes training a s) (run_shapes training b).
Proof.
  revert s. induction a as [| c a IH]; intro s; [reflexivity |].
  simpl. destruct (forward_shape training c s) as [s1 |]; simpl;
    [apply IH | reflexivity].
Qed.

Lemma forward_shape_ResnetBlock (training : bool) (conv_block : Module)
    (s : Shape) :
  forward_shape training (Node "ResnetBlock" [conv_block]) s =
  obind (forward_shape training conv_block s) (broadcast_shapes s).
Proof. reflexivity. Qed.

Lemma forward_shape_Discriminator_Classify (training : bool)
    (conv classify : list Module) (s : Shape) :
  forward_shape training
    (Node "Discriminator_Classify" [Sequential conv; Sequential classify]) s =
  obind (run_shapes training conv s) (fun c =>
  obind (view_4 c) (run_shapes training classify)).
Proof.
  change (forward_shape training
            (Node "Discriminator_Classify"
                  [Sequential conv; Sequential classify]) s)
    with (obind (forward_shape training (Sequential conv) s) (fun c =>
          obind (view_4 c) (fun c =>
          forward_shape training (Sequential classify) c))).
  rewrite forward_shape_Sequential.
  destruct (run_shapes training conv s) as [c |]; simpl; [| reflexivity].
  destruct (view_4 c) as [v |]; simpl; [| reflexivity].
  apply forward_shape_Sequential.
Qed.

(** One stage of [Discriminator_Classify.conv] on a batch of four: a
    convolution of stride 2 and padding 1, batch normalization, leaky
    ReLU. *)
Lemma classify_stage (training : bool) (cin cout k h w : Z)
    (rest : list Module) :
  (k <=? h + 2 * 1) = true ->
  (k <=? w + 2 * 1) = true ->
  (1 <? 4 * conv_out h k 2 1 * conv_out w k 2 1) = true ->
  run_shapes training
    (Leaf (Conv2d cin cout k 2 1 1 true)
     :: Leaf (BatchNorm2d cout true true)
     :: Leaf (LeakyReLU two_tenths true) :: rest) [4; cin; h; w] =
  run_shapes training rest [4; cout; conv_out h k 2 1; conv_out w k 2 1].
Proof.
  intros Hh Hw Hbn.
  cbn [run_shapes forward_shape layer_shape obind].
  rewrite Z.eqb_refl, Hh, Hw.
  cbn [andb Z.ltb Z.leb Z.compare obind layer_shape orb implb].
  rewrite Z.eqb_refl, Hbn.
  destruct training; reflexivity.
Qed.

Lemma view_4_rows (s v : Shape) :
  view_4 s = Some v -> exists q, v = [4; q].
Proof.
  unfold view_4. destruct (_ || _); [discriminate |].
  intro H. injection H as <-. eexists; reflexivity.
Qed.

Lemma linear_after_view (training : bool) (fin q : Z) (s' : Shape) :
  run_shapes training [Leaf (Linear fin 2)] [4; q] = Some s' ->
  s' = [4; 2].
Proof.
  cbn [run_shapes forward_shape layer_shape obind].
  unfold linear_shape. cbn [rev app].
  destruct (q =? fin); cbn; [| discriminate].
  intro H. injection H as <-. reflexivity.
Qed.

(** C9.  [Discriminator_Classify.forward], in either mode and for any
    positive [input_nc] and [ndf]: a batch of four inputs of size 224 x 224 comes out with
    shape [(4, 2)]; whatever the shape of the input, a forward pass that
    returns does so with shape [(4, 2)]; and whenever [view(4, -1)]
    succeeds, what it returns has four rows. *)
Theorem Discriminator_Classify_forward_shape :
  forall (training : bool) (input_nc ndf : Z),
    0 < input_nc -> 0 < ndf ->
    forward_shape training (Discriminator_Classify input_nc ndf)
                  [4; input_nc; 224; 224] = Some [4; 2]
    /\ (forall s s',
          forward_shape training (Discriminator_Classify input_nc ndf) s
            = Some s' ->
          s' = [4; 2])
    /\ (forall conv_out reshaped,
          view_4 conv_out = Some reshaped ->
          exists columns, reshaped = [4; columns]).
Proof.
  intros training input_nc ndf _ Hndf.
  unfold Discriminator_Classify.
  split; [| split; [| exact view_4_rows]].
  - rewrite forward_shape_Discriminator_Classify.
    do 6 (rewrite classify_stage by reflexivity).
    change (run_shapes training [] ?s) with (Some s).
    cbn [obind].
    assert (Hv : view_4 [4; ndf * 32; conv_out (conv_out (conv_out (conv_out
                   (conv_out (conv_out 224 4 2 1) 4 2 1) 4 2 1) 4 2 1) 4 2 1)
                   3 2 1;
                 conv_out (conv_out (conv_out (conv_out
                   (conv_out (conv_out 224 4 2 1) 4 2 1) 4 2 1) 4 2 1) 4 2 1)
                   3 2 1]
                = Some [4; ndf * 32 * 16]).
    { change (conv_out (conv_out (conv_out (conv_out
                (conv_out (conv_out 224 4 2 1) 4 2 1) 4 2 1) 4 2 1) 4 2 1)
                3 2 1) with 4.
      unfold view_4, numel. cbn [fold_right].
      replace (4 * (ndf * 32 * (4 * (4 * 1)))) with ((ndf * 32 * 16) * 4)
        by ring.
      rewrite Z_mod_mult, Z_div_mult by lia.
      destruct (Z.eqb_spec (ndf * 32 * 16 * 4) 0) as [E | _]; [lia |].
      reflexivity. }
    rewrite Hv. cbn [obind run_shapes forward_shape layer_shape].
    unfold linear_shape. cbn [rev app]. rewrite Z.eqb_refl. reflexivity.
  - intros s s'. rewrite forward_shape_Discriminator_Classify.
    destruct (run_shapes training _ s) as [c |]; cbn [obind];
      [| discriminate].
    destruct (view_4 c) as [v |] eqn:Hv; cbn [obind]; [| discriminate].
    apply view_4_rows in Hv. destruct Hv as [q ->].
    apply linear_after_view.
Qed.

Lemma Discriminator_Classify_forward_shape_witness :
  0 < ndf_default /\
  forward_shape true (Discriminator_Classify 3 ndf_default) [4; 3; 224; 224]
    = Some [4; 2].
Proof.
  split; [reflexivity |].
  apply (Discriminator_Classify_forward_shape true 3 ndf_default);
    reflexivity.
Defined.

(** ** [ResnetBlock] *)

Lemma keeps_shape_sound (training : bool) (l : Layer) (s s' : Shape) :
  keeps_shape l = true ->
  layer_shape training l s = Some s' -> s' = s.
Proof.
  intros Hk H.
  destruct l; try discriminate Hk; cbn in H;
    try (injection H as <-; reflexivity);
    destruct s as [| n [| c [| h [| w [| x s]]]]]; try discriminate H;
    match type of H with
    | (if ?b then _ else _) = _ => destruct b; [| discriminate H]
    end;
    injection H as <-; reflexivity.
Qed.

Lemma call_norm_layer_factory (norm_layer : NormLayer) (n : Z) :
  is_factory norm_layer = true ->
  exists l, call_norm_layer norm_layer n = Ok l /\ keeps_shape l = true.
Proof.
  destruct norm_layer as [[|] a t | [|] | m |]; intro H;
    try discriminate H; eexists; split; reflexivity.
Qed.

Lemma broadcast_rev_same (l : list Z) : broadcast_rev l l = Some l.
Proof.
  induction l as [| x l IH]; [reflexivity |].
  simpl. rewrite IH, Z.eqb_refl. reflexivity.
Qed.

Lemma broadcast_shapes_same (s : Shape) : broadcast_shapes s s = Some s.
Proof.
  unfold broadcast_shapes. rewrite broadcast_rev_same. simpl.
  rewrite rev_involutive. reflexivity.
Qed.

Lemma conv_out_padded (n : Z) : conv_out (n + 2 * 1) 3 1 0 = n.
Proof. unfold conv_out. rewrite Z.div_1_r. lia. Qed.

Lemma conv_out_folded (n : Z) : conv_out n 3 1 1 = n.
Proof. unfold conv_out. rewrite Z.div_1_r. lia. Qed.

(** Decide the next size test of a shape computation. *)
Ltac next_test :=
  match goal with
  | |- context [if ?b then _ else _] => destruct b
  end;
  cbn [obind]; [| discriminate].

(** The pad layer (if any) followed by the 3 x 3 convolution gives back the
    shape it is given, for each of the three policies. *)
Lemma pad_conv_keeps (training : bool) (padding_type : string)
    (pad : list Module) (p dim : Z) (use_bias : bool) (s s' : Shape) :
  padding_step padding_type = Ok (pad, p) ->
  run_shapes training (pad ++ [Leaf (Conv2d dim dim 3 1 p 1 use_bias)]) s
    = Some s' ->
  s' = s.
Proof.
  unfold padding_step.
  destruct (String.eqb padding_type "reflect");
    [| destruct (String.eqb padding_type "replicate");
       [| destruct (String.eqb padding_type "zero")]];
    intro Hp; try discriminate Hp; injection Hp as <- <-;
    cbn [app run_shapes forward_shape layer_shape obind];
    destruct s as [| n [| c [| h [| w [| x s]]]]]; cbn [obind];
    try discriminate.
  - next_test.
    destruct (Z.eqb_spec c dim) as [-> | _]; cbn [andb]; [| discriminate].
    next_test.
    intro H. injection H as <-.
    rewrite !conv_out_padded. reflexivity.
  - next_test.
    destruct (Z.eqb_spec c dim) as [-> | _]; cbn [andb]; [| discriminate].
    next_test.
    intro H. injection H as <-.
    rewrite !conv_out_padded. reflexivity.
  - destruct (Z.eqb_spec c dim) as [-> | _]; cbn [andb]; [| discriminate].
    next_test.
    intro H. injection H as <-.
    rewrite !conv_out_folded. reflexivity.
Qed.

(** What [build_conv_block] returns, grouped by stage. *)
Lemma build_conv_block_layout (dim : Z) (padding_type : string)
    (norm_layer : NormLayer) (use_dropout use_bias : bool)
    (pad : list Module) (p : Z) (l : Layer) :
  padding_step padding_type = Ok (pad, p) ->
  call_norm_layer norm_layer dim = Ok l ->
  build_conv_block dim padding_type norm_layer use_dropout use_bias =
  Ok ((pad ++ [Leaf (Conv2d dim dim 3 1 p 1 use_bias)])
      ++ ([Leaf l; Leaf (ReLU true)]
          ++ (if use_dropout then [Leaf (Dropout half)] else []))
      ++ (pad ++ [Leaf (Conv2d dim dim 3 1 p 1 use_bias)])
      ++ [Leaf l]).
Proof.
  intros Hp Hn. unfold build_conv_block.
  rewrite Hp. cbn [bind]. rewrite Hn. cbn [bind]. f_equal.
  destruct use_dropout; cbn [app]; repeat rewrite <- app_assoc;
    reflexivity.
Qed.

Lemma padding_step_known (padding_type : string) :
  str_in padding_type ["reflect"; "replicate"; "zero"] = true ->
  exists pad p, padding_step padding_type = Ok (pad, p).
Proof.
  intro H. name_cases H; eexists; eexists; reflexivity.
Qed.

Lemma keeps_shape_run (training : bool) (ls : list Layer) (s s' : Shape) :
  forallb keeps_shape ls = true ->
  run_shapes training (map Leaf ls) s = Some s' -> s' = s.
Proof.
  revert s. induction ls as [| l ls IH]; intros s Hk H.
  - injection H as <-. reflexivity.
  - cbn [forallb] in Hk. apply andb_true_iff in Hk. destruct Hk as [Hl Hk].
    cbn [map run_shapes forward_shape] in H.
    destruct (layer_shape training l s) as [s1 |] eqn:E; cbn [obind] in H;
      [| discriminate H].
    apply (keeps_shape_sound training l s s1 Hl) in E. subst s1.
    apply (IH s Hk H).
Qed.

(** The branch of a residual block, when it accepts an input, returns the
    shape of that input. *)
Lemma conv_block_keeps (training : bool) (dim : Z) (padding_type : string)
    (use_dropout use_bias : bool) (pad : list Module) (p : Z) (l : Layer)
    (s s' : Shape) :
  padding_step padding_type = Ok (pad, p) ->
  keeps_shape l = true ->
  run_shapes training
    ((pad ++ [Leaf (Conv2d dim dim 3 1 p 1 use_bias)])
     ++ ([Leaf l; Leaf (ReLU true)]
         ++ (if use_dropout then [Leaf (Dropout half)] else []))
     ++ (pad ++ [Leaf (Conv2d dim dim 3 1 p 1 use_bias)])
     ++ [Leaf l]) s = Some s' ->
  s' = s.
Proof.
  intros Hp Hl.
  rewrite (run_shapes_app training
             (pad ++ [Leaf (Conv2d dim dim 3 1 p 1 use_bias)])).
  destruct (run_shapes training
              (pad ++ [Leaf (Conv2d dim dim 3 1 p 1 use_bias)]) s)
    as [s1 |] eqn:E1; cbn [obind]; [| discriminate].
  apply (pad_conv_keeps _ _ _ _ _ _ _ _ Hp) in E1. subst s1.
  rewrite (run_shapes_app training
             ([Leaf l; Leaf (ReLU true)]
              ++ (if use_dropout then [Leaf (Dropout half)] else []))).
  destruct (run_shapes training
              ([Leaf l; Leaf (ReLU true)]
               ++ (if use_dropout then [Leaf (Dropout half)] else [])) s)
    as [s2 |] eqn:E2; cbn [obind]; [| discriminate].
  assert (s2 = s) as ->.
  { destruct use_dropout.
    - apply (keeps_shape_run training [l; ReLU true; Dropout half] s s2);
        [cbn; rewrite Hl; reflexivity | exact E2].
    - apply (keeps_shape_run training [l; ReLU true] s s2);
        [cbn; rewrite Hl; reflexivity | exact E2]. }
  rewrite (run_shapes_app training
             (pad ++ [Leaf (Conv2d dim dim 3 1 p 1 use_bias)])).
  destruct (run_shapes training
              (pad ++ [Leaf (Conv2d dim dim 3 1 p 1 use_bias)]) s)
    as [s3 |] eqn:E3; cbn [obind]; [| discriminate].
  apply (pad_conv_keeps _ _ _ _ _ _ _ _ Hp) in E3. subst s3.
  intro E4.
  apply (keeps_shape_run training [l] s s'); [| exact E4].
  cbn. rewrite Hl. reflexivity.
Qed.

(** A normalization layer made by a factory for [dim] channels accepts a
    batch of [dim] channels with more than one value per channel. *)
Lemma norm_accepts (training : bool) (norm_layer : NormLayer)
    (l : Layer) (dim n h w : Z) :
  call_norm_layer norm_layer dim = Ok l ->
  1 <= n -> 1 < h * w ->
  layer_shape training l [n; dim; h; w] = Some [n; dim; h; w].
Proof.
  intros Hc Hn Hhw.
  assert (Hbn : (1 <? n * h * w) = true) by (apply Z.ltb_lt; nia).
  assert (Hin : (1 <? h * w) = true) by (apply Z.ltb_lt; lia).
  destruct norm_layer as [[|] a t | [|] | m |]; cbn in Hc;
    try discriminate Hc; injection Hc as <-; cbn [layer_shape];
    rewrite ?Z.eqb_refl, ?Hbn, ?Hin;
    repeat match goal with
           | |- context [implb ?b true] => rewrite (implb_true_r b)
           end;
    reflexivity.
Qed.

Lemma conv_folded_accepts (training : bool) (dim n h w : Z)
    (use_bias : bool) :
  1 <= h -> 1 <= w ->
  layer_shape training (Conv2d dim dim 3 1 1 1 use_bias) [n; dim; h; w]
  = Some [n; dim; h; w].
Proof.
  intros Hh Hw. cbn [layer_shape].
  rewrite Z.eqb_refl, !conv_out_folded.
  replace (3 <=? h + 2 * 1) with true by (symmetry; apply Z.leb_le; lia).
  replace (3 <=? w + 2 * 1) with true by (symmetry; apply Z.leb_le; lia).
  reflexivity.
Qed.

(** C8.  For each padding policy of ["reflect"], ["replicate"], ["zero"]
    (a [norm_layer] that is a factory, a positive [dim]) the block is
    built, and its branch is: the pad layer of the policy, if it has one,
    [Conv2d(dim, dim, 3, padding=p)], the normalization, [ReLU], a
    [Dropout] if asked for, then the pad layer, the same convolution and
    the normalization again.  Its forward pass on any tensor is the input
    plus what the branch makes of the input, and whenever the forward pass
    returns, the output has the shape of the input.  With ["zero"] the
    branch holds no pad layer, both convolutions carry [padding=1], and
    every batch of [dim] channels of spatial size [h x w] (more than one
    value per channel) comes out with that shape. *)
Theorem ResnetBlock_residual :
  forall (T : Torch) (dim : Z) (padding_type : string)
         (norm_layer : NormLayer) (use_dropout use_bias : bool),
    str_in padding_type ["reflect"; "replicate"; "zero"] = true ->
    is_factory norm_layer = true ->
    0 < dim ->
    exists conv_block pad p norm,
      build_conv_block dim padding_type norm_layer use_dropout use_bias
        = Ok conv_block
      /\ call_norm_layer norm_layer dim = Ok norm
      /\ (pad, p) =
         (if String.eqb padding_type "reflect"
          then ([Leaf (ReflectionPad2d 1)], 0)
          else if String.eqb padding_type "replicate"
          then ([Leaf (ReplicationPad2d 1)], 0)
          else ([], 1))
      /\ conv_block =
         pad ++ [Leaf (Conv2d dim dim 3 1 p 1 use_bias);
                 Leaf norm; Leaf (ReLU true)]
         ++ (if use_dropout then [Leaf (Dropout half)] else [])
         ++ pad ++ [Leaf (Conv2d dim dim 3 1 p 1 use_bias); Leaf norm]
      /\ ResnetBlock dim padding_type norm_layer use_dropout use_bias
        = Ok (Node "ResnetBlock" [Sequential conv_block])
      /\ (forall (branch : Tensor -> result Tensor) (x : Tensor),
            ResnetBlock_forward branch x =
            (y <- branch x ;; lib (add x y)))
      /\ (forall training s s',
            forward_shape training
              (Node "ResnetBlock" [Sequential conv_block]) s = Some s' ->
            s' = s)
      /\ (padding_type = "zero" ->
            conv_block =
              [Leaf (Conv2d dim dim 3 1 1 1 use_bias);
               Leaf norm; Leaf (ReLU true)]
              ++ (if use_dropout then [Leaf (Dropout half)] else [])
              ++ [Leaf (Conv2d dim dim 3 1 1 1 use_bias); Leaf norm]
            /\ existsb is_pad conv_block = false
            /\ (forall m p, In m conv_block -> conv_padding m = Some p ->
                            p = 1)
            /\ (forall training n h w,
                  1 <= n -> 1 <= h -> 1 <= w -> 1 < h * w ->
                  forward_shape training
                    (Node "ResnetBlock" [Sequential conv_block])
                    [n; dim; h; w] = Some [n; dim; h; w])).
Proof.
  intros T dim padding_type norm_layer use_dropout use_bias Hpad Hfac _.
  destruct (padding_step_known padding_type Hpad) as (pad & p & Hp).
  destruct (call_norm_layer_factory norm_layer dim Hfac) as (l & Hl & Hk).
  pose proof (build_conv_block_layout dim padding_type norm_layer
                use_dropout use_bias pad p l Hp Hl) as Hb.
  eexists. exists pad, p, l. split; [exact Hb |].
  split; [exact Hl |].
  split.
  { clear - Hpad Hp. name_cases Hpad; cbn in Hp; injection Hp as <- <-;
      reflexivity. }
  split.
  { destruct use_dropout; cbn [app]; repeat rewrite <- app_assoc;
      reflexivity. }
  split; [unfold ResnetBlock; rewrite Hb; reflexivity |].
  split; [reflexivity |].
  split.
  - intros training s s'.
    rewrite forward_shape_ResnetBlock, forward_shape_Sequential.
    destruct (run_shapes training _ s) as [s1 |] eqn:E; cbn [obind];
      [| discriminate].
    apply (conv_block_keeps training dim padding_type use_dropout use_bias
             pad p l s s1 Hp Hk) in E. subst s1.
    rewrite broadcast_shapes_same. intro H. injection H as <-. reflexivity.
  - intros ->. cbn in Hp. injection Hp as <- <-. cbn [app].
    split; [destruct use_dropout; reflexivity |].
    split; [| split].
    + destruct l; try discriminate Hk; destruct use_dropout; reflexivity.
    + intros m q Hin Hq.
      destruct use_dropout; cbn [In] in Hin;
        repeat (destruct Hin as [<- | Hin];
                [cbn in Hq;
                 try (injection Hq as <-; reflexivity);
                 try discriminate Hq;
                 destruct l; try discriminate Hk; discriminate Hq |]);
        contradiction.
    + intros training n h w Hn Hh Hw Hhw.
      rewrite forward_shape_ResnetBlock, forward_shape_Sequential.
      pose proof (conv_folded_accepts training dim n h w use_bias Hh Hw)
        as Hc.
      pose proof (norm_accepts training norm_layer l dim n h w Hl Hn Hhw)
        as Hnorm.
      destruct use_dropout;
        cbn [app run_shapes forward_shape obind];
        rewrite Hc; cbn [obind]; rewrite Hnorm; cbn [obind];
        change (layer_shape training (ReLU true) [n; dim; h; w])
          with (Some [n; dim; h; w]); cbn [obind];
        try (change (layer_shape training (Dropout half) [n; dim; h; w])
               with (Some [n; dim; h; w]); cbn [obind]);
        rewrite Hc; cbn [obind]; rewrite Hnorm; cbn [obind];
        apply broadcast_shapes_same.
Qed.

Lemma ResnetBlock_residual_witness :
  exists conv_block,
    build_conv_block 256 "zero" (partial cls_InstanceNorm2d false false)
                     false true = Ok conv_block
    /\ conv_block =
       [Leaf (Conv2d 256 256 3 1 1 1 true);
        Leaf (InstanceNorm2d 256 false false);
        Leaf (ReLU true);
        Leaf (Conv2d 256 256 3 1 1 1 true);
        Leaf (InstanceNorm2d 256 false false)]
    /\ forward_shape true (Node "ResnetBlock" [Sequential conv_block])
         [1; 256; 56; 56] = Some [1; 256; 56; 56].
Proof.
  destruct (ResnetBlock_residual FlatTorch 256 "zero"
              (partial cls_InstanceNorm2d false false) false true
              eq_refl eq_refl eq_refl)
    as (conv_block & pad & p & norm & Hb & Hn & _ & _ & _ & _ & _ & Hz).
  exists conv_block. split; [exact Hb |].
  destruct (Hz eq_refl) as (Hlayout & _ & _ & Hs).
  split.
  - rewrite Hlayout. injection Hn as <-. reflexivity.
  - apply Hs; lia.
Defined.

(** ** [init_weights] *)

(** Induction on modules, with the hypothesis for every child. *)
Section Module_induction.

Variable P : Module -> Prop.
Hypothesis P_Leaf : forall l, P (Leaf l).
Hypothesis P_Node : forall c ms, Forall P ms -> P (Node c ms).

Fixpoint Module_children_ind (m : Module) : P m :=
  match m with
  | Leaf l => P_Leaf l
  | Node c ms =>
      P_Node c ms
        ((fix all (ms : list Module) : Forall P ms :=
            match ms with
            | [] => Forall_nil P
            | x :: ms' => Forall_cons x (Module_children_ind x) (all ms')
            end) ms)
  end.

End Module_induction.

Lemma ebind_assoc {A B C : Type} (c : Eff A) (f : A -> Eff B)
    (g : B -> Eff C) :
  ebind (ebind c f) g = ebind c (fun a => ebind (f a) g).
Proof.
  destruct c as [log [a | e]]; cbn; [| reflexivity].
  destruct (f a) as [log1 [b | e]]; cbn; [| reflexivity].
  destruct (g b) as [log2 r]. rewrite app_assoc. reflexivity.
Qed.

Lemma ebind_ret_tt (c : Eff unit) : (c >> ret tt) = c.
Proof.
  destruct c as [log [[] | e]]; cbn; [rewrite app_nil_r |]; reflexivity.
Qed.

Lemma ret_ebind {A B : Type} (a : A) (k : A -> Eff B) :
  ebind (ret a) k = k a.
Proof. unfold ret. cbn. destruct (k a). reflexivity. Qed.

Lemma each_app (fn : Module -> Eff unit) (a b : list Module) :
  each fn (a ++ b) = (each fn a >> each fn b).
Proof.
  induction a as [| c a IH]; cbn [app each].
  - rewrite ret_ebind. reflexivity.
  - rewrite IH, ebind_assoc. reflexivity.
Qed.

Lemma apply_each (fn : Module -> Eff unit) (m : Module) :
  apply fn m = each fn (apply_order m).
Proof.
  induction m as [l | c ms IH] using Module_children_ind.
  - cbn. rewrite ebind_ret_tt. reflexivity.
  - cbn [apply apply_order]. rewrite each_app. cbn [each].
    rewrite ebind_ret_tt. f_equal.
    induction IH as [| x ms Hx _ IHms]; [reflexivity |].
    cbn [flat_map]. rewrite each_app, Hx, IHms. reflexivity.
Qed.

Lemma each_all_ok (fn : Module -> Eff unit) (ms : list Module) :
  (forall m, In m ms -> snd (fn m) = Ok tt) ->
  snd (each fn ms) = Ok tt.
Proof.
  induction ms as [| c ms IH]; intro H; [reflexivity |].
  cbn [each]. pose proof (H c (or_introl eq_refl)) as Hc.
  destruct (fn c) as [log r]. cbn in Hc. subst r. cbn.
  specialize (IH (fun m Hm => H m (or_intror Hm))).
  destruct (each fn ms) as [log' r']. exact IH.
Qed.

Lemma each_raises (fn : Module -> Eff unit) (ms : list Module)
    (e : Exception) :
  (forall m, In m ms -> snd (fn m) = Ok tt \/ snd (fn m) = Raise e) ->
  (exists m, In m ms /\ snd (fn m) = Raise e) ->
  snd (each fn ms) = Raise e.
Proof.
  induction ms as [| c ms IH]; intros H (m & Hin & Hm);
    [destruct Hin |].
  cbn [each].
  destruct (H c (or_introl eq_refl)) as [Hc | Hc];
    destruct (fn c) as [log r] eqn:E; cbn in Hc; subst r; cbn;
    [| reflexivity].
  assert (IH' : snd (each fn ms) = Raise e).
  { apply IH; [intros x Hx; apply H; right; exact Hx |].
    destruct Hin as [<- | Hin].
    - rewrite E in Hm. discriminate Hm.
    - exists m. split; assumption. }
  destruct (each fn ms) as [log' r']. exact IH'.
Qed.

Lemma is_target_weight (m : Module) :
  is_target m = true -> weight_of m = IsTensor.
Proof.
  destruct m as [l | c ms]; [| discriminate].
  destruct l as [| | ? [|] ? | ? [|] ? | | | | | | | | | | | | |];
    cbn; try discriminate; reflexivity.
Qed.

Lemma snd_ebind_ok {A : Type} (c : Eff unit) (k : Eff A) :
  snd c = Ok tt -> snd (c >> k) = snd k.
Proof.
  destruct c as [log r]. cbn. intros ->. destruct k. reflexivity.
Qed.

(** With one of the four methods, [init_func] returns on every module whose
    batch-normalization parameters are there. *)
Lemma init_func_known (init_type : string) (init_gain : float)
    (m : Module) :
  str_in init_type init_types = true ->
  batchnorm_ready m = true ->
  snd (init_func init_type init_gain m) = Ok tt.
Proof.
  intros Hty Hbn. unfold init_func.
  fold (is_target m). unfold batchnorm_ready in Hbn.
  destruct (is_target m) eqn:Ht.
  - rewrite (is_target_weight m Ht).
    rewrite snd_ebind_ok.
    + destruct (bias_of m); reflexivity.
    + unfold init_types in Hty. name_cases Hty; reflexivity.
  - cbn [negb andb] in Hbn.
    destruct (found "BatchNorm2d" (classname_of m)); [| reflexivity].
    cbn [implb] in Hbn. apply andb_true_iff in Hbn.
    destruct Hbn as [Hw Hb].
    destruct (weight_of m); try discriminate Hw.
    destruct (bias_of m); try discriminate Hb.
    reflexivity.
Qed.

(** With any other name, [init_func] raises on a convolution or linear
    layer, and returns on every other module whose batch-normalization
    parameters are there. *)
Lemma init_func_unknown (init_type : string) (init_gain : float)
    (m : Module) :
  str_in init_type init_types = false ->
  batchnorm_ready m = true ->
  snd (init_func init_type init_gain m) =
    if is_target m
    then Raise (NotImplementedError
                  (fmt1 "initialization method [" init_type
                        "] is not implemented"))
    else Ok tt.
Proof.
  intros Hty Hbn. unfold init_func.
  fold (is_target m). unfold batchnorm_ready in Hbn.
  unfold init_types in Hty. name_none Hty.
  destruct (is_target m) eqn:Ht.
  - rewrite Hne, Hne0, Hne1, Hne2. reflexivity.
  - cbn [negb andb] in Hbn.
    destruct (found "BatchNorm2d" (classname_of m)); [| reflexivity].
    cbn [implb] in Hbn. apply andb_true_iff in Hbn.
    destruct Hbn as [Hw Hb].
    destruct (weight_of m); try discriminate Hw.
    destruct (bias_of m); try discriminate Hb.
    reflexivity.
Qed.

Lemma init_weights_snd (net : Module) (init_type : string)
    (init_gain : float) :
  snd (init_weights net init_type init_gain) =
  snd (each (init_func init_type init_gain) (apply_order net)).
Proof.
  unfold init_weights. rewrite apply_each.
  apply snd_ebind_ok. reflexivity.
Qed.

Lemma init_weights_known (net : Module) (init_type : string)
    (init_gain : float) :
  str_in init_type init_types = true ->
  forallb batchnorm_ready (apply_order net) = true ->
  snd (init_weights net init_type init_gain) = Ok tt.
Proof.
  intros Hty Hbn. rewrite init_weights_snd.
  apply each_all_ok. intros m Hm.
  apply init_func_known; [exact Hty |].
  rewrite forallb_forall in Hbn. apply Hbn. exact Hm.
Qed.

Lemma each_ext (f g : Module -> Eff unit) (ms : list Module) :
  (forall m, In m ms -> f m = g m) -> each f ms = each g ms.
Proof.
  induction ms as [| c ms IH]; intro H; [reflexivity |].
  cbn [each]. rewrite (H c (or_introl eq_refl)).
  rewrite IH; [reflexivity |]. intros m Hm. apply H. right. exact Hm.
Qed.

Lemma fst_ebind_in {A B : Type} (c : Eff A) (k : A -> Eff B) (ev : Event) :
  In ev (fst (ebind c k)) ->
  In ev (fst c) \/ exists a, snd c = Ok a /\ In ev (fst (k a)).
Proof.
  destruct c as [log [a | e]]; cbn.
  - destruct (k a) as [log' r] eqn:E. cbn. intro H.
    apply in_app_or in H. destruct H as [H | H]; [left; exact H |].
    right. exists a. rewrite E. split; [reflexivity | exact H].
  - intro H. left. exact H.
Qed.

Lemma fst_each_in (fn : Module -> Eff unit) (ms : list Module) (ev : Event) :
  In ev (fst (each fn ms)) ->
  exists m, In m ms /\ In ev (fst (fn m)).
Proof.
  induction ms as [| c ms IH]; cbn [each]; [intros [] |].
  intro H. apply fst_ebind_in in H. destruct H as [H | (a & _ & H)].
  - exists c. split; [left; reflexivity | exact H].
  - destruct (IH H) as (m & Hm & Hev).
    exists m. split; [right; exact Hm | exact Hev].
Qed.

Lemma init_data_in (m m' : Module) (attr attr' : string) (a : Attr)
    (call call' : InitCall) :
  In (InitData m' attr' call') (fst (init_data m attr a call)) ->
  m' = m /\ attr' = attr /\ call' = call.
Proof.
  destruct a; cbn; intro H; try contradiction.
  destruct H as [H | []]. injection H as <- <- <-.
  repeat split.
Qed.

(** What [init_func] writes, it writes to the module it is applied to, and
    only when it takes it for a convolution, a linear layer or a batch
    normalization. *)
Lemma init_func_in (init_type : string) (init_gain : float) (m m' : Module)
    (attr : string) (call : InitCall) :
  In (InitData m' attr call) (fst (init_func init_type init_gain m)) ->
  m' = m /\ (is_target m = true \/ is_batchnorm m = true).
Proof.
  unfold init_func, is_batchnorm. fold (is_target m).
  destruct (is_target m).
  - intro H. split; [| left; reflexivity].
    apply fst_ebind_in in H. destruct H as [H | (a & _ & H)].
    + repeat match type of H with
             | context [if ?b then _ else _] => destruct b
             end;
        try (apply init_data_in in H; tauto).
      destruct H.
    + destruct (hasattr (bias_of m) && is_not_None (bias_of m));
        [apply init_data_in in H; tauto | destruct H].
  - cbn [negb andb].
    destruct (found "BatchNorm2d" (classname_of m)); [| intros []].
    intro H. split; [| right; reflexivity].
    apply fst_ebind_in in H. destruct H as [H | (a & _ & H)];
      apply init_data_in in H; tauto.
Qed.

(** What [init_weights] writes, it writes to a module of the network that
    [init_func] takes for a convolution, a linear layer or a batch
    normalization. *)
Lemma init_weights_in (net : Module) (init_type : string)
    (init_gain : float) (m : Module) (attr : string) (call : InitCall) :
  In (InitData m attr call) (fst (init_weights net init_type init_gain)) ->
  In m (apply_order net)
  /\ (is_target m = true \/ is_batchnorm m = true).
Proof.
  intro H. unfold init_weights in H.
  apply fst_ebind_in in H. destruct H as [H | (a & _ & H)].
  - cbn in H. destruct H as [H | []]. discriminate H.
  - rewrite apply_each in H. apply fst_each_in in H.
    destruct H as (m0 & Hm0 & Hev).
    apply init_func_in in Hev. destruct Hev as [-> Hk].
    split; assumption.
Qed.

(** C7, as the code has it.  With an init-type name outside the four and
    a gain that is a non-negative number, [init_weights] raises the
    [NotImplementedError] that quotes the name when the network holds a
    convolution or a linear layer (a module with a [weight] whose class
    name contains "Conv" or "Linear"), at any depth; on a network that
    holds none it returns without raising, and every parameter it has
    written belongs to a module of the network with "BatchNorm2d" in its
    class name.  (Batch normalization modules are taken to own their
    [weight] and [bias].) *)
Theorem init_weights_unknown_method :
  forall (net : Module) (init_type : string) (init_gain : float),
    str_in init_type init_types = false ->
    (0 <=? init_gain)%float = true ->
    forallb batchnorm_ready (apply_order net) = true ->
    (existsb is_target (apply_order net) = true ->
     snd (init_weights net init_type init_gain) =
       Raise (NotImplementedError
                (fmt1 "initialization method [" init_type
                      "] is not implemented")))
    /\ (existsb is_target (apply_order net) = false ->
        snd (init_weights net init_type init_gain) = Ok tt
        /\ forall m attr call,
             In (InitData m attr call)
                (fst (init_weights net init_type init_gain)) ->
             In m (apply_order net)
             /\ found "BatchNorm2d" (classname_of m) = true).
Proof.
  intros net init_type init_gain Hty _ Hbn.
  rewrite forallb_forall in Hbn.
  rewrite init_weights_snd. split; intro Ht.
  - apply each_raises.
    + intros m Hm.
      rewrite (init_func_unknown init_type init_gain m Hty (Hbn m Hm)).
      destruct (is_target m); [right | left]; reflexivity.
    + apply existsb_exists in Ht. destruct Ht as (m & Hm & Htm).
      exists m. split; [exact Hm |].
      rewrite (init_func_unknown init_type init_gain m Hty (Hbn m Hm)).
      rewrite Htm. reflexivity.
  - assert (Hnone : forall m, In m (apply_order net) -> is_target m = false).
    { intros m Hm. destruct (is_target m) eqn:E; [| reflexivity].
      assert (existsb is_target (apply_order net) = true)
        by (apply existsb_exists; exists m; split; assumption).
      congruence. }
    split.
    + apply each_all_ok. intros m Hm.
      rewrite (init_func_unknown init_type init_gain m Hty (Hbn m Hm)).
      rewrite (Hnone m Hm). reflexivity.
    + intros m attr call Hin.
      apply init_weights_in in Hin. destruct Hin as [Hm Hk].
      split; [exact Hm |].
      destruct Hk as [Hk | Hk]; [rewrite (Hnone m Hm) in Hk; discriminate |].
      unfold is_batchnorm in Hk. apply andb_true_iff in Hk. apply Hk.
Qed.

Lemma init_weights_unknown_method_witness :
  str_in "uniform" init_types = false /\
  (0 <=? gain_default)%float = true /\
  snd (init_weights (Discriminator_Classify 3 ndf_default) "uniform"
                    gain_default) =
    Raise (NotImplementedError
             "initialization method [uniform] is not implemented").
Proof.
  split; [reflexivity |]. split; [reflexivity |].
  apply (init_weights_unknown_method
           (Discriminator_Classify 3 ndf_default) "uniform" gain_default);
    reflexivity.
Defined.

(** C7, as the claim has it, fails: a network without a convolution or a
    linear layer is initialized, whatever the init-type name. *)
Lemma init_weights_unknown_method_no_target :
  init_weights (Sequential [Leaf (BatchNorm2d 3 true true); Leaf (ReLU true)])
               "uniform" gain_default =
  ([Printed "initialize network with uniform";
    InitData (Leaf (BatchNorm2d 3 true true)) "weight"
             (normal_ 1 gain_default);
    InitData (Leaf (BatchNorm2d 3 true true)) "bias" (constant_ 0)],
   Ok tt).
Proof. reflexivity. Qed.

(** ** [define_G] *)

Lemma built_inv (cls : string) (r : result Module) :
  built cls r = true ->
  exists net, r = Ok net
              /\ forallb batchnorm_ready (apply_order net) = true
              /\ classname_of net = cls.
Proof.
  destruct r as [net | e]; [| discriminate].
  intro H. apply andb_true_iff in H. destruct H as [H1 H2].
  exists net. split; [reflexivity |]. split; [exact H1 |].
  apply String.eqb_eq. exact H2.
Qed.

Lemma get_norm_layer_policy (norm : string) :
  str_in norm norm_policies = true ->
  exists nl, get_norm_layer norm = Ok nl /\ is_factory nl = true.
Proof.
  intro H. unfold norm_policies in H.
  name_cases H; eexists; split; reflexivity.
Qed.

(** Each of the eight kinds is built, for each of the three policies. *)
Lemma define_G_net_built (input_nc output_nc ngf : Z) (netG norm : string)
    (nl : NormLayer) (use_dropout : bool) :
  str_in netG generator_kinds = true ->
  str_in norm norm_policies = true ->
  get_norm_layer norm = Ok nl ->
  built (generator_class netG)
        (define_G_net input_nc output_nc ngf netG nl use_dropout) = true.
Proof.
  intros Hk Hn Hnl. unfold generator_kinds in Hk. unfold norm_policies in Hn.
  name_cases Hn; cbn in Hnl; injection Hnl as <-;
    name_cases Hk; destruct use_dropout; vm_compute; reflexivity.
Qed.

Lemma define_G_net_unknown (input_nc output_nc ngf : Z) (netG : string)
    (nl : NormLayer) (use_dropout : bool) :
  str_in netG generator_kinds = false ->
  define_G_net input_nc output_nc ngf netG nl use_dropout =
  Raise (NotImplementedError
           (fmt1 "Generator model name [" netG "] is not recognized")).
Proof.
  intro H. unfold generator_kinds in H. name_none H.
  unfold define_G_net.
  rewrite Hne, Hne0, Hne1, Hne2, Hne3, Hne4, Hne5, Hne6. reflexivity.
Qed.

(** Without devices, [init_net] returns the network it is given once
    [init_weights] has returned. *)
Lemma init_net_returns (cuda : bool) (net : Module) (init_type : string)
    (init_gain : float) :
  str_in init_type init_types = true ->
  forallb batchnorm_ready (apply_order net) = true ->
  exists log, init_net cuda net init_type init_gain [] = (log, Ok net).
Proof.
  intros Hty Hbn. unfold init_net. cbn [List.length Z.of_nat Z.ltb Z.compare].
  rewrite ret_ebind.
  pose proof (init_weights_known net init_type init_gain Hty Hbn) as Hw.
  destruct (init_weights net init_type init_gain) as [log r].
  cbn in Hw. subst r. exists (log ++ []). reflexivity.
Qed.

(** C2, as the code has it.  With a normalization policy of ["batch"],
    ["instance"] or ["none"]: for each of the eight kind names
    [resnet_9blocks], [resnet_6blocks], [resnet_1blocks], [convnext],
    [invnext], [Convnext_Interpolation], [unet_128], [unet_256] (with
    positive channel counts, one of the four init types, a gain that is a
    non-negative number and no device listed) [define_G] returns a network
    of the generator class the name stands for; for every other kind
    string it raises the [NotImplementedError] that quotes the name, with
    nothing printed and nothing initialized. *)
Theorem define_G_kinds :
  forall (cuda : bool) (input_nc output_nc ngf : Z) (netG norm : string)
         (use_dropout : bool) (init_type : string) (init_gain : float)
         (gpu_ids : list Z),
    str_in norm norm_policies = true ->
    (str_in netG generator_kinds = true ->
     str_in init_type init_types = true ->
     (0 <=? init_gain)%float = true ->
     0 < input_nc -> 0 < output_nc -> 0 < ngf ->
     gpu_ids = [] ->
     exists net log,
       define_G cuda input_nc output_nc ngf netG norm use_dropout
                init_type init_gain gpu_ids = (log, Ok net)
       /\ classname_of net = generator_class netG)
    /\ (str_in netG generator_kinds = false ->
        define_G cuda input_nc output_nc ngf netG norm use_dropout
                 init_type init_gain gpu_ids =
        ([], Raise (NotImplementedError
                      (fmt1 "Generator model name [" netG
                            "] is not recognized")))).
Proof.
  intros cuda input_nc output_nc ngf netG norm use_dropout init_type
         init_gain gpu_ids Hnorm.
  destruct (get_norm_layer_policy norm Hnorm) as (nl & Hnl & _).
  unfold define_G. rewrite Hnl. unfold lift. rewrite (ret_ebind nl).
  split.
  - intros Hk Hty _ _ _ _ ->.
    destruct (built_inv _ _ (define_G_net_built input_nc output_nc ngf netG
                               norm nl use_dropout Hk Hnorm Hnl))
      as (net & -> & Hbn & Hcls).
    rewrite (ret_ebind net).
    destruct (init_net_returns cuda net init_type init_gain Hty Hbn)
      as (log & Hlog).
    exists net, log. split; [exact Hlog | exact Hcls].
  - intro Hk. rewrite define_G_net_unknown by exact Hk. reflexivity.
Qed.

Lemma define_G_kinds_witness :
  str_in "batch" norm_policies = true /\
  str_in "Convnext_Interpolation" generator_kinds = true /\
  str_in "normal" init_types = true /\
  (0 <=? gain_default)%float = true /\
  exists net log,
    define_G false 3 3 96 "Convnext_Interpolation" "batch" false "normal"
             gain_default [] = (log, Ok net)
    /\ classname_of net = "ConvnextBIGenerator".
Proof.
  split; [reflexivity |]. split; [reflexivity |]. split; [reflexivity |].
  split; [reflexivity |].
  apply (define_G_kinds false 3 3 96 "Convnext_Interpolation" "batch" false
           "normal" gain_default [] eq_refl); reflexivity.
Defined.

(** C2, as the claim has it, fails: the lower-case name
    [convnext_interpolation] is not one [define_G] knows. *)
Lemma define_G_lowercase_interpolation :
  define_G false 3 3 96 "convnext_interpolation" "batch" false "normal"
           gain_default [] =
  ([], Raise (NotImplementedError
    "Generator model name [convnext_interpolation] is not recognized")).
Proof. reflexivity. Qed.

(** ** [GANLoss] *)

Lemma randint_range (a b : Z) (g : Random) :
  a <= b ->
  a <= fst (randint a b g) <= b
  /\ delivered (snd (randint a b g)) = S (delivered g).
Proof.
  intro Hab. unfold randint. cbn [fst snd delivered].
  pose proof (Z.mod_pos_bound (variates g (delivered g)) (b - a + 1)).
  split; [lia | reflexivity].
Qed.

(** What [GANLoss.__init__] leaves in a new instance. *)
Lemma GANLoss_init_inv (T : Torch) (mode : string) (g g' : Random)
    (self : GANLoss) :
  GANLoss_init mode g = (Ok self, g') ->
  exists r f : Z,
    (7 <= r <= 12 /\ 0 <= f <= 3)
    /\ real_label self = torch_tensor (float_of_Z r * one_tenth)
    /\ fake_label self = torch_tensor (float_of_Z f * one_tenth)
    /\ A_label self = torch_tensor_ints [1; 1; 1; 1]
    /\ B_label self = torch_tensor_ints [0; 0; 0; 0]
    /\ gan_mode self = mode
    /\ delivered g' = S (S (delivered g))
    /\ ((mode = "lsgan" /\ loss self = Some MSELoss)
        \/ (mode = "binary" /\ loss self = Some CrossEntropyLoss)
        \/ (mode = "vanilla" /\ loss self = Some BCEWithLogitsLoss)
        \/ (mode = "wgangp" /\ loss self = None)).
Proof.
  unfold GANLoss_init, draw_labels.
  destruct (randint 7 12 g) as [r g1] eqn:E1.
  destruct (randint 0 3 g1) as [f g2] eqn:E2.
  pose proof (randint_range 7 12 g ltac:(lia)) as [Hr Hd1].
  pose proof (randint_range 0 3 g1 ltac:(lia)) as [Hf Hd2].
  rewrite E1 in Hr, Hd1. rewrite E2 in Hf, Hd2. cbn [fst snd] in *.
  intro H. exists r, f.
  destruct (String.eqb_spec mode "lsgan") as [-> | _];
    [| destruct (String.eqb_spec mode "binary") as [-> | _];
       [| destruct (String.eqb_spec mode "vanilla") as [-> | _];
          [| destruct (str_in mode ["wgangp"]) eqn:Hw;
             [name_cases Hw |]]]];
    cbn in H; try discriminate H;
    injection H as <- <-; cbn [real_label fake_label A_label B_label
                                gan_mode loss];
    repeat split; try assumption; try lia; try congruence; tauto.
Qed.




(** C4.  In mode ["wgangp"] the instance is constructed, and on any
    prediction its call returns the negated [mean()] of the prediction when
    the flag is real and the [mean()] itself when it is not. *)
Theorem GANLoss_wgangp :
  forall (T : Torch) (g : Random) (prediction : Tensor),
    exists self,
      fst (GANLoss_init "wgangp" g) = Ok self
      /\ GANLoss_call self prediction true =
           (m <- lib (mean prediction) ;; Ok (neg m))
      /\ GANLoss_call self prediction false = lib (mean prediction).
Proof.
  intros T g prediction.
  unfold GANLoss_init. destruct (draw_labels g) as [[rl fl] g'].
  cbn [String.eqb Ascii.eqb Bool.eqb str_in existsb orb fst].
  eexists. split; [reflexivity |].
  unfold GANLoss_call. cbn [gan_mode str_in existsb String.eqb Ascii.eqb
                            Bool.eqb orb].
  split; destruct (mean prediction); reflexivity.
Qed.

(** C10.  A constructed [GANLoss] has its mode among [lsgan], [vanilla],
    [binary], [wgangp], and a loss module whenever the mode is not
    [wgangp]; each call takes the branch of its mode, and what it returns or
    raises is what that branch returns or raises: never the
    [UnboundLocalError] of the fall-through. *)
Theorem GANLoss_call_branches :
  forall (T : Torch) (mode : string) (g g' : Random) (self : GANLoss),
    GANLoss_init mode g = (Ok self, g') ->
    gan_mode self = mode
    /\ str_in mode loss_modes = true
    /\ (forall prediction target_is_real,
          GANLoss_call self prediction target_is_real =
          (if str_in mode ["lsgan"; "vanilla"] then
             target <- get_target_tensor self prediction target_is_real ;;
             call_loss self prediction target
           else if String.eqb mode "binary" then
             target <- get_target_tensorAB self prediction target_is_real ;;
             call_loss self prediction target
           else
             m <- lib (mean prediction) ;;
             Ok (if target_is_real then neg m else m)))
    /\ (forall prediction target_is_real,
          raises_UnboundLocalError
            (GANLoss_call self prediction target_is_real) = false).
Proof.
  intros T mode g g' self Hinit.
  destruct (GANLoss_init_inv T mode g g' self Hinit)
    as (r & f & _ & _ & _ & _ & _ & Hgm & _ & Hloss).
  split; [exact Hgm |].
  assert (Hcall : forall prediction target_is_real,
            GANLoss_call self prediction target_is_real =
            (if str_in mode ["lsgan"; "vanilla"] then
               target <- get_target_tensor self prediction target_is_real ;;
               call_loss self prediction target
             else if String.eqb mode "binary" then
               target <- get_target_tensorAB self prediction target_is_real ;;
               call_loss self prediction target
             else
               m <- lib (mean prediction) ;;
               Ok (if target_is_real then neg m else m))).
  { intros prediction target_is_real. unfold GANLoss_call. rewrite Hgm.
    destruct Hloss as [[-> L] | [[-> L] | [[-> L] | [-> L]]]];
      cbn [str_in existsb String.eqb Ascii.eqb Bool.eqb orb];
      unfold get_target_tensor, get_target_tensorAB, call_loss;
      rewrite ?L; cbn [bind];
      repeat match goal with
             | |- context [lib ?o] => destruct o; cbn [lib bind]
             end;
      try reflexivity;
      destruct target_is_real; reflexivity. }
  split; [| split; [exact Hcall |]].
  - destruct Hloss as [[-> _] | [[-> _] | [[-> _] | [-> _]]]]; reflexivity.
  - intros prediction target_is_real. rewrite Hcall.
    destruct Hloss as [[-> L] | [[-> L] | [[-> L] | [-> L]]]];
      cbn [str_in existsb String.eqb Ascii.eqb Bool.eqb orb];
      unfold get_target_tensor, get_target_tensorAB, call_loss;
      rewrite ?L; cbn [bind];
      repeat match goal with
             | |- context [lib ?o] => destruct o; cbn [lib bind]
             end;
      reflexivity.
Qed.

Lemma GANLoss_call_branches_witness :
  exists self g',
    GANLoss_init (T := FlatTorch) "binary" (constant_random 0) = (Ok self, g')
    /\ raises_UnboundLocalError
         (GANLoss_call self [half; half; half; half] true) = false.
Proof.
  eexists. eexists. split; [reflexivity |].
  apply (GANLoss_call_branches FlatTorch "binary" (constant_random 0)
           _ _ eq_refl).
Defined.

(** ** [cal_gradient_penalty] *)

(** A weight that is at most zero is not above zero (binary64 order: a NaN
    is neither). *)
Lemma float_nonpositive (x : float) :
  (x <=? 0)%float = true -> (0 <? x)%float = false.
Proof.
  rewrite FloatAxioms.leb_spec, FloatAxioms.ltb_spec.
  change (Prim2SF 0) with (S754_zero false).
  destruct (Prim2SF x) as [sx | sx | | sx mx ex]; try destruct sx; cbn;
    congruence.
Qed.

(** C6.  With a penalty weight of at most zero, [cal_gradient_penalty]
    returns the pair [(0.0, None)], whatever the discriminator, the two
    batches, the device, the interpolation type and the constant, and
    leaves the library's generator as it was. *)
Theorem cal_gradient_penalty_nonpositive_weight :
  forall (T : Torch) (netD : Tensor -> option Tensor)
         (real_data fake_data : Tensor) (device type : string)
         (constant lambda_gp : float) (gen : Generator),
    (lambda_gp <=? 0)%float = true ->
    cal_gradient_penalty netD real_data fake_data device type constant
                         lambda_gp gen
    = (Ok (PyFloat 0, None), gen).
Proof.
  intros T netD real_data fake_data device type constant lambda_gp gen H.
  unfold cal_gradient_penalty.
  rewrite (float_nonpositive lambda_gp H). reflexivity.
Qed.

Lemma cal_gradient_penalty_nonpositive_weight_witness :
  ((-1) <=? 0)%float = true /\
  cal_gradient_penalty (T := FlatTorch) (fun t => Some t)
    [half; half] [half; half] "cpu" "mixed" 1 (-1) 0%nat
  = (Ok (PyFloat 0, None), 0%nat).
Proof.
  split; [reflexivity |].
  apply (cal_gradient_penalty_nonpositive_weight FlatTorch).
  reflexivity.
Defined.

(** C5, as the code has it.  With a penalty weight above zero and an
    interpolation type outside [real], [fake], [mixed],
    [cal_gradient_penalty] raises the [NotImplementedError] that quotes the
    type, before it touches the discriminator or the library's generator. *)
Theorem cal_gradient_penalty_unknown_type :
  forall (T : Torch) (netD : Tensor -> option Tensor)
         (real_data fake_data : Tensor) (device type : string)
         (constant lambda_gp : float) (gen : Generator),
    (0 <? lambda_gp)%float = true ->
    str_in type interpolation_types = false ->
    cal_gradient_penalty netD real_data fake_data device type constant
                         lambda_gp gen
    = (Raise (NotImplementedError (String.append type " not implemented")),
       gen).
Proof.
  intros T netD real_data fake_data device type constant lambda_gp gen
         Hpos Hty.
  unfold interpolation_types in Hty. name_none Hty.
  unfold cal_gradient_penalty, interpolates.
  rewrite Hpos, Hne, Hne0, Hne1. reflexivity.
Qed.

Lemma cal_gradient_penalty_unknown_type_witness :
  (0 <? ten)%float = true /\
  str_in "linear" interpolation_types = false /\
  cal_gradient_penalty (T := FlatTorch) (fun t => Some t)
    [half; half] [half; half] "cpu" "linear" 1 ten 0%nat
  = (Raise (NotImplementedError "linear not implemented"), 0%nat).
Proof.
  split; [reflexivity |]. split; [reflexivity |].
  apply (cal_gradient_penalty_unknown_type FlatTorch); reflexivity.
Defined.

(** C5, as the claim has it, fails: with the weight at zero an unknown
    interpolation type raises nothing. *)
Lemma cal_gradient_penalty_unknown_type_zero_weight :
  cal_gradient_penalty (T := FlatTorch) (fun t => Some t)
    [half; half] [half; half] "cpu" "linear" 1 0 0%nat
  = (Ok (PyFloat 0, None), 0%nat).
Proof. reflexivity. Qed.

(** * Further properties *)

(** ** The default normalization policy *)

(** X1.  With ["layer"], the default of their [norm] argument, [define_G]
    and [define_D] raise the [TypeError] of [LayerNorm()] before they look
    at the kind: whatever the other arguments, no network is built, nothing
    is printed, nothing is initialized. *)
Theorem define_G_define_D_default_norm :
  forall (cuda : bool) (input_nc output_nc ngf ndf n_layers_D : Z)
         (netG netD : string) (use_dropout : bool) (init_type : string)
         (init_gain : float) (gpu_ids : list Z),
    define_G cuda input_nc output_nc ngf netG "layer" use_dropout
             init_type init_gain gpu_ids =
    ([], Raise (TypeError
      "__init__() missing 1 required positional argument: 'normalized_shape'"))
    /\ define_D cuda input_nc ndf netD n_layers_D "layer" init_type
                init_gain gpu_ids =
    ([], Raise (TypeError
      "__init__() missing 1 required positional argument: 'normalized_shape'")).
Proof. intros. split; reflexivity. Qed.

(** X2.  The generator kinds [resnet_9blocks], [resnet_6blocks],
    [convnext], [invnext] and [Convnext_Interpolation] are built without the
    normalization factory: whichever policy [norm] names, the network is
    the same; the three ConvNeXt kinds are also the same with and without
    dropout. *)
Theorem define_G_net_ignores_norm :
  forall (input_nc output_nc ngf : Z) (netG : string)
         (norm_layer norm_layer' : NormLayer) (use_dropout use_dropout' : bool),
    str_in netG kinds_without_norm = true ->
    define_G_net input_nc output_nc ngf netG norm_layer use_dropout =
    define_G_net input_nc output_nc ngf netG norm_layer' use_dropout
    /\ (str_in netG ["convnext"; "invnext"; "Convnext_Interpolation"] = true ->
        define_G_net input_nc output_nc ngf netG norm_layer use_dropout =
        define_G_net input_nc output_nc ngf netG norm_layer' use_dropout').
Proof.
  intros input_nc output_nc ngf netG nl nl' ud ud' H.
  unfold kinds_without_norm in H.
  name_cases H; (split; [reflexivity | intro H2; try reflexivity;
                                        discriminate H2]).
Qed.

Lemma define_G_net_ignores_norm_witness :
  str_in "resnet_9blocks" kinds_without_norm = true /\
  define_G_net 3 3 64 "resnet_9blocks" (partial cls_InstanceNorm2d false false)
               false =
  define_G_net 3 3 64 "resnet_9blocks" fun_Identity false.
Proof.
  split; [reflexivity |].
  apply (proj1 (define_G_net_ignores_norm 3 3 64 "resnet_9blocks"
                  (partial cls_InstanceNorm2d false false) fun_Identity
                  false false eq_refl)).
Defined.

(** ** [get_scheduler] *)

(** X3.  For a policy outside [linear], [step], [plateau], [cosine],
    [get_scheduler] does not raise: it returns, as its value, a
    [NotImplementedError] instance whose arguments are the format string,
    with its placeholder, and the policy name.  With ["linear"] the rule
    is run once, at epoch 0, while the scheduler is built: with
    [n_epochs_decay = -1] (and [epoch_count <= n_epochs]) it is
    [get_scheduler] itself that raises [ZeroDivisionError]. *)
Theorem get_scheduler_unknown_policy :
  forall opt : Options,
    (str_in (lr_policy opt) scheduler_policies = false ->
     get_scheduler opt =
     Ok (an_exception "NotImplementedError"
           ["learning rate policy [%s] is not implemented";
            lr_policy opt]))
    /\ (lr_policy opt = "linear" ->
        n_epochs_decay opt = -1 ->
        epoch_count opt <= n_epochs opt ->
        get_scheduler opt = Raise ZeroDivisionError).
Proof.
  intro opt. unfold get_scheduler. split.
  - intro H. unfold scheduler_policies in H. name_none H.
    rewrite Hne, Hne0, Hne1, Hne2. reflexivity.
  - intros -> Hd Hle. cbn [String.eqb Ascii.eqb Bool.eqb].
    unfold lambda_rule. rewrite Hd.
    replace (Z.max 0 (0 + epoch_count opt - n_epochs opt)) with 0 by lia.
    reflexivity.
Qed.

Lemma get_scheduler_unknown_policy_witness :
  get_scheduler {| lr_policy := "exponential"; epoch_count := 1;
                   n_epochs := 100; n_epochs_decay := 100;
                   lr_decay_iters := 50 |} =
  Ok (an_exception "NotImplementedError"
        ["learning rate policy [%s] is not implemented"; "exponential"])
  /\ get_scheduler {| lr_policy := "linear"; epoch_count := 1;
                      n_epochs := 100; n_epochs_decay := -1;
                      lr_decay_iters := 50 |} =
     Raise ZeroDivisionError.
Proof.
  split.
  - apply (proj1 (get_scheduler_unknown_policy
                    {| lr_policy := "exponential"; epoch_count := 1;
                       n_epochs := 100; n_epochs_decay := 100;
                       lr_decay_iters := 50 |})).
    reflexivity.
  - apply (proj2 (get_scheduler_unknown_policy
                    {| lr_policy := "linear"; epoch_count := 1;
                       n_epochs := 100; n_epochs_decay := -1;
                       lr_decay_iters := 50 |}));
      [reflexivity | reflexivity | cbn; lia].
Defined.

Lemma float_positive_Prim2SF (x : float) :
  (0 <? x)%float = true ->
  Prim2SF x = S754_infinity false
  \/ exists m e, Prim2SF x = S754_finite false m e.
Proof.
  rewrite FloatAxioms.ltb_spec.
  change (Prim2SF 0) with (S754_zero false).
  destruct (Prim2SF x) as [sx | sx | | sx mx ex]; try destruct sx; cbn;
    try discriminate; intros _; [left | right; eexists; eexists];
    reflexivity.
Qed.

(** X4.  The factor of the ["linear"] policy is exactly [1.0] for every
    epoch with [epoch + epoch_count <= n_epochs], when
    [float(n_epochs_decay + 1)] is a positive number.  With
    [n_epochs_decay = -1] the rule returns at no epoch: it raises
    [ZeroDivisionError], or [OverflowError] when the epoch is past what a
    float holds, and [ZeroDivisionError] for every epoch with
    [epoch + epoch_count <= n_epochs]. *)
Theorem lambda_rule_before_decay :
  forall (opt : Options) (epoch : Z),
    (epoch + epoch_count opt <= n_epochs opt ->
     forall d : float,
       float_of_int (n_epochs_decay opt + 1) = Ok d ->
       (0 <? d)%float = true ->
       lambda_rule opt epoch = Ok 1%float)
    /\ (n_epochs_decay opt = -1 ->
        (lambda_rule opt epoch = Raise ZeroDivisionError
         \/ lambda_rule opt epoch =
            Raise (OverflowError "int too large to convert to float"))
        /\ (epoch + epoch_count opt <= n_epochs opt ->
            lambda_rule opt epoch = Raise ZeroDivisionError)).
Proof.
  intros opt epoch. unfold lambda_rule. split.
  - intros Hle d Hd Hpos. rewrite Hd. cbn [bind].
    replace (Z.max 0 (epoch + epoch_count opt - n_epochs opt)) with 0 by lia.
    change (float_of_int 0) with (Ok 0%float). cbn [bind].
    assert (Hq : Prim2SF (0 / d) = S754_zero false).
    { rewrite FloatAxioms.div_spec.
      change (Prim2SF 0) with (S754_zero false).
      destruct (float_positive_Prim2SF d Hpos) as [E | (m & e & E)];
        rewrite E; reflexivity. }
    assert (Hz : (d =? 0)%float = false).
    { rewrite FloatAxioms.eqb_spec.
      change (Prim2SF 0) with (S754_zero false).
      destruct (float_positive_Prim2SF d Hpos) as [E | (m & e & E)];
        rewrite E; reflexivity. }
    rewrite Hz. f_equal. apply FloatAxioms.Prim2SF_inj.
    rewrite FloatAxioms.sub_spec, Hq. reflexivity.
  - intros ->. change (float_of_int (-1 + 1)) with (Ok 0%float).
    cbn [bind]. split.
    + unfold float_of_int.
      destruct (is_infinity _); cbn [bind]; [right | left]; reflexivity.
    + intro Hle.
      replace (Z.max 0 (epoch + epoch_count opt - n_epochs opt)) with 0
        by lia.
      reflexivity.
Qed.

Lemma lambda_rule_before_decay_witness :
  lambda_rule {| lr_policy := "linear"; epoch_count := 1; n_epochs := 100;
                 n_epochs_decay := 100; lr_decay_iters := 50 |} 99
  = Ok 1%float
  /\ lambda_rule {| lr_policy := "linear"; epoch_count := 1; n_epochs := 100;
                    n_epochs_decay := -1; lr_decay_iters := 50 |} 99
     = Raise ZeroDivisionError.
Proof.
  split.
  - apply (proj1 (lambda_rule_before_decay
                    {| lr_policy := "linear"; epoch_count := 1;
                       n_epochs := 100; n_epochs_decay := 100;
                       lr_decay_iters := 50 |} 99)
                 ltac:(cbn; lia) 0x1.94p+6%float eq_refl eq_refl).
  - apply (proj2 (proj2 (lambda_rule_before_decay
                           {| lr_policy := "linear"; epoch_count := 1;
                              n_epochs := 100; n_epochs_decay := -1;
                              lr_decay_iters := 50 |} 99)
                        eq_refl)).
    cbn; lia.
Defined.

(** ** What [init_weights] writes *)

(** X5.  Whatever the init type and the network, every parameter that
    [init_weights] overwrites belongs to a module of the network that is a
    convolution or linear layer (a [weight] and "Conv" or "Linear" in the
    class name) or has "BatchNorm2d" in its class name.  The parameters of
    [LayerNorm] and [InstanceNorm2d] layers are never overwritten. *)
Theorem init_weights_writes_only :
  forall (net : Module) (init_type : string) (init_gain : float),
    (forall m attr call,
       In (InitData m attr call)
          (fst (init_weights net init_type init_gain)) ->
       In m (apply_order net)
       /\ (is_target m = true \/ is_batchnorm m = true))
    /\ (forall l attr call,
          layer_classname l = "LayerNorm"
          \/ layer_classname l = "InstanceNorm2d" ->
          ~ In (InitData (Leaf l) attr call)
               (fst (init_weights net init_type init_gain))).
Proof.
  intros net init_type init_gain.
  assert (H1 : forall m attr call,
             In (InitData m attr call)
                (fst (init_weights net init_type init_gain)) ->
             In m (apply_order net)
             /\ (is_target m = true \/ is_batchnorm m = true)).
  { intros m attr call H. unfold init_weights in H.
    apply fst_ebind_in in H. destruct H as [H | (a & _ & H)].
    - cbn in H. destruct H as [H | []]. discriminate H.
    - rewrite apply_each in H. apply fst_each_in in H.
      destruct H as (m0 & Hm0 & Hev).
      apply init_func_in in Hev. destruct Hev as [-> Hk].
      split; assumption. }
  split; [exact H1 |].
  intros l attr call Hl Hin.
  destruct (H1 _ _ _ Hin) as [_ Hk].
  destruct l as [| ? ? ? | ? ? ? | ? [|] ? | | | | | | | | | | | | |];
    cbn in Hl; destruct Hl as [Hl | Hl]; try discriminate Hl;
    destruct Hk as [Hk | Hk]; vm_compute in Hk; discriminate Hk.
Qed.

Lemma init_weights_writes_only_witness :
  In (Leaf (Conv2d 3 8 3 1 1 1 true))
     (apply_order (Sequential [Leaf (Conv2d 3 8 3 1 1 1 true);
                               Leaf (InstanceNorm2d 8 false false)]))
  /\ (is_target (Leaf (Conv2d 3 8 3 1 1 1 true)) = true
      \/ is_batchnorm (Leaf (Conv2d 3 8 3 1 1 1 true)) = true).
Proof.
  apply (proj1 (init_weights_writes_only
                  (Sequential [Leaf (Conv2d 3 8 3 1 1 1 true);
                               Leaf (InstanceNorm2d 8 false false)])
                  "normal" gain_default)
               (Leaf (Conv2d 3 8 3 1 1 1 true)) "bias" (constant_ 0)).
  right. right. left. reflexivity.
Defined.

Lemma init_func_kaiming_gain (g1 g2 : float) (m : Module) :
  is_batchnorm m = false ->
  init_func "kaiming" g1 m = init_func "kaiming" g2 m.
Proof.
  unfold is_batchnorm, init_func. fold (is_target m).
  destruct (is_target m); cbn [negb andb]; [reflexivity |].
  intros ->. reflexivity.
Qed.

(** X6.  With init type ["kaiming"] the gain is not used on convolutions
    and linear layers: on a network without a batch-normalization module,
    [init_weights] does the same for every [init_gain]. *)
Theorem init_weights_kaiming_ignores_gain :
  forall (net : Module) (g1 g2 : float),
    existsb is_batchnorm (apply_order net) = false ->
    init_weights net "kaiming" g1 = init_weights net "kaiming" g2.
Proof.
  intros net g1 g2 H. unfold init_weights. rewrite !apply_each.
  rewrite (each_ext (init_func "kaiming" g1) (init_func "kaiming" g2));
    [reflexivity |].
  intros m Hm.
  apply init_func_kaiming_gain.
  destruct (is_batchnorm m) eqn:E; [| reflexivity].
  assert (existsb is_batchnorm (apply_order net) = true)
    by (apply existsb_exists; exists m; split; assumption).
  congruence.
Qed.

Lemma init_weights_kaiming_ignores_gain_witness :
  init_weights (Sequential [Leaf (Conv2d 3 8 3 1 1 1 true);
                            Leaf (InstanceNorm2d 8 false false)])
               "kaiming" gain_default =
  init_weights (Sequential [Leaf (Conv2d 3 8 3 1 1 1 true);
                            Leaf (InstanceNorm2d 8 false false)])
               "kaiming" half.
Proof.
  apply (init_weights_kaiming_ignores_gain
           (Sequential [Leaf (Conv2d 3 8 3 1 1 1 true);
                        Leaf (InstanceNorm2d 8 false false)])
           gain_default half).
  reflexivity.
Defined.

(** X7.  [init_net] with devices listed.  Whenever it returns, CUDA was
    available, what it returns is the network wrapped in [DataParallel],
    and it has printed and written exactly what [init_net] prints and
    writes for the same network with no device, which returns as well:
    the wrapper adds no parameter to initialize. *)
Theorem init_net_with_devices :
  forall (cuda : bool) (net : Module) (init_type : string)
         (init_gain : float) (device : Z) (devices : list Z)
         (log : list Event) (wrapped : Module),
    init_net cuda net init_type init_gain (device :: devices)
      = (log, Ok wrapped) ->
    cuda = true
    /\ wrapped = Node "DataParallel" [net]
    /\ init_net cuda net init_type init_gain [] = (log, Ok net).
Proof.
  intros cuda net init_type init_gain device devices log wrapped.
  unfold init_net.
  change (0 <? Z.of_nat (List.length (device :: devices))) with true.
  change (0 <? Z.of_nat (List.length (@nil Z))) with false.
  cbn iota. destruct cuda; [| discriminate].
  rewrite !ret_ebind.
  unfold init_weights. rewrite !apply_each.
  cbn [apply_order flat_map]. rewrite app_nil_r, each_app.
  cbn [each].
  change (init_func init_type init_gain (Node "DataParallel" [net]))
    with (ret tt).
  destruct (each (init_func init_type init_gain) (apply_order net))
    as [log' [[] | e]]; cbn; rewrite ?app_nil_r; intro H;
    [| discriminate H].
  injection H as <- <-. auto.
Qed.

Lemma init_net_with_devices_witness :
  true = true
  /\ Node "DataParallel" [Sequential [Leaf (Conv2d 3 8 3 1 1 1 true)]]
     = Node "DataParallel" [Sequential [Leaf (Conv2d 3 8 3 1 1 1 true)]]
  /\ init_net true (Sequential [Leaf (Conv2d 3 8 3 1 1 1 true)]) "normal"
              gain_default []
     = ([Printed "initialize network with normal";
         InitData (Leaf (Conv2d 3 8 3 1 1 1 true)) "weight"
                  (normal_ 0 gain_default);
         InitData (Leaf (Conv2d 3 8 3 1 1 1 true)) "bias" (constant_ 0)],
        Ok (Sequential [Leaf (Conv2d 3 8 3 1 1 1 true)])).
Proof.
  apply (init_net_with_devices true
           (Sequential [Leaf (Conv2d 3 8 3 1 1 1 true)]) "normal"
           gain_default 0 [1]).
  reflexivity.
Defined.

(** ** [GANLoss], the other modes *)

(** X8.  In mode ["binary"] the instance is constructed, and each call is
    the cross-entropy of the prediction against the integer vector
    [[1, 1, 1, 1]] when the flag is real and [[0, 0, 0, 0]] when it is not:
    four labels, whatever the prediction. *)
Theorem GANLoss_binary :
  forall (T : Torch) (g : Random) (prediction : Tensor)
         (target_is_real : bool),
    exists self,
      fst (GANLoss_init "binary" g) = Ok self
      /\ GANLoss_call self prediction target_is_real =
         lib (loss_forward CrossEntropyLoss prediction
                (torch_tensor_ints
                   (if target_is_real then [1; 1; 1; 1] else [0; 0; 0; 0]))).
Proof.
  intros T g prediction target_is_real.
  unfold GANLoss_init. destruct (draw_labels g) as [[rl fl] g'].
  cbn [String.eqb Ascii.eqb Bool.eqb str_in existsb orb fst].
  eexists. split; [reflexivity |].
  unfold GANLoss_call, get_target_tensorAB, call_loss.
  cbn [gan_mode loss A_label B_label str_in existsb String.eqb Ascii.eqb
       Bool.eqb orb bind].
  destruct target_is_real;
    match goal with
    | |- context [loss_forward ?l ?p ?t] => destruct (loss_forward l p t)
    end; reflexivity.
Qed.

(** X9.  A mode outside [lsgan], [vanilla], [binary], [wgangp] makes the
    constructor raise the [NotImplementedError] that quotes it, after the
    two label draws: the generator of [random] has delivered two more
    variates. *)
Theorem GANLoss_init_unknown_mode :
  forall (T : Torch) (mode : string) (g : Random),
    str_in mode loss_modes = false ->
    fst (GANLoss_init mode g) =
      Raise (NotImplementedError (fmt1 "gan mode " mode " not implemented"))
    /\ delivered (snd (GANLoss_init mode g)) = S (S (delivered g)).
Proof.
  intros T mode g H. unfold loss_modes in H. name_none H.
  unfold GANLoss_init, draw_labels, randint.
  cbn [fst snd delivered variates].
  rewrite Hne, Hne0, Hne1.
  unfold str_in. cbn [existsb]. rewrite Hne2. cbn [orb fst snd delivered].
  split; reflexivity.
Qed.

Lemma GANLoss_init_unknown_mode_witness :
  str_in "hinge" loss_modes = false /\
  delivered (snd (GANLoss_init (T := FlatTorch) "hinge" (constant_random 0)))
  = 2%nat.
Proof.
  split; [reflexivity |].
  apply (GANLoss_init_unknown_mode FlatTorch "hinge" (constant_random 0)).
  reflexivity.
Defined.

(** ** [LayerNorm] *)

Lemma broadcast_channels_first (c b h w : Z) :
  broadcast_shapes [c; 1; 1] [b; c; h; w] = Some [b; c; h; w].
Proof.
  unfold broadcast_shapes. cbn [rev app broadcast_rev].
  rewrite Z.eqb_refl.
  destruct (Z.eqb_spec 1 h) as [<- | _];
    destruct (Z.eqb_spec 1 w) as [<- | _]; reflexivity.
Qed.



(** ** Shapes through the discriminators and generators *)

Lemma forward_shape_all_Sequential (training : bool) (ms : list Module)
    (s : Shape) :
  forward_shape_all training (Sequential ms) s = run_shapes_all training ms s.
Proof.
  unfold Sequential. simpl. revert s.
  induction ms as [| c ms IH]; intro s; [reflexivity |].
  simpl. destruct (forward_shape_all training c s) as [s1 |]; simpl;
    [apply IH | reflexivity].
Qed.

Lemma run_shapes_all_app (training : bool) (a b : list Module) (s : Shape) :
  run_shapes_all training (a ++ b) s =
  obind (run_shapes_all training a s) (run_shapes_all training b).
Proof.
  revert s. induction a as [| c a IH]; intro s; [reflexivity |].
  simpl. destruct (forward_shape_all training c s) as [s1 |]; simpl;
    [apply IH | reflexivity].
Qed.

Lemma run_shapes_all_cons (training : bool) (m : Module) (ms : list Module)
    (s s1 : Shape) :
  forward_shape_all training m s = Some s1 ->
  run_shapes_all training (m :: ms) s = run_shapes_all training ms s1.
Proof. intro H. cbn [run_shapes_all]. rewrite H. reflexivity. Qed.

Lemma Conv2d_shape (training : bool) (cin cout k st p g : Z) (b : bool)
    (n c h w h' w' : Z) :
  c = cin -> 0 < st -> 0 <= p -> k <= h + 2 * p -> k <= w + 2 * p ->
  conv_out h k st p = h' -> conv_out w k st p = w' ->
  forward_shape_all training (Leaf (Conv2d cin cout k st p g b)) [n; c; h; w]
  = Some [n; cout; h'; w'].
Proof.
  intros -> Hst Hp Hh Hw <- <-. cbn [forward_shape_all layer_shape_all
                                     layer_shape].
  rewrite Z.eqb_refl.
  replace (0 <? st) with true by (symmetry; apply Z.ltb_lt; exact Hst).
  replace (0 <=? p) with true by (symmetry; apply Z.leb_le; exact Hp).
  replace (k <=? h + 2 * p) with true by (symmetry; apply Z.leb_le; exact Hh).
  replace (k <=? w + 2 * p) with true by (symmetry; apply Z.leb_le; exact Hw).
  reflexivity.
Qed.

Lemma ConvTranspose2d_shape (training : bool) (cin cout k st p op : Z)
    (b : bool) (n c h w h' w' : Z) :
  c = cin -> 0 < st -> 0 <= p -> 0 <= op < st -> 0 < h -> 0 < w ->
  conv_transpose_out h k st p op = h' ->
  conv_transpose_out w k st p op = w' ->
  0 < h' -> 0 < w' ->
  forward_shape_all training (Leaf (ConvTranspose2d cin cout k st p op b))
                    [n; c; h; w]
  = Some [n; cout; h'; w'].
Proof.
  intros -> Hst Hp [Hop1 Hop2] Hh Hw <- <- Hh' Hw'.
  cbn [forward_shape_all layer_shape_all].
  rewrite Z.eqb_refl.
  replace (0 <? st) with true by (symmetry; apply Z.ltb_lt; exact Hst).
  replace (0 <=? p) with true by (symmetry; apply Z.leb_le; exact Hp).
  replace (0 <=? op) with true by (symmetry; apply Z.leb_le; exact Hop1).
  replace (op <? st) with true by (symmetry; apply Z.ltb_lt; exact Hop2).
  replace (0 <? h) with true by (symmetry; apply Z.ltb_lt; exact Hh).
  replace (0 <? w) with true by (symmetry; apply Z.ltb_lt; exact Hw).
  replace (0 <? conv_transpose_out h k st p op) with true
    by (symmetry; apply Z.ltb_lt; exact Hh').
  replace (0 <? conv_transpose_out w k st p op) with true
    by (symmetry; apply Z.ltb_lt; exact Hw').
  reflexivity.
Qed.

Lemma call_norm_of (norm_layer : NormLayer) (c : Z) :
  is_factory norm_layer = true ->
  call_norm_layer norm_layer c = Ok (norm_of norm_layer c).
Proof.
  unfold norm_of.
  destruct norm_layer as [[|] a t | [|] | m |]; intro H;
    try discriminate H; reflexivity.
Qed.

Lemma norm_of_shape (training : bool) (norm_layer : NormLayer)
    (c c' n h w : Z) :
  is_factory norm_layer = true ->
  c' = c -> 1 <= n -> 1 < h * w ->
  forward_shape_all training (Leaf (norm_of norm_layer c)) [n; c'; h; w]
  = Some [n; c'; h; w].
Proof.
  intros Hf -> Hn Hhw.
  pose proof (norm_accepts training norm_layer (norm_of norm_layer c)
                c n h w (call_norm_of norm_layer c Hf) Hn Hhw) as H.
  destruct norm_layer as [[|] a t | [|] | m |]; try discriminate Hf;
    exact H.
Qed.

Lemma ReflectionPad2d_shape (training : bool) (p n c h w : Z) :
  0 <= p -> p < h -> p < w ->
  forward_shape_all training (Leaf (ReflectionPad2d p)) [n; c; h; w]
  = Some [n; c; h + 2 * p; w + 2 * p].
Proof.
  intros Hp Hh Hw. cbn [forward_shape_all layer_shape_all layer_shape].
  replace (0 <=? p) with true by (symmetry; apply Z.leb_le; exact Hp).
  replace (p <? h) with true by (symmetry; apply Z.ltb_lt; exact Hh).
  replace (p <? w) with true by (symmetry; apply Z.ltb_lt; exact Hw).
  reflexivity.
Qed.

Lemma ReplicationPad2d_shape (training : bool) (p n c h w : Z) :
  0 <= p -> 0 < h -> 0 < w ->
  forward_shape_all training (Leaf (ReplicationPad2d p)) [n; c; h; w]
  = Some [n; c; h + 2 * p; w + 2 * p].
Proof.
  intros Hp Hh Hw. cbn [forward_shape_all layer_shape_all layer_shape].
  replace (0 <=? p) with true by (symmetry; apply Z.leb_le; exact Hp).
  replace (0 <? h) with true by (symmetry; apply Z.ltb_lt; exact Hh).
  replace (0 <? w) with true by (symmetry; apply Z.ltb_lt; exact Hw).
  reflexivity.
Qed.

(** One step of a forward pass: name the shape after the step, then show
    the layer gives it. *)
Ltac arith :=
  unfold conv_out, conv_transpose_out;
  first [ reflexivity | lia | nia
        | Z.to_euclidean_division_equations; lia
        | Z.to_euclidean_division_equations; nia ].

Ltac layer_gives :=
  first
    [ reflexivity
    | apply Conv2d_shape; arith
    | apply ConvTranspose2d_shape; arith
    | apply ReflectionPad2d_shape; arith
    | apply ReplicationPad2d_shape; arith
    | apply norm_of_shape; [assumption | arith ..] ].

Ltac step s1 :=
  rewrite (run_shapes_all_cons _ _ _ _ s1); [| layer_gives].

Lemma NLayerDiscriminator_3 (input_nc ndf : Z) (norm_layer : NormLayer) :
  is_factory norm_layer = true ->
  NLayerDiscriminator input_nc ndf 3 norm_layer =
  Ok (Node "NLayerDiscriminator"
        [Sequential
           [Leaf (Conv2d input_nc ndf 4 2 1 1 true);
            Leaf (LeakyReLU two_tenths true);
            Leaf (Conv2d (ndf * 1) (ndf * 2) 4 2 1 1
                         (use_bias_of norm_layer));
            Leaf (norm_of norm_layer (ndf * 2));
            Leaf (LeakyReLU two_tenths true);
            Leaf (Conv2d (ndf * 2) (ndf * 4) 4 2 1 1
                         (use_bias_of norm_layer));
            Leaf (norm_of norm_layer (ndf * 4));
            Leaf (LeakyReLU two_tenths true);
            Leaf (Conv2d (ndf * 4) (ndf * 8) 4 1 1 1
                         (use_bias_of norm_layer));
            Leaf (norm_of norm_layer (ndf * 8));
            Leaf (LeakyReLU two_tenths true);
            Leaf (Conv2d (ndf * 8) 1 4 1 1 1 true)]]).
Proof.
  destruct norm_layer as [[|] a t | [|] | m |]; intro H;
    try discriminate H; reflexivity.
Qed.

(** X11.  The ["basic"] discriminator of [define_D] (the PatchGAN with three
    stride-2 layers, any normalization factory) maps a batch of images
    with sides [h] and [w] of at least 24 to a one-channel map of size
    [(h / 8 - 2) x (w / 8 - 2)], the quotients rounded down: 30 x 30 for
    256 x 256. *)
Theorem basic_discriminator_shape :
  forall (training : bool) (input_nc ndf n_layers_D : Z)
         (norm_layer : NormLayer) (n h w : Z),
    is_factory norm_layer = true ->
    1 <= input_nc -> 1 <= ndf ->
    1 <= n -> 24 <= h -> 24 <= w ->
    exists net,
      define_D_net input_nc ndf "basic" n_layers_D norm_layer = Ok net
      /\ forward_shape_all training net [n; input_nc; h; w]
         = Some [n; 1; h / 8 - 2; w / 8 - 2].
Proof.
  intros training input_nc ndf n_layers_D norm_layer n h w Hf _ _ Hn Hh Hw.
  eexists. split.
  - change (define_D_net input_nc ndf "basic" n_layers_D norm_layer)
      with (NLayerDiscriminator input_nc ndf 3 norm_layer).
    apply NLayerDiscriminator_3. exact Hf.
  - change (forward_shape_all training (Node "NLayerDiscriminator" [?m]) ?s)
      with (forward_shape_all training m s).
    rewrite forward_shape_all_Sequential.
    step [n; ndf; h / 2; w / 2].
    step [n; ndf; h / 2; w / 2].
    step [n; ndf * 2; h / 4; w / 4].
    step [n; ndf * 2; h / 4; w / 4].
    step [n; ndf * 2; h / 4; w / 4].
    step [n; ndf * 4; h / 8; w / 8].
    step [n; ndf * 4; h / 8; w / 8].
    step [n; ndf * 4; h / 8; w / 8].
    step [n; ndf * 8; h / 8 - 1; w / 8 - 1].
    step [n; ndf * 8; h / 8 - 1; w / 8 - 1].
    step [n; ndf * 8; h / 8 - 1; w / 8 - 1].
    step [n; 1; h / 8 - 2; w / 8 - 2].
    reflexivity.
Qed.

Lemma basic_discriminator_shape_witness :
  exists net,
    define_D_net 3 64 "basic" 3 (partial cls_BatchNorm2d true true) = Ok net
    /\ forward_shape_all true net [1; 3; 256; 70]
       = Some [1; 1; 256 / 8 - 2; 70 / 8 - 2].
Proof.
  apply (basic_discriminator_shape true 3 64 3
           (partial cls_BatchNorm2d true true) 1 256 70 eq_refl);
    lia.
Defined.

Lemma PixelDiscriminator_layout (input_nc ndf : Z) (norm_layer : NormLayer) :
  is_factory norm_layer = true ->
  PixelDiscriminator input_nc ndf norm_layer =
  Ok (Node "PixelDiscriminator"
        [Sequential
           [Leaf (Conv2d input_nc ndf 1 1 0 1 true);
            Leaf (LeakyReLU two_tenths true);
            Leaf (Conv2d ndf (ndf * 2) 1 1 0 1 (use_bias_of norm_layer));
            Leaf (norm_of norm_layer (ndf * 2));
            Leaf (LeakyReLU two_tenths true);
            Leaf (Conv2d (ndf * 2) 1 1 1 0 1 (use_bias_of norm_layer))]]).
Proof.
  destruct norm_layer as [[|] a t | [|] | m |]; intro H;
    try discriminate H; reflexivity.
Qed.

(** X12.  The ["pixel"] discriminator keeps the spatial size and returns
    one channel: a batch of [input_nc] channels of size [h x w] (more than
    one pixel) comes out with shape [(n, 1, h, w)]. *)
Theorem pixel_discriminator_shape :
  forall (training : bool) (input_nc ndf n_layers_D : Z)
         (norm_layer : NormLayer) (n h w : Z),
    is_factory norm_layer = true ->
    1 <= input_nc -> 1 <= ndf ->
    1 <= n -> 1 <= h -> 1 <= w -> 1 < h * w ->
    exists net,
      define_D_net input_nc ndf "pixel" n_layers_D norm_layer = Ok net
      /\ forward_shape_all training net [n; input_nc; h; w]
         = Some [n; 1; h; w].
Proof.
  intros training input_nc ndf n_layers_D norm_layer n h w Hf _ _ Hn Hh Hw Hhw.
  eexists. split.
  - change (define_D_net input_nc ndf "pixel" n_layers_D norm_layer)
      with (PixelDiscriminator input_nc ndf norm_layer).
    apply PixelDiscriminator_layout. exact Hf.
  - change (forward_shape_all training (Node "PixelDiscriminator" [?m]) ?s)
      with (forward_shape_all training m s).
    rewrite forward_shape_all_Sequential.
    step [n; ndf; h; w].
    step [n; ndf; h; w].
    step [n; ndf * 2; h; w].
    step [n; ndf * 2; h; w].
    step [n; ndf * 2; h; w].
    step [n; 1; h; w].
    reflexivity.
Qed.

Lemma pixel_discriminator_shape_witness :
  exists net,
    define_D_net 3 64 "pixel" 3 (partial cls_InstanceNorm2d false false)
      = Ok net
    /\ forward_shape_all true net [2; 3; 7; 5] = Some [2; 1; 7; 5].
Proof.
  apply (pixel_discriminator_shape true 3 64 3
           (partial cls_InstanceNorm2d false false) 2 7 5 eq_refl);
    lia.
Defined.

Lemma for_append_same (blk : Module) (xs : list Z) (init : list Module) :
  for_ xs init (fun _ model => Ok (model ++ [blk]))
  = Ok (init ++ repeat blk (List.length xs)).
Proof.
  revert init.
  induction xs as [| x xs IH]; intro init; cbn [for_ List.length repeat].
  - rewrite app_nil_r. reflexivity.
  - cbn [bind]. rewrite IH, <- app_assoc. reflexivity.
Qed.

Lemma range_length (n : Z) : List.length (range n) = Z.to_nat n.
Proof. unfold range. rewrite length_map, length_seq. reflexivity. Qed.

Lemma ResnetGenerator_layout (input_nc output_nc ngf : Z)
    (norm_layer : NormLayer) (use_dropout : bool) (n_blocks : Z)
    (padding_type : string) (blk : Module) :
  is_factory norm_layer = true -> 0 <= n_blocks ->
  ResnetBlock (ngf * 4) padding_type norm_layer use_dropout
              (use_bias_of norm_layer) = Ok blk ->
  ResnetGenerator input_nc output_nc ngf norm_layer use_dropout n_blocks
                  padding_type =
  Ok (Node "ResnetGenerator"
        [Sequential
           ([Leaf (ReflectionPad2d 3);
             Leaf (Conv2d input_nc ngf 7 1 0 1 (use_bias_of norm_layer));
             Leaf (norm_of norm_layer ngf);
             Leaf (ReLU true);
             Leaf (Conv2d ngf (ngf * 2) 3 2 1 1 (use_bias_of norm_layer));
             Leaf (norm_of norm_layer (ngf * 2));
             Leaf (ReLU true);
             Leaf (Conv2d (ngf * 2) (ngf * 4) 3 2 1 1
                          (use_bias_of norm_layer));
             Leaf (norm_of norm_layer (ngf * 4));
             Leaf (ReLU true)]
            ++ repeat blk (Z.to_nat n_blocks)
            ++ [Leaf (ConvTranspose2d (ngf * 4) (ngf * 2) 3 2 1 1
                                      (use_bias_of norm_layer));
                Leaf (norm_of norm_layer (ngf * 2));
                Leaf (ReLU true);
                Leaf (ConvTranspose2d (ngf * 2) ngf 3 2 1 1
                                      (use_bias_of norm_layer));
                Leaf (norm_of norm_layer ngf);
                Leaf (ReLU true);
                Leaf (ReflectionPad2d 3);
                Leaf (Conv2d ngf output_nc 7 1 0 1 true);
                Leaf Tanh])]).
Proof.
  intros Hf Hn Hb.
  unfold ResnetGenerator.
  replace (0 <=? n_blocks) with true by (symmetry; apply Z.leb_le; exact Hn).
  change (2 ^ 2) with 4. rewrite Hb.
  change (range 2) with [0; 1].
  assert (Hq4 : Z.quot (ngf * 4) 2 = ngf * 2)
    by (replace (ngf * 4) with (ngf * 2 * 2) by lia;
        apply Z.quot_mul; discriminate).
  assert (Hq2 : Z.quot (ngf * 2) 2 = ngf) by (apply Z.quot_mul; discriminate).
  destruct norm_layer as [[|] a t | [|] | m |]; try discriminate Hf;
    cbn [negb bind call_norm_layer for_];
    rewrite for_append_same;
    cbn [bind for_ call_norm_layer];
    change (2 ^ (2 - 0)) with 4; change (2 ^ (2 - 1)) with 2;
    change (2 ^ 0) with 1; change (2 ^ 1) with 2;
    rewrite Hq4, Hq2, range_length, ?Z.mul_1_r;
    replace (ngf * 2 * 2) with (ngf * 4) by lia;
    cbn [norm_of call_norm_layer];
    repeat (rewrite <- app_assoc; cbn [app]);
    reflexivity.
Qed.

(** The next layer of a residual block. *)
Ltac block_step :=
  match goal with
  | |- context [run_shapes_all _ (Leaf (ReflectionPad2d ?p) :: _)
                               [?n; ?c; ?h; ?w]] =>
      step [n; c; h + 2 * p; w + 2 * p]
  | |- context [run_shapes_all _ (Leaf (ReplicationPad2d ?p) :: _)
                               [?n; ?c; ?h; ?w]] =>
      step [n; c; h + 2 * p; w + 2 * p]
  | |- context [run_shapes_all _ (Leaf (Conv2d _ ?cout 3 1 0 _ _) :: _)
                               [?n; _; ?h + 2 * 1; ?w + 2 * 1]] =>
      step [n; cout; h; w]
  | |- context [run_shapes_all _ (Leaf (Conv2d _ ?cout 3 1 1 _ _) :: _)
                               [?n; _; ?h; ?w]] =>
      step [n; cout; h; w]
  | |- context [run_shapes_all _ (Leaf _ :: _) ?s] =>
      step s
  end.

Lemma ResnetBlock_keeps_all (training : bool) (dim : Z)
    (padding_type : string) (norm_layer : NormLayer)
    (use_dropout use_bias : bool) (n h w : Z) :
  str_in padding_type ["reflect"; "replicate"; "zero"] = true ->
  is_factory norm_layer = true ->
  1 <= n -> 2 <= h -> 2 <= w ->
  exists blk,
    ResnetBlock dim padding_type norm_layer use_dropout use_bias = Ok blk
    /\ forward_shape_all training blk [n; dim; h; w] = Some [n; dim; h; w].
Proof.
  intros Hp Hf Hn Hh Hw.
  unfold ResnetBlock, build_conv_block.
  rewrite !(call_norm_of _ _ Hf).
  name_cases Hp; cbn [padding_step String.eqb Ascii.eqb Bool.eqb bind app];
    destruct use_dropout; cbn [app];
    (eexists; split; [reflexivity |]);
    change (forward_shape_all training (Node "ResnetBlock" [?m]) ?s)
      with (obind (forward_shape_all training m s) (broadcast_shapes s));
    rewrite forward_shape_all_Sequential.
  all: repeat block_step.
  all: cbn [run_shapes_all obind]; apply broadcast_shapes_same.
Qed.

Lemma run_shapes_all_repeat (training : bool) (blk : Module) (k : nat)
    (rest : list Module) (s : Shape) :
  forward_shape_all training blk s = Some s ->
  run_shapes_all training (repeat blk k ++ rest) s
  = run_shapes_all training rest s.
Proof.
  intro H. induction k as [| k IH]; [reflexivity |].
  cbn [repeat app]. rewrite (run_shapes_all_cons _ _ _ _ s H). exact IH.
Qed.

(** X13.  A [ResnetGenerator] with any number of residual blocks, any of the
    three padding policies and any normalization factory accepts every
    batch of images with sides of at least 5, and returns images with
    [output_nc] channels whose sides are those of the input rounded up to
    a multiple of 4: the size is kept exactly when it is a multiple
    of 4. *)
Theorem ResnetGenerator_shape :
  forall (training : bool) (input_nc output_nc ngf : Z)
         (norm_layer : NormLayer) (use_dropout : bool) (n_blocks : Z)
         (padding_type : string) (n h w : Z),
    str_in padding_type ["reflect"; "replicate"; "zero"] = true ->
    is_factory norm_layer = true ->
    0 <= n_blocks -> 1 <= input_nc -> 1 <= output_nc -> 1 <= ngf ->
    1 <= n -> 5 <= h -> 5 <= w ->
    exists net,
      ResnetGenerator input_nc output_nc ngf norm_layer use_dropout n_blocks
                      padding_type = Ok net
      /\ forward_shape_all training net [n; input_nc; h; w]
         = Some [n; output_nc; 4 * ((h + 3) / 4); 4 * ((w + 3) / 4)].
Proof.
  intros training input_nc output_nc ngf norm_layer use_dropout n_blocks
         padding_type n h w Hp Hf Hk _ _ _ Hn Hh Hw.
  assert (Ha : 2 <= (h + 3) / 4) by (Z.to_euclidean_division_equations; lia).
  assert (Hb : 2 <= (w + 3) / 4) by (Z.to_euclidean_division_equations; lia).
  destruct (ResnetBlock_keeps_all training (ngf * 4) padding_type norm_layer
              use_dropout (use_bias_of norm_layer) n _ _ Hp Hf Hn Ha Hb)
    as [blk [Hblk Hkeep]].
  eexists. split.
  - apply ResnetGenerator_layout; eassumption.
  - change (forward_shape_all training (Node "ResnetGenerator" [?m]) ?s)
      with (forward_shape_all training m s).
    rewrite forward_shape_all_Sequential. cbn [app].
    step [n; input_nc; h + 2 * 3; w + 2 * 3].
    step [n; ngf; h; w].
    step [n; ngf; h; w].
    step [n; ngf; h; w].
    step [n; ngf * 2; (h + 1) / 2; (w + 1) / 2].
    step [n; ngf * 2; (h + 1) / 2; (w + 1) / 2].
    step [n; ngf * 2; (h + 1) / 2; (w + 1) / 2].
    step [n; ngf * 4; (h + 3) / 4; (w + 3) / 4].
    step [n; ngf * 4; (h + 3) / 4; (w + 3) / 4].
    step [n; ngf * 4; (h + 3) / 4; (w + 3) / 4].
    rewrite (run_shapes_all_repeat _ _ _ _ _ Hkeep).
    set (a := (h + 3) / 4) in *. set (b := (w + 3) / 4) in *.
    step [n; ngf * 2; 2 * a; 2 * b].
    step [n; ngf * 2; 2 * a; 2 * b].
    step [n; ngf * 2; 2 * a; 2 * b].
    step [n; ngf; 4 * a; 4 * b].
    step [n; ngf; 4 * a; 4 * b].
    step [n; ngf; 4 * a; 4 * b].
    step [n; ngf; 4 * a + 2 * 3; 4 * b + 2 * 3].
    step [n; output_nc; 4 * a; 4 * b].
    step [n; output_nc; 4 * a; 4 * b].
    reflexivity.
Qed.

Lemma ResnetGenerator_shape_witness :
  exists net,
    ResnetGenerator 3 3 64 (class_ cls_BatchNorm2d) false 9 "reflect" = Ok net
    /\ forward_shape_all true net [1; 3; 62; 256]
       = Some [1; 3; 4 * ((62 + 3) / 4); 4 * ((256 + 3) / 4)].
Proof.
  apply (ResnetGenerator_shape true 3 3 64 (class_ cls_BatchNorm2d) false 9
           "reflect" 1 62 256 eq_refl eq_refl);
    lia.
Defined.

(** ** [Block] and [ConvnextGenerator] *)

Lemma Block_plain (dim : Z) :
  Block dim 0 layer_scale_default = Ok (plain_Block dim).
Proof. reflexivity. Qed.

Lemma stages_default :
  stages Block 0 depths_default dims_default layer_scale_default =
  Ok (ModuleList
        [Sequential (repeat (plain_Block 96) 3);
         Sequential (repeat (plain_Block 192) 3);
         Sequential (repeat (plain_Block 384) 9);
         Sequential (repeat (plain_Block 768) 3)]).
Proof. vm_compute. reflexivity. Qed.

Lemma LayerNorm_first_shape (training : bool) (c : Z) (eps : float)
    (n c' h w : Z) :
  c' = c ->
  forward_shape_all training (Leaf (LayerNorm c eps "channels_first"))
                    [n; c'; h; w]
  = Some [n; c'; h; w].
Proof.
  intros ->.
  cbn [forward_shape_all layer_shape_all].
  unfold LayerNorm_forward_shape.
  change (String.eqb "channels_first" "channels_last") with false.
  change (String.eqb "channels_first" "channels_first") with true.
  cbn [List.length Z.of_nat Pos.of_succ_nat Pos.succ Z.leb Z.compare
       Pos.compare Pos.compare_cont].
  rewrite broadcast_channels_first. cbn [obind].
  apply broadcast_channels_first.
Qed.

Lemma forward_shape_all_Block (training : bool)
    (dwconv norm pwconv1 act pwconv2 drop_path : Module) (s : Shape) :
  forward_shape_all training
    (Node "Block" [dwconv; norm; pwconv1; act; pwconv2; drop_path]) s =
  obind (forward_shape_all training dwconv s) (fun x =>
  obind (permute_0231 x) (fun x =>
  obind (forward_shape_all training norm x) (fun x =>
  obind (forward_shape_all training pwconv1 x) (fun x =>
  obind (forward_shape_all training act x) (fun x =>
  obind (forward_shape_all training pwconv2 x) (fun x =>
  obind (permute_0312 x) (fun x =>
  obind (forward_shape_all training drop_path x) (fun x =>
  broadcast_shapes s x)))))))).
Proof. reflexivity. Qed.

Lemma Conv2d_inv (training : bool) (cin cout k st p g : Z) (b : bool)
    (n c h w : Z) (s1 : Shape) :
  forward_shape_all training (Leaf (Conv2d cin cout k st p g b)) [n; c; h; w]
  = Some s1 ->
  c = cin /\ k <= h + 2 * p /\ k <= w + 2 * p
  /\ s1 = [n; cout; conv_out h k st p; conv_out w k st p].
Proof.
  cbn [forward_shape_all layer_shape_all layer_shape].
  destruct (Z.eqb_spec c cin); [| discriminate].
  destruct (0 <? st); [| discriminate].
  destruct (0 <=? p); [| discriminate].
  destruct (Z.leb_spec k (h + 2 * p)); [| discriminate].
  destruct (Z.leb_spec k (w + 2 * p)); [| discriminate].
  cbn [andb]. intro Hs. injection Hs as <-. auto.
Qed.

Lemma plain_Block_shape (training : bool) (dim n c h w : Z) :
  c = dim -> 1 <= h -> 1 <= w ->
  forward_shape_all training (plain_Block dim) [n; c; h; w]
  = Some [n; c; h; w].
Proof.
  intros -> Hh Hw. unfold plain_Block. rewrite forward_shape_all_Block.
  rewrite (Conv2d_shape _ _ _ _ _ _ _ _ _ _ _ _ h w) by arith.
  cbn [obind permute_0231 forward_shape_all layer_shape_all layer_shape].
  unfold LayerNorm_forward_shape.
  change (String.eqb "channels_last" "channels_last") with true.
  do 4 (cbn [obind permute_0231 forward_shape_all layer_shape_all
              layer_shape linear_shape rev app permute_0312];
        unfold linear_shape;
        rewrite ?Z.eqb_refl).
  apply broadcast_shapes_same.
Qed.

Lemma plain_Block_inv (training : bool) (dim n c h w : Z) (s1 : Shape) :
  forward_shape_all training (plain_Block dim) [n; c; h; w] = Some s1 ->
  c = dim /\ 1 <= h /\ 1 <= w /\ s1 = [n; c; h; w].
Proof.
  intro H.
  assert (Hc : c = dim /\ 1 <= h /\ 1 <= w).
  { unfold plain_Block in H. rewrite forward_shape_all_Block in H.
    destruct (forward_shape_all training
                (Leaf (Conv2d dim dim 3 1 1 dim true)) [n; c; h; w])
      as [x |] eqn:E; [| discriminate H].
    apply Conv2d_inv in E. destruct E as [E1 [E2 [E3 _]]].
    repeat split; [exact E1 | lia | lia]. }
  destruct Hc as [Hc [Hh Hw]].
  rewrite (plain_Block_shape training dim n c h w Hc Hh Hw) in H.
  injection H as <-. auto.
Qed.

Lemma stage_shape (training : bool) (dim : Z) (k : nat) (n c h w : Z) :
  c = dim -> 1 <= h -> 1 <= w ->
  forward_shape_all training (Sequential (repeat (plain_Block dim) k))
                    [n; c; h; w]
  = Some [n; c; h; w].
Proof.
  intros Hc Hh Hw. rewrite forward_shape_all_Sequential.
  rewrite <- (app_nil_r (repeat _ k)).
  rewrite run_shapes_all_repeat; [reflexivity |].
  apply plain_Block_shape; assumption.
Qed.

Lemma stage_inv (training : bool) (dim : Z) (k : nat) (n c h w : Z)
    (s1 : Shape) :
  forward_shape_all training (Sequential (repeat (plain_Block dim) (S k)))
                    [n; c; h; w] = Some s1 ->
  c = dim /\ 1 <= h /\ 1 <= w /\ s1 = [n; c; h; w].
Proof.
  intro H.
  assert (Hc : c = dim /\ 1 <= h /\ 1 <= w).
  { rewrite forward_shape_all_Sequential in H. cbn [repeat run_shapes_all] in H.
    destruct (forward_shape_all training (plain_Block dim) [n; c; h; w])
      as [x |] eqn:E; [| discriminate H].
    apply plain_Block_inv in E. tauto. }
  destruct Hc as [Hc [Hh Hw]].
  rewrite (stage_shape training dim (S k) n c h w Hc Hh Hw) in H.
  injection H as <-. auto.
Qed.

Lemma drop_path_module_shape (training : bool) (drop_path : float)
    (n c h w : Z) :
  training = false \/ is_probability (1 - drop_path) = true ->
  forward_shape_all training (drop_path_module drop_path) [n; c; h; w]
  = Some [n; c; h; w].
Proof.
  intro H. unfold drop_path_module.
  destruct (0 <? drop_path)%float; [| reflexivity].
  cbn [forward_shape_all layer_shape_all]. unfold DropPath_shape.
  destruct (drop_path =? 0)%float; [reflexivity |].
  destruct H as [-> | ->]; [reflexivity |].
  destruct training; reflexivity.
Qed.

(** X22.  For a positive [dim], [Block(dim, drop_path,
    layer_scale_init_value)] is built, with or without stochastic depth
    and layer scale.  Outside training, or when [1 - drop_path] is a
    probability, its forward pass returns on a batch of shape
    [(n, c, h, w)], [n] positive, exactly when [c] is [dim] (and the sides
    are positive): it then gives back the shape it was given. *)
Theorem Block_shape :
  forall (training : bool) (dim : Z)
         (drop_path layer_scale_init_value : float),
    1 <= dim ->
    training = false \/ is_probability (1 - drop_path) = true ->
    exists block,
      Block dim drop_path layer_scale_init_value = Ok block
      /\ forall (n c h w : Z) (s : Shape),
           1 <= n ->
           (forward_shape_all training block [n; c; h; w] = Some s
            <-> c = dim /\ 1 <= h /\ 1 <= w /\ s = [n; c; h; w]).
Proof.
  intros training dim drop_path layer_scale_init_value _ Hdrop.
  eexists. split; [reflexivity |].
  intros n c h w s _.
  assert (Hfwd : c = dim -> 1 <= h -> 1 <= w ->
                 forward_shape_all training
                   (Node "Block"
                      [Leaf (Conv2d dim dim 3 1 1 dim true);
                       Leaf (LayerNorm dim eps_default "channels_last");
                       Leaf (Linear dim (4 * dim));
                       Leaf GELU;
                       Leaf (Linear (4 * dim) dim);
                       drop_path_module drop_path]) [n; c; h; w]
                 = Some [n; c; h; w]).
  { intros -> Hh Hw. rewrite forward_shape_all_Block.
    rewrite (Conv2d_shape _ _ _ _ _ _ _ _ _ _ _ _ h w) by arith.
    cbn [obind permute_0231 forward_shape_all layer_shape_all layer_shape].
    unfold LayerNorm_forward_shape.
    change (String.eqb "channels_last" "channels_last") with true.
    do 4 (cbn [obind permute_0231 forward_shape_all layer_shape_all
                layer_shape linear_shape rev app permute_0312];
          unfold linear_shape;
          rewrite ?Z.eqb_refl).
    fold (forward_shape_all training (drop_path_module drop_path)
                            [n; dim; h; w]).
    rewrite (drop_path_module_shape training drop_path n dim h w Hdrop).
    cbn [obind]. apply broadcast_shapes_same. }
  split.
  - intro H.
    assert (Hc : c = dim /\ 1 <= h /\ 1 <= w).
    { rewrite forward_shape_all_Block in H.
      destruct (forward_shape_all training
                  (Leaf (Conv2d dim dim 3 1 1 dim true)) [n; c; h; w])
        as [x |] eqn:E; [| discriminate H].
      apply Conv2d_inv in E. destruct E as [E1 [E2 [E3 _]]].
      repeat split; [exact E1 | lia | lia]. }
    destruct Hc as [Hc [Hh Hw]].
    rewrite (Hfwd Hc Hh Hw) in H. injection H as <-. auto.
  - intros (Hc & Hh & Hw & ->). apply Hfwd; assumption.
Qed.

Lemma Block_shape_witness :
  exists block,
    Block 96 0x1p-3%float layer_scale_default = Ok block
    /\ forward_shape_all true block [2; 96; 56; 56] = Some [2; 96; 56; 56].
Proof.
  assert (H : 1 <= 96) by lia.
  assert (Hn : 1 <= 2) by lia.
  destruct (Block_shape true 96 0x1p-3%float layer_scale_default H
              (or_intror eq_refl)) as (block & Hb & Hf).
  exists block. split; [exact Hb |].
  apply (proj2 (Hf 2 96 56 56 [2; 96; 56; 56] Hn)).
  repeat split; lia.
Defined.

Lemma ConvnextGenerator_layout (input_nc output_nc ngf : Z)
    (norm_layer : NormLayer) (use_dropout : bool) :
  define_G_net input_nc output_nc ngf "convnext" norm_layer use_dropout =
  Ok (Node "ConvnextGenerator"
        [ModuleList
           [Sequential (repeat (plain_Block 96) 3);
            Sequential (repeat (plain_Block 192) 3);
            Sequential (repeat (plain_Block 384) 9);
            Sequential (repeat (plain_Block 768) 3)];
         Sequential [Leaf (Conv2d input_nc ngf 4 4 0 1 true); LN1 ngf];
         Sequential [Leaf (Conv2d ngf (ngf * 2) 2 2 0 1 true); LN1 (ngf * 2)];
         Sequential [Leaf (Conv2d (ngf * 2) (ngf * 4) 2 2 0 1 true);
                     LN1 (ngf * 4)];
         Sequential [Leaf (Conv2d (ngf * 4) (ngf * 8) 2 2 0 1 true);
                     LN1 (ngf * 8)];
         Sequential [Leaf (ConvTranspose2d (ngf * 8) (ngf * 4) 2 2 0 0 true);
                     LN1 (ngf * 4)];
         Sequential [Leaf (ConvTranspose2d (ngf * 4) (ngf * 2) 2 2 0 0 true);
                     LN1 (ngf * 2)];
         Sequential [Leaf (ConvTranspose2d (ngf * 2) ngf 2 2 0 0 true);
                     LN1 ngf];
         Sequential [Leaf (ConvTranspose2d ngf output_nc 4 4 0 0 true);
                     LN1 output_nc];
         Sequential [Leaf (ConvTranspose2d (ngf * 8) (ngf * 4) 3 1 1 0 false);
                     LN1 (ngf * 4)];
         Sequential [Leaf (ConvTranspose2d (ngf * 4) (ngf * 2) 3 1 1 0 false);
                     LN1 (ngf * 2)];
         Sequential [Leaf (ConvTranspose2d (ngf * 2) ngf 3 1 1 0 false);
                     LN1 ngf];
         Sequential [Leaf (ConvTranspose2d (ngf * 8) (ngf * 4) 3 1 1 0 false);
                     LN1 (ngf * 4)];
         Leaf Tanh]).
Proof.
  change (define_G_net input_nc output_nc ngf "convnext" norm_layer
                       use_dropout)
    with (ConvnextGenerator input_nc output_nc ngf 0 depths_default
                            dims_default layer_scale_default).
  unfold ConvnextGenerator. rewrite stages_default. reflexivity.
Qed.

Lemma forward_shape_all_Convnext (training : bool)
    (name : string) (stage0 stage1 stage2 stage3 : Module)
    (encoder1 encoder2 encoder3 encoder4 : Module)
    (decoder4 decoder3 decoder2 decoder1 : Module)
    (upconv4 upconv3 upconv2 upconv1 act : Module) (s : Shape) :
  forward_shape_all training
    (Node "ConvnextGenerator"
       [Node name [stage0; stage1; stage2; stage3];
        encoder1; encoder2; encoder3; encoder4;
        decoder4; decoder3; decoder2; decoder1;
        upconv4; upconv3; upconv2; upconv1; act]) s =
  obind (forward_shape_all training encoder1 s) (fun en1 =>
  obind (forward_shape_all training stage0 en1) (fun enx1 =>
  obind (forward_shape_all training encoder2 enx1) (fun en2 =>
  obind (forward_shape_all training stage1 en2) (fun enx2 =>
  obind (forward_shape_all training encoder3 enx2) (fun en3 =>
  obind (forward_shape_all training stage2 en3) (fun enx3 =>
  obind (forward_shape_all training encoder4 enx3) (fun en4 =>
  obind (forward_shape_all training stage3 en4) (fun bottle_x =>
  obind (forward_shape_all training decoder4 bottle_x) (fun de4 =>
  obind (cat1 de4 enx3) (fun dex4 =>
  obind (forward_shape_all training upconv4 dex4) (fun dex4 =>
  obind (forward_shape_all training decoder3 dex4) (fun de3 =>
  obind (cat1 de3 enx2) (fun dex3 =>
  obind (forward_shape_all training upconv3 dex3) (fun dex3 =>
  obind (forward_shape_all training decoder2 dex3) (fun de2 =>
  obind (cat1 de2 enx1) (fun dex2 =>
  obind (forward_shape_all training upconv2 dex2) (fun dex2 =>
  obind (forward_shape_all training decoder1 dex2) (fun de1 =>
  forward_shape_all training act de1)))))))))))))))))).
Proof. reflexivity. Qed.

Lemma cat1_same (n c1 c2 h w : Z) :
  cat1 [n; c1; h; w] [n; c2; h; w] = Some [n; c1 + c2; h; w].
Proof.
  unfold cat1, shape_eqb. rewrite Z.eqb_refl.
  destruct (list_eq_dec Z.eq_dec [h; w] [h; w]) as [_ | Hne];
    [reflexivity | contradiction Hne; reflexivity].
Qed.

(** A two-layer [nn.Sequential] of a convolution (or its transpose) and a
    channels-first [LayerNorm]. *)
Ltac pair_gives :=
  rewrite forward_shape_all_Sequential;
  match goal with
  | |- run_shapes_all _ _ _ = Some ?s1 =>
      rewrite (run_shapes_all_cons _ _ _ _ s1); [| layer_gives];
      rewrite (run_shapes_all_cons _ _ _ _ s1);
      [reflexivity | apply LayerNorm_first_shape; arith]
  end.

(** The next call of a forward pass written as a chain: name its result,
    then show the call gives it. *)
Ltac call s1 :=
  match goal with
  | |- obind ?c _ = _ =>
      replace c with (Some s1); [cbn [obind] | symmetry]
  end.

(** X14.  Through [define_G], the ["convnext"] generator with [ngf = 96]
    accepts a batch of images whose sides are at most 3 above a multiple
    of 32, and returns images with [output_nc] channels and the sides
    rounded down to that multiple. *)
Theorem convnext_generator_shape :
  forall (training : bool) (input_nc output_nc ngf : Z)
         (norm_layer : NormLayer) (use_dropout : bool) (n a b r q : Z),
    ngf = 96 ->
    1 <= input_nc -> 1 <= output_nc -> 1 <= n ->
    1 <= a -> 1 <= b -> 0 <= r <= 3 -> 0 <= q <= 3 ->
    exists net,
      define_G_net input_nc output_nc ngf "convnext" norm_layer use_dropout
        = Ok net
      /\ forward_shape_all training net
           [n; input_nc; 32 * a + r; 32 * b + q]
         = Some [n; output_nc; 32 * a; 32 * b].
Proof.
  intros training input_nc output_nc ngf norm_layer use_dropout n a b r q
         -> _ _ Hn Ha Hb Hr Hq.
  eexists. split; [apply ConvnextGenerator_layout |].
  unfold ModuleList. rewrite forward_shape_all_Convnext.
  call [n; 96; 8 * a; 8 * b]; [| pair_gives].
  call [n; 96; 8 * a; 8 * b]; [| apply stage_shape; arith].
  call [n; 96 * 2; 4 * a; 4 * b]; [| pair_gives].
  call [n; 96 * 2; 4 * a; 4 * b]; [| apply stage_shape; arith].
  call [n; 96 * 4; 2 * a; 2 * b]; [| pair_gives].
  call [n; 96 * 4; 2 * a; 2 * b]; [| apply stage_shape; arith].
  call [n; 96 * 8; a; b]; [| pair_gives].
  call [n; 96 * 8; a; b]; [| apply stage_shape; arith].
  call [n; 96 * 4; 2 * a; 2 * b]; [| pair_gives].
  rewrite cat1_same; cbn [obind].
  call [n; 96 * 4; 2 * a; 2 * b]; [| pair_gives].
  call [n; 96 * 2; 4 * a; 4 * b]; [| pair_gives].
  rewrite cat1_same; cbn [obind].
  call [n; 96 * 2; 4 * a; 4 * b]; [| pair_gives].
  call [n; 96; 8 * a; 8 * b]; [| pair_gives].
  rewrite cat1_same; cbn [obind].
  call [n; 96; 8 * a; 8 * b]; [| pair_gives].
  call [n; output_nc; 32 * a; 32 * b]; [| pair_gives].
  reflexivity.
Qed.

Lemma convnext_generator_shape_witness :
  exists net,
    define_G_net 3 3 96 "convnext" (class_ cls_BatchNorm2d) false = Ok net
    /\ forward_shape_all true net [1; 3; 32 * 7 + 2; 32 * 7 + 0]
       = Some [1; 3; 32 * 7; 32 * 7].
Proof.
  apply (convnext_generator_shape true 3 3 96 (class_ cls_BatchNorm2d) false
           1 7 7 2 0 eq_refl);
    lia.
Defined.

Lemma ConvTranspose2d_inv (training : bool) (cin cout k st p op : Z)
    (b : bool) (n c h w : Z) (s1 : Shape) :
  forward_shape_all training (Leaf (ConvTranspose2d cin cout k st p op b))
                    [n; c; h; w] = Some s1 ->
  c = cin /\ 0 < h /\ 0 < w
  /\ s1 = [n; cout; conv_transpose_out h k st p op;
           conv_transpose_out w k st p op].
Proof.
  cbn [forward_shape_all layer_shape_all].
  destruct (Z.eqb_spec c cin); [| discriminate].
  destruct (0 <? st); [| discriminate].
  destruct (0 <=? p); [| discriminate].
  destruct (0 <=? op); [| discriminate].
  destruct (op <? st); [| discriminate].
  destruct (Z.ltb_spec 0 h); [| discriminate].
  destruct (Z.ltb_spec 0 w); [| discriminate].
  destruct (0 <? conv_transpose_out h k st p op); [| discriminate].
  destruct (0 <? conv_transpose_out w k st p op); [| discriminate].
  cbn [andb]. intro Hs. injection Hs as <-. auto.
Qed.

Lemma Conv2d_LN_inv (training : bool) (cin cout k st p g : Z) (b : bool)
    (n c h w : Z) (s1 : Shape) :
  forward_shape_all training
    (Sequential [Leaf (Conv2d cin cout k st p g b); LN1 cout]) [n; c; h; w]
  = Some s1 ->
  c = cin /\ k <= h + 2 * p /\ k <= w + 2 * p
  /\ s1 = [n; cout; conv_out h k st p; conv_out w k st p].
Proof.
  rewrite forward_shape_all_Sequential. cbn [run_shapes_all].
  destruct (forward_shape_all training (Leaf (Conv2d cin cout k st p g b))
              [n; c; h; w]) as [x |] eqn:E; [| discriminate].
  apply Conv2d_inv in E. destruct E as [E1 [E2 [E3 ->]]].
  cbn [obind]. unfold LN1.
  rewrite LayerNorm_first_shape by reflexivity. cbn [obind].
  intro Hs. injection Hs as <-. auto.
Qed.

Lemma ConvTranspose2d_LN_inv (training : bool) (cin cout k st p op : Z)
    (b : bool) (n c h w : Z) (s1 : Shape) :
  forward_shape_all training
    (Sequential [Leaf (ConvTranspose2d cin cout k st p op b); LN1 cout])
    [n; c; h; w]
  = Some s1 ->
  c = cin /\ 0 < h /\ 0 < w
  /\ s1 = [n; cout; conv_transpose_out h k st p op;
           conv_transpose_out w k st p op].
Proof.
  rewrite forward_shape_all_Sequential. cbn [run_shapes_all].
  destruct (forward_shape_all training
              (Leaf (ConvTranspose2d cin cout k st p op b))
              [n; c; h; w]) as [x |] eqn:E; [| discriminate].
  apply ConvTranspose2d_inv in E. destruct E as [E1 [E2 [E3 ->]]].
  cbn [obind]. unfold LN1.
  rewrite LayerNorm_first_shape by reflexivity. cbn [obind].
  intro Hs. injection Hs as <-. auto.
Qed.

Lemma cat1_inv (n1 c1 h1 w1 n2 c2 h2 w2 : Z) (s : Shape) :
  cat1 [n1; c1; h1; w1] [n2; c2; h2; w2] = Some s ->
  n1 = n2 /\ h1 = h2 /\ w1 = w2 /\ s = [n1; c1 + c2; h2; w2].
Proof.
  unfold cat1, shape_eqb.
  destruct (Z.eqb_spec n1 n2); [| discriminate].
  destruct (list_eq_dec Z.eq_dec [h1; w1] [h2; w2]) as [E | _];
    [| discriminate].
  cbn [andb]. injection E as -> ->. intro Hs. injection Hs as <-. auto.
Qed.

(** The next call of a chain that returned: name what it gave. *)
Ltac called H E :=
  match type of H with
  | obind ?c _ = Some _ =>
      let x := fresh "x" in
      destruct c as [x |] eqn:E; [cbn [obind] in H | discriminate H]
  end.

(** The sides the encoder and decoder of a ConvNeXt generator agree on:
    [h1 .. h4] are the heights after the four encoders, and the three
    equations are the concatenations of the decoder. *)
Lemma convnext_sides (h h1 h2 h3 h4 : Z) :
  4 <= h ->
  h1 = conv_out h 4 4 0 -> h2 = conv_out h1 2 2 0 ->
  h3 = conv_out h2 2 2 0 -> h4 = conv_out h3 2 2 0 ->
  2 <= h3 ->
  conv_transpose_out h4 2 2 0 0 = h3 ->
  conv_transpose_out (conv_transpose_out h3 3 1 1 0) 2 2 0 0 = h2 ->
  conv_transpose_out (conv_transpose_out h2 3 1 1 0) 2 2 0 0 = h1 ->
  32 <= h /\ h mod 32 <= 3
  /\ conv_transpose_out (conv_transpose_out h1 3 1 1 0) 4 4 0 0
     = h - h mod 32.
Proof.
  unfold conv_transpose_out. intros Hh E1 _ _ _ H3 E5 E6 E7.
  assert (B : 4 * h1 <= h <= 4 * h1 + 3).
  { subst h1. unfold conv_out. clear - Hh.
    Z.to_euclidean_division_equations. lia. }
  clear E1.
  assert (E : h1 = 8 * h4 /\ 1 <= h4) by lia.
  destruct E as [-> H4]. clear - B H4.
  Z.to_euclidean_division_equations. lia.
Qed.

(** X15.  The ["convnext"] generator of [define_G] returns on a batch of
    shape [(n, c, h, w)] only when [ngf] is 96 (the width of the first
    stage of blocks, which does not follow [ngf]), [c] is [input_nc], and
    each side is at least 32 and at most 3 above a multiple of 32; the
    output then has [output_nc] channels and the sides rounded down to
    that multiple. *)
Theorem convnext_generator_needs :
  forall (training : bool) (input_nc output_nc ngf : Z)
         (norm_layer : NormLayer) (use_dropout : bool) (net : Module)
         (n c h w : Z) (s' : Shape),
    define_G_net input_nc output_nc ngf "convnext" norm_layer use_dropout
      = Ok net ->
    forward_shape_all training net [n; c; h; w] = Some s' ->
    ngf = 96 /\ c = input_nc
    /\ 32 <= h /\ h mod 32 <= 3 /\ 32 <= w /\ w mod 32 <= 3
    /\ s' = [n; output_nc; h - h mod 32; w - w mod 32].
Proof.
  intros training input_nc output_nc ngf norm_layer use_dropout net
         n c h w s' Hnet H.
  rewrite ConvnextGenerator_layout in Hnet. injection Hnet as <-.
  unfold ModuleList in H. rewrite forward_shape_all_Convnext in H.
  called H E1. apply Conv2d_LN_inv in E1.
  destruct E1 as [Hc [Hh0 [Hw0 ->]]].
  called H E2. apply (stage_inv _ _ 2) in E2.
  destruct E2 as [Hngf [Hh1 [Hw1 ->]]]. subst ngf.
  called H E3. apply Conv2d_LN_inv in E3. destruct E3 as [_ [Hh2 [Hw2 ->]]].
  called H E4. apply (stage_inv _ _ 2) in E4. destruct E4 as [_ [_ [_ ->]]].
  called H E5. apply Conv2d_LN_inv in E5. destruct E5 as [_ [Hh3 [Hw3 ->]]].
  called H E6. apply (stage_inv _ _ 8) in E6. destruct E6 as [_ [_ [_ ->]]].
  called H E7. apply Conv2d_LN_inv in E7. destruct E7 as [_ [Hh4 [Hw4 ->]]].
  called H E8. apply (stage_inv _ _ 2) in E8. destruct E8 as [_ [_ [_ ->]]].
  called H E9. apply ConvTranspose2d_LN_inv in E9.
  destruct E9 as [_ [_ [_ ->]]].
  called H C4. apply cat1_inv in C4. destruct C4 as [_ [Hh5 [Hw5 ->]]].
  called H E10. apply ConvTranspose2d_LN_inv in E10.
  destruct E10 as [_ [_ [_ ->]]].
  called H E11. apply ConvTranspose2d_LN_inv in E11.
  destruct E11 as [_ [_ [_ ->]]].
  called H C3. apply cat1_inv in C3. destruct C3 as [_ [Hh6 [Hw6 ->]]].
  called H E12. apply ConvTranspose2d_LN_inv in E12.
  destruct E12 as [_ [_ [_ ->]]].
  called H E13. apply ConvTranspose2d_LN_inv in E13.
  destruct E13 as [_ [_ [_ ->]]].
  called H C2. apply cat1_inv in C2. destruct C2 as [_ [Hh7 [Hw7 ->]]].
  called H E14. apply ConvTranspose2d_LN_inv in E14.
  destruct E14 as [_ [_ [_ ->]]].
  called H E15. apply ConvTranspose2d_LN_inv in E15.
  destruct E15 as [_ [_ [_ ->]]].
  cbn [forward_shape_all layer_shape_all layer_shape] in H.
  injection H as <-.
  destruct (convnext_sides h _ _ _ _ ltac:(lia) eq_refl eq_refl eq_refl
              eq_refl ltac:(lia) Hh5 Hh6 Hh7) as [Hh [Hhm Hho]].
  destruct (convnext_sides w _ _ _ _ ltac:(lia) eq_refl eq_refl eq_refl
              eq_refl ltac:(lia) Hw5 Hw6 Hw7) as [Hw [Hwm Hwo]].
  rewrite Hho, Hwo. auto 10.
Qed.

Lemma convnext_generator_needs_witness :
  96 = 96 /\ 3 = 3
  /\ 32 <= 34 /\ 34 mod 32 <= 3 /\ 32 <= 64 /\ 64 mod 32 <= 3
  /\ [1; 5; 32; 64] = [1; 5; 34 - 34 mod 32; 64 - 64 mod 32].
Proof.
  apply (convnext_generator_needs true 3 5 96 (class_ cls_BatchNorm2d) false
           _ 1 3 34 64 _ eq_refl eq_refl).
Defined.

(** ** [ConvnextBIGenerator] *)

Lemma ConvnextBIGenerator_layout (input_nc output_nc ngf : Z)
    (norm_layer : NormLayer) (use_dropout : bool) :
  define_G_net input_nc output_nc ngf "Convnext_Interpolation" norm_layer
               use_dropout =
  Ok (Node "ConvnextBIGenerator"
        [ModuleList
           [Sequential (repeat (plain_Block 96) 3);
            Sequential (repeat (plain_Block 192) 3);
            Sequential (repeat (plain_Block 384) 9);
            Sequential (repeat (plain_Block 768) 3)];
         Sequential [Leaf (Conv2d input_nc ngf 4 4 0 1 true); LN1 ngf];
         Sequential [Leaf (Conv2d ngf (ngf * 2) 2 2 0 1 true); LN1 (ngf * 2)];
         Sequential [Leaf (Conv2d (ngf * 2) (ngf * 4) 2 2 0 1 true);
                     LN1 (ngf * 4)];
         Sequential [Leaf (Conv2d (ngf * 4) (ngf * 8) 2 2 0 1 true);
                     LN1 (ngf * 8)];
         Sequential [Leaf (Resize 14 14);
                     Leaf (Conv2d (ngf * 8) (ngf * 4) 1 1 0 1 true);
                     LN1 (ngf * 4)];
         Sequential [Leaf (Resize 28 28);
                     Leaf (Conv2d (ngf * 4) (ngf * 2) 1 1 0 1 true);
                     LN1 (ngf * 2)];
         Sequential [Leaf (ConvTranspose2d (ngf * 2) ngf 2 2 0 0 true);
                     LN1 ngf];
         Sequential [Leaf (ConvTranspose2d ngf output_nc 4 4 0 0 true);
                     LN1 output_nc];
         Sequential [Leaf (Resize 224 224);
                     Leaf (ConvTranspose2d output_nc output_nc 1 1 0 0 true);
                     LN1 output_nc];
         Sequential [Leaf (Conv2d (ngf * 8) (ngf * 4) 3 1 1 1 false);
                     LN1 (ngf * 4)];
         Sequential [Leaf (Conv2d (ngf * 4) (ngf * 2) 3 1 1 1 false);
                     LN1 (ngf * 2)];
         Sequential [Leaf (Conv2d (ngf * 2) ngf 3 1 1 1 false); LN1 ngf];
         Sequential [Leaf (Conv2d (ngf * 8) (ngf * 4) 3 1 1 1 false);
                     LN1 (ngf * 4)];
         Leaf Tanh]).
Proof.
  change (define_G_net input_nc output_nc ngf "Convnext_Interpolation"
                       norm_layer use_dropout)
    with (ConvnextBIGenerator input_nc output_nc ngf 0 depths_default
                              dims_default layer_scale_default).
  unfold ConvnextBIGenerator. rewrite stages_default. reflexivity.
Qed.

Lemma forward_shape_all_ConvnextBI (training : bool)
    (name : string) (stage0 stage1 stage2 stage3 : Module)
    (encoder1 encoder2 encoder3 encoder4 : Module)
    (decoder4 decoder3 decoder2 decoder1 decoder0 : Module)
    (upconv4 upconv3 upconv2 upconv1 act : Module) (s : Shape) :
  forward_shape_all training
    (Node "ConvnextBIGenerator"
       [Node name [stage0; stage1; stage2; stage3];
        encoder1; encoder2; encoder3; encoder4;
        decoder4; decoder3; decoder2; decoder1; decoder0;
        upconv4; upconv3; upconv2; upconv1; act]) s =
  obind (forward_shape_all training encoder1 s) (fun en1 =>
  obind (forward_shape_all training stage0 en1) (fun enx1 =>
  obind (forward_shape_all training encoder2 enx1) (fun en2 =>
  obind (forward_shape_all training stage1 en2) (fun enx2 =>
  obind (forward_shape_all training encoder3 enx2) (fun en3 =>
  obind (forward_shape_all training stage2 en3) (fun enx3 =>
  obind (forward_shape_all training encoder4 enx3) (fun en4 =>
  obind (forward_shape_all training stage3 en4) (fun bottle_x =>
  obind (forward_shape_all training decoder4 bottle_x) (fun de4 =>
  obind (cat1 de4 enx3) (fun dex4 =>
  obind (forward_shape_all training upconv4 dex4) (fun dex4 =>
  obind (forward_shape_all training decoder3 dex4) (fun de3 =>
  obind (cat1 de3 enx2) (fun dex3 =>
  obind (forward_shape_all training upconv3 dex3) (fun dex3 =>
  obind (forward_shape_all training decoder2 dex3) (fun de2 =>
  obind (cat1 de2 enx1) (fun dex2 =>
  obind (forward_shape_all training upconv2 dex2) (fun dex2 =>
  obind (forward_shape_all training decoder1 dex2) (fun de1 =>
  forward_shape_all training act de1)))))))))))))))))).
Proof. reflexivity. Qed.

Lemma Resize_shape (training : bool) (height width n c h w : Z) :
  0 < h -> 0 < w ->
  forward_shape_all training (Leaf (Resize height width)) [n; c; h; w]
  = Some [n; c; height; width].
Proof.
  intros Hh Hw. cbn [forward_shape_all layer_shape_all].
  replace (0 <? h) with true by (symmetry; apply Z.ltb_lt; exact Hh).
  replace (0 <? w) with true by (symmetry; apply Z.ltb_lt; exact Hw).
  reflexivity.
Qed.

Lemma Resize_inv (training : bool) (height width n c h w : Z) (s1 : Shape) :
  forward_shape_all training (Leaf (Resize height width)) [n; c; h; w]
  = Some s1 ->
  0 < h /\ 0 < w /\ s1 = [n; c; height; width].
Proof.
  cbn [forward_shape_all layer_shape_all].
  destruct (Z.ltb_spec 0 h); [| discriminate].
  destruct (Z.ltb_spec 0 w); [| discriminate].
  cbn [andb]. intro Hs. injection Hs as <-. auto.
Qed.

(** A decoder of the interpolating generator: [Resize], a 1 x 1
    convolution, a channels-first [LayerNorm]. *)
Lemma Resize_Conv2d_LN_shape (training : bool) (height width cin cout g : Z)
    (b : bool) (n c h w : Z) :
  c = cin -> 0 < h -> 0 < w -> 1 <= height -> 1 <= width ->
  forward_shape_all training
    (Sequential [Leaf (Resize height width);
                 Leaf (Conv2d cin cout 1 1 0 g b); LN1 cout]) [n; c; h; w]
  = Some [n; cout; height; width].
Proof.
  intros Hc Hh Hw Hht Hwd. rewrite forward_shape_all_Sequential.
  rewrite (run_shapes_all_cons _ _ _ _ [n; c; height; width])
    by (apply Resize_shape; assumption).
  rewrite (run_shapes_all_cons _ _ _ _ [n; cout; height; width])
    by (apply Conv2d_shape; arith).
  rewrite (run_shapes_all_cons _ _ _ _ [n; cout; height; width])
    by (apply LayerNorm_first_shape; reflexivity).
  reflexivity.
Qed.

Lemma Resize_Conv2d_LN_inv (training : bool) (height width cin cout g : Z)
    (b : bool) (n c h w : Z) (s1 : Shape) :
  1 <= height -> 1 <= width ->
  forward_shape_all training
    (Sequential [Leaf (Resize height width);
                 Leaf (Conv2d cin cout 1 1 0 g b); LN1 cout]) [n; c; h; w]
  = Some s1 ->
  c = cin /\ 0 < h /\ 0 < w /\ s1 = [n; cout; height; width].
Proof.
  intros Hht Hwd. rewrite forward_shape_all_Sequential.
  cbn [run_shapes_all].
  destruct (forward_shape_all training (Leaf (Resize height width))
              [n; c; h; w]) as [x |] eqn:E; [| discriminate].
  apply Resize_inv in E. destruct E as [Hh [Hw ->]]. cbn [obind].
  destruct (forward_shape_all training (Leaf (Conv2d cin cout 1 1 0 g b))
              [n; c; height; width]) as [x |] eqn:E; [| discriminate].
  apply Conv2d_inv in E. destruct E as [Hc [_ [_ ->]]]. cbn [obind].
  unfold LN1. rewrite LayerNorm_first_shape by reflexivity. cbn [obind].
  intro Hs. injection Hs as <-.
  repeat split; try assumption.
  do 2 f_equal. f_equal; [| f_equal]; arith.
Qed.

Lemma convnextBI_sides (h h1 h2 : Z) :
  4 <= h ->
  h1 = conv_out h 4 4 0 ->
  28 = h2 ->
  conv_transpose_out (conv_out h2 3 1 1) 2 2 0 0 = h1 ->
  224 <= h <= 227
  /\ conv_transpose_out (conv_out h1 3 1 1) 4 4 0 0 = 224.
Proof.
  unfold conv_transpose_out, conv_out. intros Hh -> <-.
  change ((28 + 2 * 1 - 3) / 1 + 1) with 28. intro E.
  rewrite <- E. split; [| reflexivity].
  clear - Hh E. Z.to_euclidean_division_equations. lia.
Qed.

(** X16.  The ["Convnext_Interpolation"] generator of [define_G], with
    [ngf = 96], accepts a batch of images whose sides are between 224 and
    227 and returns images of 224 x 224 with [output_nc] channels. *)
Theorem interpolation_generator_shape :
  forall (training : bool) (input_nc output_nc ngf : Z)
         (norm_layer : NormLayer) (use_dropout : bool) (n h w : Z),
    ngf = 96 ->
    1 <= input_nc -> 1 <= output_nc -> 1 <= n ->
    224 <= h <= 227 -> 224 <= w <= 227 ->
    exists net,
      define_G_net input_nc output_nc ngf "Convnext_Interpolation"
                   norm_layer use_dropout = Ok net
      /\ forward_shape_all training net [n; input_nc; h; w]
         = Some [n; output_nc; 224; 224].
Proof.
  intros training input_nc output_nc ngf norm_layer use_dropout n h w
         -> _ _ Hn Hh Hw.
  eexists. split; [apply ConvnextBIGenerator_layout |].
  unfold ModuleList. rewrite forward_shape_all_ConvnextBI.
  call [n; 96; 56; 56]; [| pair_gives].
  call [n; 96; 56; 56]; [| apply stage_shape; arith].
  call [n; 96 * 2; 28; 28]; [| pair_gives].
  call [n; 96 * 2; 28; 28]; [| apply stage_shape; arith].
  call [n; 96 * 4; 14; 14]; [| pair_gives].
  call [n; 96 * 4; 14; 14]; [| apply stage_shape; arith].
  call [n; 96 * 8; 7; 7]; [| pair_gives].
  call [n; 96 * 8; 7; 7]; [| apply stage_shape; arith].
  call [n; 96 * 4; 14; 14]; [| apply Resize_Conv2d_LN_shape; arith].
  rewrite cat1_same; cbn [obind].
  call [n; 96 * 4; 14; 14]; [| pair_gives].
  call [n; 96 * 2; 28; 28]; [| apply Resize_Conv2d_LN_shape; arith].
  rewrite cat1_same; cbn [obind].
  call [n; 96 * 2; 28; 28]; [| pair_gives].
  call [n; 96; 56; 56]; [| pair_gives].
  rewrite cat1_same; cbn [obind].
  call [n; 96; 56; 56]; [| pair_gives].
  call [n; output_nc; 224; 224]; [| pair_gives].
  reflexivity.
Qed.

Lemma interpolation_generator_shape_witness :
  exists net,
    define_G_net 3 3 96 "Convnext_Interpolation" (class_ cls_BatchNorm2d)
                 false = Ok net
    /\ forward_shape_all true net [1; 3; 227; 225] = Some [1; 3; 224; 224].
Proof.
  apply (interpolation_generator_shape true 3 3 96 (class_ cls_BatchNorm2d)
           false 1 227 225 eq_refl);
    lia.
Defined.

(** X17.  The ["Convnext_Interpolation"] generator returns on a batch of
    shape [(n, c, h, w)] only when [ngf] is 96, [c] is [input_nc] and both
    sides are between 224 and 227: the decoder resizes to 14 x 14 and
    28 x 28 whatever it is given, and the concatenations with the encoder
    outputs fix the rest.  The output is then 224 x 224. *)
Theorem interpolation_generator_needs :
  forall (training : bool) (input_nc output_nc ngf : Z)
         (norm_layer : NormLayer) (use_dropout : bool) (net : Module)
         (n c h w : Z) (s' : Shape),
    define_G_net input_nc output_nc ngf "Convnext_Interpolation" norm_layer
                 use_dropout = Ok net ->
    forward_shape_all training net [n; c; h; w] = Some s' ->
    ngf = 96 /\ c = input_nc
    /\ 224 <= h <= 227 /\ 224 <= w <= 227
    /\ s' = [n; output_nc; 224; 224].
Proof.
  intros training input_nc output_nc ngf norm_layer use_dropout net
         n c h w s' Hnet H.
  rewrite ConvnextBIGenerator_layout in Hnet. injection Hnet as <-.
  unfold ModuleList in H. rewrite forward_shape_all_ConvnextBI in H.
  called H E1. apply Conv2d_LN_inv in E1.
  destruct E1 as [Hc [Hh0 [Hw0 ->]]].
  called H E2. apply (stage_inv _ _ 2) in E2.
  destruct E2 as [Hngf [Hh1 [Hw1 ->]]]. subst ngf.
  called H E3. apply Conv2d_LN_inv in E3. destruct E3 as [_ [Hh2 [Hw2 ->]]].
  called H E4. apply (stage_inv _ _ 2) in E4. destruct E4 as [_ [_ [_ ->]]].
  called H E5. apply Conv2d_LN_inv in E5. destruct E5 as [_ [Hh3 [Hw3 ->]]].
  called H E6. apply (stage_inv _ _ 8) in E6. destruct E6 as [_ [_ [_ ->]]].
  called H E7. apply Conv2d_LN_inv in E7. destruct E7 as [_ [Hh4 [Hw4 ->]]].
  called H E8. apply (stage_inv _ _ 2) in E8. destruct E8 as [_ [_ [_ ->]]].
  called H E9. apply Resize_Conv2d_LN_inv in E9; [| lia | lia].
  destruct E9 as [_ [_ [_ ->]]].
  called H C4. apply cat1_inv in C4. destruct C4 as [_ [Hh5 [Hw5 ->]]].
  called H E10. apply Conv2d_LN_inv in E10. destruct E10 as [_ [_ [_ ->]]].
  called H E11. apply Resize_Conv2d_LN_inv in E11; [| lia | lia].
  destruct E11 as [_ [_ [_ ->]]].
  called H C3. apply cat1_inv in C3. destruct C3 as [_ [Hh6 [Hw6 ->]]].
  called H E12. apply Conv2d_LN_inv in E12. destruct E12 as [_ [_ [_ ->]]].
  called H E13. apply ConvTranspose2d_LN_inv in E13.
  destruct E13 as [_ [_ [_ ->]]].
  called H C2. apply cat1_inv in C2. destruct C2 as [_ [Hh7 [Hw7 ->]]].
  called H E14. apply Conv2d_LN_inv in E14. destruct E14 as [_ [_ [_ ->]]].
  called H E15. apply ConvTranspose2d_LN_inv in E15.
  destruct E15 as [_ [_ [_ ->]]].
  cbn [forward_shape_all layer_shape_all layer_shape] in H.
  injection H as <-.
  destruct (convnextBI_sides h _ _ ltac:(lia) eq_refl Hh6 Hh7) as [Hh Hho].
  destruct (convnextBI_sides w _ _ ltac:(lia) eq_refl Hw6 Hw7) as [Hw Hwo].
  rewrite Hho, Hwo. auto 10.
Qed.

Lemma interpolation_generator_needs_witness :
  96 = 96 /\ 3 = 3 /\ 224 <= 226 <= 227 /\ 224 <= 224 <= 227
  /\ [2; 5; 224; 224] = [2; 5; 224; 224].
Proof.
  apply (interpolation_generator_needs true 3 5 96 (class_ cls_BatchNorm2d)
           false _ 2 3 226 224 _ eq_refl eq_refl).
Defined.

(** ** [NLayerDiscriminator] with any number of layers *)

Lemma div_lower (h m q : Z) : 0 < m -> q * m <= h -> q <= h / m.
Proof.
  intros Hm H. apply Z.div_le_lower_bound; [exact Hm |]. lia.
Qed.

Lemma NLayerDiscriminator_loop (training : bool) (input_nc ndf : Z)
    (norm_layer : NormLayer) (xs : list Z) :
  is_factory norm_layer = true ->
  forall (sequence : list Module) (nf_mult nf_mult_prev m : Z),
    1 <= m ->
    halves training input_nc sequence m (ndf * nf_mult) ->
    exists sequence' nf_mult' nf_mult_prev',
      for_ xs (sequence, nf_mult, nf_mult_prev)
        (fun n '(sequence, nf_mult, nf_mult_prev) =>
           let nf_mult_prev := nf_mult in
           let nf_mult := Z.min (2 ^ n) 8 in
           norm <- call_norm_layer norm_layer (ndf * nf_mult) ;;
           Ok (sequence ++
               [Leaf (Conv2d (ndf * nf_mult_prev) (ndf * nf_mult) 4 2 1 1
                             (use_bias_of norm_layer));
                Leaf norm;
                Leaf (LeakyReLU two_tenths true)],
               nf_mult, nf_mult_prev))
      = Ok (sequence', nf_mult', nf_mult_prev')
      /\ halves training input_nc sequence'
                (2 ^ Z.of_nat (List.length xs) * m) (ndf * nf_mult').
Proof.
  intro Hf. induction xs as [| i xs IH];
    intros sequence nf_mult nf_mult_prev m Hm Hinv.
  - exists sequence, nf_mult, nf_mult_prev. split; [reflexivity |].
    cbn [List.length Z.of_nat]. rewrite Z.pow_0_r, Z.mul_1_l. exact Hinv.
  - cbn [for_]. rewrite (call_norm_of _ _ Hf). cbn [bind].
    destruct (IH (sequence ++
                  [Leaf (Conv2d (ndf * nf_mult) (ndf * Z.min (2 ^ i) 8)
                                4 2 1 1 (use_bias_of norm_layer));
                   Leaf (norm_of norm_layer (ndf * Z.min (2 ^ i) 8));
                   Leaf (LeakyReLU two_tenths true)])
                 (Z.min (2 ^ i) 8) nf_mult (2 * m) ltac:(lia))
      as (sequence' & nf_mult' & nf_mult_prev' & Hfor & Hinv').
    + intros n h w Hn Hh Hw. rewrite run_shapes_all_app.
      rewrite (Hinv n h w) by lia. cbn [obind].
      assert (Hx : 4 <= h / m) by (apply div_lower; lia).
      assert (Hy : 4 <= w / m) by (apply div_lower; lia).
      replace (h / (2 * m)) with (h / m / 2)
        by (rewrite Z.div_div by lia; f_equal; ring).
      replace (w / (2 * m)) with (w / m / 2)
        by (rewrite Z.div_div by lia; f_equal; ring).
      set (x := h / m) in *. set (y := w / m) in *.
      step [n; ndf * Z.min (2 ^ i) 8; x / 2; y / 2].
      step [n; ndf * Z.min (2 ^ i) 8; x / 2; y / 2].
      step [n; ndf * Z.min (2 ^ i) 8; x / 2; y / 2].
      reflexivity.
    + exists sequence', nf_mult', nf_mult_prev'. split; [exact Hfor |].
      replace (2 ^ Z.of_nat (List.length (i :: xs)) * m)
        with (2 ^ Z.of_nat (List.length xs) * (2 * m)); [exact Hinv' |].
      cbn [List.length]. rewrite Nat2Z.inj_succ, Z.pow_succ_r by lia. ring.
Qed.

Lemma range_from_length (a b : Z) :
  List.length (range_from a b) = Z.to_nat (b - a).
Proof. unfold range_from. rewrite length_map, length_seq. reflexivity. Qed.

Lemma NLayerDiscriminator_built (training : bool) (input_nc ndf n_layers : Z)
    (norm_layer : NormLayer) :
  is_factory norm_layer = true -> 0 <= n_layers ->
  exists sequence,
    NLayerDiscriminator input_nc ndf n_layers norm_layer
    = Ok (Node "NLayerDiscriminator" [Sequential sequence])
    /\ forall n h w, 1 <= n ->
         3 * 2 ^ Z.max 1 n_layers <= h -> 3 * 2 ^ Z.max 1 n_layers <= w ->
         run_shapes_all training sequence [n; input_nc; h; w]
         = Some [n; 1; h / 2 ^ Z.max 1 n_layers - 2;
                 w / 2 ^ Z.max 1 n_layers - 2].
Proof.
  intros Hf Hl. unfold NLayerDiscriminator.
  destruct (NLayerDiscriminator_loop training input_nc ndf norm_layer
              (range_from 1 n_layers) Hf
              [Leaf (Conv2d input_nc ndf 4 2 1 1 true);
               Leaf (LeakyReLU two_tenths true)] 1 1 2 ltac:(lia))
    as (sequence & nf_mult & nf_mult_prev & Hfor & Hinv).
  { intros n h w Hn Hh Hw.
    step [n; ndf; h / 2; w / 2]. step [n; ndf; h / 2; w / 2].
    rewrite Z.mul_1_r. reflexivity. }
  cbv zeta in Hfor |- *. rewrite Hfor. cbn [bind].
  replace (n_layers <? 0) with false by (symmetry; apply Z.ltb_ge; exact Hl).
  rewrite (call_norm_of _ _ Hf). cbn [bind].
  eexists. split; [reflexivity |].
  rewrite range_from_length in Hinv.
  assert (Hp : 2 ^ Z.max 1 n_layers
               = 2 ^ Z.of_nat (Z.to_nat (n_layers - 1)) * 2).
  { destruct (Z.eq_dec n_layers 0) as [-> | Hne]; [reflexivity |].
    rewrite Z2Nat.id, Z.max_r by lia.
    replace n_layers with (Z.succ (n_layers - 1)) at 1 by lia.
    rewrite Z.pow_succ_r by lia. ring. }
  rewrite Hp. set (m := 2 ^ Z.of_nat (Z.to_nat (n_layers - 1)) * 2) in *.
  assert (Hm : 0 < m).
  { unfold m.
    pose proof (Z.pow_pos_nonneg 2 (Z.of_nat (Z.to_nat (n_layers - 1)))).
    lia. }
  intros n h w Hn Hh Hw. rewrite <- app_assoc. cbn [app].
  rewrite run_shapes_all_app.
  rewrite (Hinv n h w) by lia. cbn [obind].
  assert (Hx : 3 <= h / m) by (apply div_lower; lia).
  assert (Hy : 3 <= w / m) by (apply div_lower; lia).
  set (x := h / m) in *. set (y := w / m) in *.
  step [n; ndf * Z.min (2 ^ n_layers) 8; x - 1; y - 1].
  step [n; ndf * Z.min (2 ^ n_layers) 8; x - 1; y - 1].
  step [n; ndf * Z.min (2 ^ n_layers) 8; x - 1; y - 1].
  step [n; 1; x - 2; y - 2].
  reflexivity.
Qed.

(** X18.  A PatchGAN with any number [n_layers >= 0] of layers and any
    normalization factory divides the sides by [2^max(1, n_layers)],
    rounding down, and then trims them by 2: it accepts every batch whose
    sides are at least three times that power and returns a one-channel
    map.  With [n_layers = 0] the network still halves once. *)
Theorem NLayerDiscriminator_shape :
  forall (training : bool) (input_nc ndf n_layers : Z)
         (norm_layer : NormLayer) (n h w : Z),
    is_factory norm_layer = true -> 0 <= n_layers ->
    1 <= input_nc -> 1 <= ndf -> 1 <= n ->
    3 * 2 ^ Z.max 1 n_layers <= h -> 3 * 2 ^ Z.max 1 n_layers <= w ->
    exists net,
      NLayerDiscriminator input_nc ndf n_layers norm_layer = Ok net
      /\ forward_shape_all training net [n; input_nc; h; w]
         = Some [n; 1; h / 2 ^ Z.max 1 n_layers - 2;
                 w / 2 ^ Z.max 1 n_layers - 2].
Proof.
  intros training input_nc ndf n_layers norm_layer n h w Hf Hl _ _ Hn Hh Hw.
  destruct (NLayerDiscriminator_built training input_nc ndf n_layers
              norm_layer Hf Hl) as (sequence & Hnet & Hrun).
  eexists. split; [exact Hnet |].
  change (forward_shape_all training (Node "NLayerDiscriminator" [?m]) ?s)
    with (forward_shape_all training m s).
  rewrite forward_shape_all_Sequential. apply Hrun; assumption.
Qed.

Lemma NLayerDiscriminator_shape_witness :
  exists net,
    NLayerDiscriminator 3 64 5 (partial cls_InstanceNorm2d false false)
    = Ok net
    /\ forward_shape_all true net [1; 3; 256; 100]
       = Some [1; 1; 256 / 2 ^ Z.max 1 5 - 2; 100 / 2 ^ Z.max 1 5 - 2].
Proof.
  apply (NLayerDiscriminator_shape true 3 64 5
           (partial cls_InstanceNorm2d false false) 1 256 100 eq_refl);
    vm_compute; congruence.
Defined.

(** X19.  [define_D] knows exactly four kinds.  With a normalization
    factory, [n_layers_D >= 0] and positive channel counts, ["basic"] and
    ["n_layers"] give an [NLayerDiscriminator], ["pixel"] a
    [PixelDiscriminator] and ["binary"] a [Discriminator_Classify]; every
    other name raises the [NotImplementedError] that quotes it.  The
    ["binary"] kind does not pass [ndf] on: the classifier always has the
    constructor's default width, 96. *)
Theorem define_D_kinds :
  forall (input_nc ndf n_layers_D : Z) (netD : string)
         (norm_layer : NormLayer),
    is_factory norm_layer = true -> 0 <= n_layers_D ->
    (str_in netD discriminator_kinds = true ->
     1 <= input_nc -> 1 <= ndf ->
     exists net,
       define_D_net input_nc ndf netD n_layers_D norm_layer = Ok net
       /\ classname_of net = discriminator_class netD)
    /\ (str_in netD discriminator_kinds = false ->
        define_D_net input_nc ndf netD n_layers_D norm_layer =
        Raise (NotImplementedError
                 (fmt1 "Discriminator model name [" netD
                       "] is not recognized")))
    /\ (1 <= input_nc ->
        define_D_net input_nc ndf "binary" n_layers_D norm_layer
        = Ok (Discriminator_Classify input_nc 96)).
Proof.
  intros input_nc ndf n_layers_D netD norm_layer Hf Hl.
  split; [| split; [| reflexivity]].
  - intros H _ _. unfold discriminator_kinds in H. name_cases H.
    + destruct (NLayerDiscriminator_built true input_nc ndf 3 norm_layer Hf
                  ltac:(lia)) as (sequence & Hnet & _).
      eexists. split; [exact Hnet | reflexivity].
    + destruct (NLayerDiscriminator_built true input_nc ndf n_layers_D
                  norm_layer Hf Hl) as (sequence & Hnet & _).
      eexists. split; [exact Hnet | reflexivity].
    + eexists. split;
        [apply PixelDiscriminator_layout; exact Hf | reflexivity].
    + eexists. split; reflexivity.
  - intro H. unfold discriminator_kinds in H. name_none H.
    unfold define_D_net. rewrite Hne, Hne0, Hne1, Hne2. reflexivity.
Qed.

Lemma define_D_kinds_witness :
  exists net,
    define_D_net 3 64 "n_layers" 4 (partial cls_BatchNorm2d true true)
    = Ok net
    /\ classname_of net = "NLayerDiscriminator".
Proof.
  assert (H : 0 <= 4) by lia.
  assert (H1 : 1 <= 3) by lia.
  assert (H2 : 1 <= 64) by lia.
  apply (proj1 (define_D_kinds 3 64 4 "n_layers"
                  (partial cls_BatchNorm2d true true) eq_refl H)
               eq_refl H1 H2).
Defined.

(** ** [UnetGenerator] *)

Lemma UnetSkipConnectionBlock_forward_eq (training outermost : bool)
    (model : list Module) (x : Shape) :
  UnetSkipConnectionBlock_forward_shape training outermost
    (Node "UnetSkipConnectionBlock" [Sequential model]) x =
  obind (unet_run training model x) (fun y =>
  if outermost then Some y else cat1 x y).
Proof.
  unfold Sequential. cbn [UnetSkipConnectionBlock_forward_shape].
  change (String.eqb "UnetSkipConnectionBlock" "UnetSkipConnectionBlock")
    with true.
  change (String.eqb "Sequential" "Sequential") with true. cbv iota.
  f_equal. revert x.
  induction model as [| c ms IH]; intro s; [reflexivity |].
  cbn [unet_run].
  destruct (UnetSkipConnectionBlock_forward_shape training false c s)
    as [s1 |]; cbn [obind]; [apply IH | reflexivity].
Qed.

Lemma unet_run_leaf (training : bool) (l : Layer) (ms : list Module)
    (s s1 : Shape) :
  forward_shape_all training (Leaf l) s = Some s1 ->
  unet_run training (Leaf l :: ms) s = unet_run training ms s1.
Proof.
  intro H. cbn [unet_run UnetSkipConnectionBlock_forward_shape].
  cbn [forward_shape_all] in H. rewrite H. reflexivity.
Qed.

Lemma unet_run_block (training : bool) (m : Module) (ms : list Module)
    (s s1 : Shape) :
  UnetSkipConnectionBlock_forward_shape training false m s = Some s1 ->
  unet_run training (m :: ms) s = unet_run training ms s1.
Proof. intro H. cbn [unet_run]. rewrite H. reflexivity. Qed.

Lemma unet_run_leaf_inv (training : bool) (l : Layer) (ms : list Module)
    (s s2 : Shape) :
  unet_run training (Leaf l :: ms) s = Some s2 ->
  exists s1,
    forward_shape_all training (Leaf l) s = Some s1
    /\ unet_run training ms s1 = Some s2.
Proof.
  cbn [unet_run UnetSkipConnectionBlock_forward_shape forward_shape_all].
  destruct (layer_shape_all training l s) as [s1 |]; [| discriminate].
  cbn [obind]. intro H. exists s1. split; [reflexivity | exact H].
Qed.

Lemma unet_run_block_inv (training : bool) (m : Module) (ms : list Module)
    (s s2 : Shape) :
  unet_run training (m :: ms) s = Some s2 ->
  exists s1,
    UnetSkipConnectionBlock_forward_shape training false m s = Some s1
    /\ unet_run training ms s1 = Some s2.
Proof.
  cbn [unet_run].
  destruct (UnetSkipConnectionBlock_forward_shape training false m s)
    as [s1 |]; [| discriminate].
  cbn [obind]. intro H. exists s1. split; [reflexivity | exact H].
Qed.

(** The next layer of a block of the U-Net. *)
Ltac ustep s1 :=
  rewrite (unet_run_leaf _ _ _ _ s1); [| layer_gives].

(** The layers that give back the shape they are given, when they give
    one. *)
Lemma same_shape_inv (training : bool) (l : Layer) (s s1 : Shape) :
  keeps_shape l = true ->
  forward_shape_all training (Leaf l) s = Some s1 -> s1 = s.
Proof.
  intros Hk H. cbn [forward_shape_all] in H.
  destruct l; try discriminate Hk; cbn [layer_shape_all] in H;
    try exact (keeps_shape_sound training _ s s1 Hk H).
  unfold DropPath_shape in H.
  destruct ((drop_prob =? 0)%float || negb training);
    [injection H as <-; reflexivity |].
  destruct s as [| n s]; [discriminate H |].
  destruct (is_probability (1 - drop_prob)); [| discriminate H].
  injection H as <-. reflexivity.
Qed.

Lemma norm_of_keeps (norm_layer : NormLayer) (c : Z) :
  is_factory norm_layer = true -> keeps_shape (norm_of norm_layer c) = true.
Proof.
  destruct norm_layer as [[|] a t | [|] | m |]; intro H;
    try discriminate H; reflexivity.
Qed.

Lemma conv_out_half (x : Z) : conv_out (2 * x) 4 2 1 = x.
Proof. arith. Qed.

Lemma conv_transpose_out_double (x : Z) :
  conv_transpose_out x 4 2 1 0 = 2 * x.
Proof. arith. Qed.

Lemma down_shape (training : bool) (cin cout : Z) (b : bool)
    (n c m x y : Z) :
  c = cin -> 1 <= m -> 1 <= x -> 1 <= y ->
  forward_shape_all training (Leaf (Conv2d cin cout 4 2 1 1 b))
                    [n; c; 2 * m * x; 2 * m * y]
  = Some [n; cout; m * x; m * y].
Proof.
  intros Hc Hm Hx Hy.
  replace (2 * m * x) with (2 * (m * x)) by ring.
  replace (2 * m * y) with (2 * (m * y)) by ring.
  apply Conv2d_shape; try rewrite conv_out_half; try nia; try reflexivity;
    exact Hc.
Qed.

Lemma up_shape (training : bool) (cin cout : Z) (b : bool)
    (n c m x y : Z) :
  c = cin -> 1 <= m -> 1 <= x -> 1 <= y ->
  forward_shape_all training (Leaf (ConvTranspose2d cin cout 4 2 1 0 b))
                    [n; c; m * x; m * y]
  = Some [n; cout; 2 * m * x; 2 * m * y].
Proof.
  intros Hc Hm Hx Hy.
  replace (2 * m * x) with (2 * (m * x)) by ring.
  replace (2 * m * y) with (2 * (m * y)) by ring.
  apply ConvTranspose2d_shape; try rewrite conv_transpose_out_double;
    try nia; try reflexivity; try exact Hc; lia.
Qed.

(** A side that comes back from a stride-2 convolution and its transpose
    unchanged is even; if the half is a multiple of [m], the side is a
    multiple of [2m]. *)
Lemma down_up_same (h m : Z) :
  0 < m -> 4 <= h + 2 * 1 ->
  (m | conv_out h 4 2 1) ->
  h = conv_transpose_out (conv_out h 4 2 1) 4 2 1 0 ->
  (2 * m | h).
Proof.
  intros Hm Hh [t Ht] E. rewrite conv_transpose_out_double in E.
  exists t. lia.
Qed.

(** The steps of a chain that returned, one layer at a time. *)
Ltac uleaf H E :=
  apply unet_run_leaf_inv in H;
  let s1 := fresh "s" in destruct H as (s1 & E & H).

Ltac usame H :=
  let E := fresh "E" in
  uleaf H E;
  apply same_shape_inv in E; [subst | first [reflexivity | auto]].

(** The innermost block. *)
Lemma innermost_block (training : bool) (outer_nc inner_nc : Z)
    (norm_layer : NormLayer) (use_dropout : bool) :
  is_factory norm_layer = true ->
  exists block,
    UnetSkipConnectionBlock outer_nc inner_nc None None false true
                            norm_layer use_dropout = Ok block
    /\ skips training block outer_nc 2
    /\ skips_only training block outer_nc 2.
Proof.
  intro Hf. unfold UnetSkipConnectionBlock.
  rewrite !(call_norm_of _ _ Hf). cbn [bind app].
  eexists. split; [reflexivity |]. split.
  - intros n x y Hn Hx Hy. rewrite UnetSkipConnectionBlock_forward_eq.
    ustep [n; outer_nc; 2 * x; 2 * y].
    rewrite (unet_run_leaf _ _ _ _ [n; inner_nc; 1 * x; 1 * y])
      by (replace (2 * x) with (2 * 1 * x) by ring;
          replace (2 * y) with (2 * 1 * y) by ring;
          apply down_shape; [reflexivity | lia ..]).
    ustep [n; inner_nc; 1 * x; 1 * y].
    rewrite (unet_run_leaf _ _ _ _ [n; outer_nc; 2 * 1 * x; 2 * 1 * y])
      by (apply up_shape; [reflexivity | lia ..]).
    rewrite (unet_run_leaf _ _ _ _ [n; outer_nc; 2 * 1 * x; 2 * 1 * y])
      by (apply norm_of_shape; [exact Hf | reflexivity | lia | nia]).
    cbn [unet_run obind]. rewrite Z.mul_1_r. apply cat1_same.
  - intros n c' h w s H. rewrite UnetSkipConnectionBlock_forward_eq in H.
    called H R.
    usame R.
    uleaf R E1. apply Conv2d_inv in E1. destruct E1 as (Hc & Hh & Hw & ->).
    usame R.
    uleaf R E2. apply ConvTranspose2d_inv in E2.
    destruct E2 as (_ & Hh1 & Hw1 & ->).
    uleaf R E3. apply same_shape_inv in E3; [| apply norm_of_keeps, Hf].
    subst. cbn [unet_run] in R. injection R as <-.
    apply cat1_inv in H. destruct H as (_ & Eh & Ew & ->).
    pose proof (down_up_same h 1 ltac:(lia) Hh (Z.divide_1_l _) Eh) as Dh.
    pose proof (down_up_same w 1 ltac:(lia) Hw (Z.divide_1_l _) Ew) as Dw.
    rewrite <- Eh, <- Ew.
    repeat split; try assumption; try reflexivity; lia.
Qed.

(** A block around a block that skips. *)
Lemma middle_block (training : bool) (outer_nc inner_nc : Z)
    (norm_layer : NormLayer) (use_dropout : bool) (sub : Module) (m : Z) :
  is_factory norm_layer = true ->
  2 <= m ->
  skips training sub inner_nc m ->
  skips_only training sub inner_nc m ->
  exists block,
    UnetSkipConnectionBlock outer_nc inner_nc None (Some sub) false false
                            norm_layer use_dropout = Ok block
    /\ skips training block outer_nc (2 * m)
    /\ skips_only training block outer_nc (2 * m).
Proof.
  intros Hf Hm Hsub Honly. unfold UnetSkipConnectionBlock.
  rewrite !(call_norm_of _ _ Hf). cbn [bind app with_submodule].
  destruct use_dropout; cbn [bind app with_submodule];
    (eexists; split; [reflexivity |]); (split;
    [ intros n x y Hn Hx Hy; rewrite UnetSkipConnectionBlock_forward_eq;
      ustep [n; outer_nc; 2 * m * x; 2 * m * y];
      (rewrite (unet_run_leaf _ _ _ _ [n; inner_nc; m * x; m * y])
        by (apply down_shape; [reflexivity | lia ..]));
      (rewrite (unet_run_leaf _ _ _ _ [n; inner_nc; m * x; m * y])
        by (apply norm_of_shape; [exact Hf | reflexivity | lia | nia]));
      (rewrite (unet_run_block _ _ _ _
                  [n; inner_nc + inner_nc; m * x; m * y])
        by (apply Hsub; assumption));
      ustep [n; inner_nc + inner_nc; m * x; m * y];
      (rewrite (unet_run_leaf _ _ _ _ [n; outer_nc; 2 * m * x; 2 * m * y])
        by (apply up_shape; [lia | lia ..]));
      (rewrite (unet_run_leaf _ _ _ _ [n; outer_nc; 2 * m * x; 2 * m * y])
        by (apply norm_of_shape; [exact Hf | reflexivity | lia | nia]));
      try ustep [n; outer_nc; 2 * m * x; 2 * m * y];
      cbn [unet_run obind]; apply cat1_same
    | intros n c' h w s H; rewrite UnetSkipConnectionBlock_forward_eq in H;
      called H R;
      usame R;
      uleaf R E1; apply Conv2d_inv in E1;
      destruct E1 as (Hc & Hh & Hw & ->);
      uleaf R E2; (apply same_shape_inv in E2; [| apply norm_of_keeps, Hf]);
      subst;
      apply unet_run_block_inv in R; destruct R as (s1 & E3 & R);
      apply Honly in E3; destruct E3 as (_ & Hh1 & Hw1 & Dh1 & Dw1 & ->);
      usame R;
      uleaf R E4; apply ConvTranspose2d_inv in E4;
      destruct E4 as (_ & _ & _ & ->);
      uleaf R E5; (apply same_shape_inv in E5; [| apply norm_of_keeps, Hf]);
      subst;
      try usame R;
      cbn [unet_run] in R; injection R as <-;
      apply cat1_inv in H; destruct H as (_ & Eh & Ew & ->);
      pose proof (down_up_same h m ltac:(lia) Hh Dh1 Eh) as Dh;
      pose proof (down_up_same w m ltac:(lia) Hw Dw1 Ew) as Dw;
      rewrite <- Eh, <- Ew;
      repeat split; try assumption; try reflexivity; lia ]).
Qed.

Lemma UnetGenerator_loop (training : bool) (ngf : Z)
    (norm_layer : NormLayer) (use_dropout : bool) (xs : list Z) :
  is_factory norm_layer = true ->
  forall (unet_block : Module) (m : Z),
    2 <= m ->
    skips training unet_block (ngf * 8) m ->
    skips_only training unet_block (ngf * 8) m ->
    exists unet_block',
      for_ xs unet_block (fun i unet_block =>
        UnetSkipConnectionBlock (ngf * 8) (ngf * 8) None (Some unet_block)
          false false norm_layer use_dropout)
      = Ok unet_block'
      /\ skips training unet_block' (ngf * 8)
               (2 ^ Z.of_nat (List.length xs) * m)
      /\ skips_only training unet_block' (ngf * 8)
                    (2 ^ Z.of_nat (List.length xs) * m).
Proof.
  intro Hf. induction xs as [| i xs IH]; intros unet_block m Hm Hsub Honly.
  - exists unet_block. split; [reflexivity |].
    cbn [List.length Z.of_nat]. rewrite Z.pow_0_r, Z.mul_1_l.
    split; assumption.
  - cbn [for_].
    destruct (middle_block training (ngf * 8) (ngf * 8) norm_layer
                use_dropout unet_block m Hf Hm Hsub Honly)
      as (block & Hb & Hs & Ho).
    rewrite Hb. cbn [bind].
    destruct (IH block (2 * m) ltac:(lia) Hs Ho) as (block' & Hfor & Hs').
    exists block'. split; [exact Hfor |].
    replace (2 ^ Z.of_nat (List.length (i :: xs)) * m)
      with (2 ^ Z.of_nat (List.length xs) * (2 * m)); [exact Hs' |].
    cbn [List.length]. rewrite Nat2Z.inj_succ, Z.pow_succ_r by lia. ring.
Qed.

(** The network [UnetGenerator] builds: an outermost block around a block
    that skips, on sides that are multiples of half the power of two. *)
Lemma UnetGenerator_built (training : bool)
    (input_nc output_nc num_downs ngf : Z) (norm_layer : NormLayer)
    (use_dropout : bool) :
  is_factory norm_layer = true ->
  exists unet_block k,
    UnetGenerator input_nc output_nc num_downs ngf norm_layer use_dropout
    = Ok (Node "UnetGenerator"
            [Node "UnetSkipConnectionBlock"
               [Sequential
                  [Leaf (Conv2d input_nc ngf 4 2 1 1
                                (use_bias_of norm_layer));
                   unet_block;
                   Leaf (ReLU true);
                   Leaf (ConvTranspose2d (ngf * 2) output_nc 4 2 1 0 true);
                   Leaf Tanh]]])
    /\ 2 ^ Z.max 5 num_downs = 2 * k /\ 2 <= k
    /\ skips training unet_block ngf k
    /\ skips_only training unet_block ngf k.
Proof.
  intro Hf. unfold UnetGenerator.
  destruct (innermost_block training (ngf * 8) (ngf * 8) norm_layer false Hf)
    as (b0 & E0 & S0 & O0).
  rewrite E0. cbn [bind].
  destruct (UnetGenerator_loop training ngf norm_layer use_dropout
              (range (num_downs - 5)) Hf b0 2 ltac:(lia) S0 O0)
    as (b1 & E1 & S1 & O1).
  rewrite E1. cbn [bind]. rewrite range_length in S1, O1.
  set (m := 2 ^ Z.of_nat (Z.to_nat (num_downs - 5)) * 2) in S1, O1.
  assert (Hm : 2 <= m).
  { unfold m.
    pose proof (Z.pow_pos_nonneg 2 (Z.of_nat (Z.to_nat (num_downs - 5)))).
    lia. }
  destruct (middle_block training (ngf * 4) (ngf * 8) norm_layer false
              b1 m Hf Hm S1 O1) as (b2 & E2 & S2 & O2).
  rewrite E2. cbn [bind].
  destruct (middle_block training (ngf * 2) (ngf * 4) norm_layer false
              b2 (2 * m) Hf ltac:(lia) S2 O2) as (b3 & E3 & S3 & O3).
  rewrite E3. cbn [bind].
  destruct (middle_block training ngf (ngf * 2) norm_layer false
              b3 (2 * (2 * m)) Hf ltac:(lia) S3 O3) as (b4 & E4 & S4 & O4).
  rewrite E4. cbn [bind].
  unfold UnetSkipConnectionBlock. rewrite !(call_norm_of _ _ Hf).
  cbn [bind app with_submodule].
  exists b4, (2 * (2 * (2 * m))).
  split; [reflexivity |]. split; [| split; [lia | split; assumption]].
  unfold m. destruct (Z.le_gt_cases num_downs 5) as [Hle | Hgt].
  - rewrite Z.max_l by lia.
    replace (Z.to_nat (num_downs - 5)) with 0%nat by lia. reflexivity.
  - rewrite Z.max_r, Z2Nat.id by lia.
    replace num_downs with (5 + (num_downs - 5)) at 1 by lia.
    rewrite Z.pow_add_r by lia. change (2 ^ 5) with 32. ring.
Qed.

Lemma forward_shape_UnetGenerator (training : bool) (model : list Module)
    (input : Shape) :
  UnetGenerator_forward_shape training
    (Node "UnetGenerator"
       [Node "UnetSkipConnectionBlock" [Sequential model]]) input
  = unet_run training model input.
Proof.
  cbn [UnetGenerator_forward_shape].
  change (String.eqb "UnetGenerator" "UnetGenerator") with true. cbv iota.
  rewrite UnetSkipConnectionBlock_forward_eq.
  destruct (unet_run training model input); reflexivity.
Qed.

(** X20.  A [UnetGenerator] has [max(5, num_downs)] levels: a [num_downs]
    below 5 is taken as 5.  With any normalization factory it accepts a
    batch of images whose sides are a multiple of [2^max(5, num_downs)], or
    one more, and returns images with [output_nc] channels whose sides are
    that multiple. *)
Theorem UnetGenerator_shape :
  forall (training : bool) (input_nc output_nc num_downs ngf : Z)
         (norm_layer : NormLayer) (use_dropout : bool) (n a b r q : Z),
    is_factory norm_layer = true ->
    1 <= input_nc -> 1 <= output_nc -> 1 <= ngf ->
    1 <= n -> 1 <= a -> 1 <= b -> 0 <= r <= 1 -> 0 <= q <= 1 ->
    exists net,
      UnetGenerator input_nc output_nc num_downs ngf norm_layer use_dropout
        = Ok net
      /\ UnetGenerator_forward_shape training net
           [n; input_nc; 2 ^ Z.max 5 num_downs * a + r;
            2 ^ Z.max 5 num_downs * b + q]
         = Some [n; output_nc; 2 ^ Z.max 5 num_downs * a;
                 2 ^ Z.max 5 num_downs * b].
Proof.
  intros training input_nc output_nc num_downs ngf norm_layer use_dropout
         n a b r q Hf _ _ _ Hn Ha Hb Hr Hq.
  destruct (UnetGenerator_built training input_nc output_nc num_downs ngf
              norm_layer use_dropout Hf)
    as (unet_block & k & Hnet & Hp & Hk & Hskips & _).
  eexists. split; [exact Hnet |].
  rewrite forward_shape_UnetGenerator, Hp.
  rewrite (unet_run_leaf _ _ _ _ [n; ngf; k * a; k * b]).
  2: { apply Conv2d_shape; try reflexivity; try lia; try nia;
       unfold conv_out; Z.to_euclidean_division_equations; nia. }
  rewrite (unet_run_block _ _ _ _ [n; ngf + ngf; k * a; k * b])
    by (apply Hskips; assumption).
  ustep [n; ngf + ngf; k * a; k * b].
  rewrite (unet_run_leaf _ _ _ _ [n; output_nc; 2 * k * a; 2 * k * b])
    by (apply up_shape; [lia | lia ..]).
  ustep [n; output_nc; 2 * k * a; 2 * k * b].
  reflexivity.
Qed.

Lemma UnetGenerator_shape_witness :
  exists net,
    UnetGenerator 3 3 7 64 (partial cls_BatchNorm2d true true) false = Ok net
    /\ UnetGenerator_forward_shape true net
         [1; 3; 2 ^ Z.max 5 7 * 2 + 1; 2 ^ Z.max 5 7 * 1 + 0]
       = Some [1; 3; 2 ^ Z.max 5 7 * 2; 2 ^ Z.max 5 7 * 1].
Proof.
  apply (UnetGenerator_shape true 3 3 7 64
           (partial cls_BatchNorm2d true true) false 1 2 1 1 0 eq_refl);
    lia.
Defined.

(** A side the outermost block accepts. *)
Lemma outermost_side (h k : Z) :
  2 <= k -> 4 <= h + 2 * 1 -> 0 < conv_out h 4 2 1 ->
  (k | conv_out h 4 2 1) ->
  2 * k <= h /\ h mod (2 * k) <= 1
  /\ conv_transpose_out (conv_out h 4 2 1) 4 2 1 0 = h - h mod (2 * k).
Proof.
  intros Hk Hh Hpos [t Ht]. rewrite conv_transpose_out_double.
  assert (B : 2 * conv_out h 4 2 1 <= h <= 2 * conv_out h 4 2 1 + 1).
  { unfold conv_out. clear - Hh. Z.to_euclidean_division_equations. lia. }
  rewrite Ht in *. clear Ht.
  assert (Ht : 1 <= t) by nia.
  assert (E : h mod (2 * k) = h - 2 * k * t).
  { symmetry. apply (Z.mod_unique h (2 * k) t); [left |]; nia. }
  rewrite E. repeat split; nia.
Qed.

(** X21.  A [UnetGenerator] returns on a batch of shape [(n, c, h, w)]
    only when [c] is [input_nc] and each side is a multiple of
    [2^max(5, num_downs)], or one more: every level halves the sides and
    concatenates what comes back with what went in.  The output has
    [output_nc] channels and the sides rounded down to that multiple. *)
Theorem UnetGenerator_needs :
  forall (training : bool) (input_nc output_nc num_downs ngf : Z)
         (norm_layer : NormLayer) (use_dropout : bool) (net : Module)
         (n c h w : Z) (s' : Shape),
    is_factory norm_layer = true ->
    UnetGenerator input_nc output_nc num_downs ngf norm_layer use_dropout
      = Ok net ->
    UnetGenerator_forward_shape training net [n; c; h; w] = Some s' ->
    c = input_nc
    /\ 2 ^ Z.max 5 num_downs <= h /\ h mod 2 ^ Z.max 5 num_downs <= 1
    /\ 2 ^ Z.max 5 num_downs <= w /\ w mod 2 ^ Z.max 5 num_downs <= 1
    /\ s' = [n; output_nc; h - h mod 2 ^ Z.max 5 num_downs;
             w - w mod 2 ^ Z.max 5 num_downs].
Proof.
  intros training input_nc output_nc num_downs ngf norm_layer use_dropout
         net n c h w s' Hf Hnet H.
  destruct (UnetGenerator_built training input_nc output_nc num_downs ngf
              norm_layer use_dropout Hf)
    as (unet_block & k & Hnet' & Hp & Hk & _ & Honly).
  rewrite Hnet' in Hnet. injection Hnet as <-.
  rewrite forward_shape_UnetGenerator in H. rewrite Hp.
  uleaf H E1. apply Conv2d_inv in E1. destruct E1 as (Hc & Hh & Hw & ->).
  apply unet_run_block_inv in H. destruct H as (s1 & E2 & H).
  apply Honly in E2. destruct E2 as (_ & Hh1 & Hw1 & Dh & Dw & ->).
  usame H.
  uleaf H E3. apply ConvTranspose2d_inv in E3.
  destruct E3 as (_ & _ & _ & ->).
  usame H. cbn [unet_run] in H. injection H as <-.
  destruct (outermost_side h k Hk Hh Hh1 Dh) as (Bh & Mh & Oh).
  destruct (outermost_side w k Hk Hw Hw1 Dw) as (Bw & Mw & Ow).
  rewrite Oh, Ow. auto 10.
Qed.

Lemma UnetGenerator_needs_witness :
  3 = 3
  /\ 2 ^ Z.max 5 5 <= 33 /\ 33 mod 2 ^ Z.max 5 5 <= 1
  /\ 2 ^ Z.max 5 5 <= 64 /\ 64 mod 2 ^ Z.max 5 5 <= 1
  /\ [2; 1; 32; 64] = [2; 1; 33 - 33 mod 2 ^ Z.max 5 5;
                      64 - 64 mod 2 ^ Z.max 5 5].
Proof.
  apply (UnetGenerator_needs true 3 1 5 8 (class_ cls_InstanceNorm2d) false
           _ 2 3 33 64 _ eq_refl eq_refl eq_refl).
Defined.
